(** * real_state_manager: value objects, dependency provider and
      transaction lifecycle

    A shallow embedding of
    - [src/seedwork/domain/value_objects/period.py]  (module [Period]),
    - [src/seedwork/domain/value_objects/money.py]   (module [Money]),
    - [src/seedwork/domain/value_objects/date_range.py] (module
      [DateRange], over the [Datetime] of the standard library),
    - [src/modules/partner/domain/performance.py]    (module
      [Performance]),
    - [src/config/container.py]                      (modules [Container]
      and [Transaction]),
    followed by the properties proved about them. *)

From Stdlib Require Import ZArith NArith Ascii Floats.
From stdpp Require Import base numbers option list strings pretty gmap fin_maps.

Local Open Scope Z_scope.

(** ** Python exceptions and fallible results *)

(** The exceptions the embedded code can raise, with their message.
    [Raised] stands for an exception class defined outside the embedded
    files (a domain error raised by a handler, say); [Falsy] for such a
    class whose instances are false where a condition is expected (it
    defines [__bool__] or [__len__] that way). *)
Inductive exn : Type :=
| AssertionError (msg : string)
| TypeError (msg : string)
| ValueError (msg : string)
| AttributeError (msg : string)
| Raised (cls : string) (msg : string)
| Falsy (cls : string) (msg : string).

(** [str(exception)] *)
Definition exn_str (e : exn) : string :=
  match e with
  | AssertionError m | TypeError m | ValueError m | AttributeError m => m
  | Raised _ m | Falsy _ m => m
  end.

(** [bool(exception)]: an object is true unless its class says
    otherwise, and the built-in exception classes do not. *)
Definition exn_bool (e : exn) : bool :=
  match e with
  | Falsy _ _ => false
  | _ => true
  end.

(** A computation that returns a value or raises. *)
Definition result (A : Type) : Type := exn + A.
Definition Ok {A} (a : A) : result A := inr a.
Definition Raise {A} (e : exn) : result A := inl e.

Definition rbind {A B} (r : result A) (k : A -> result B) : result B :=
  match r with
  | inl e => inl e
  | inr a => k a
  end.

Declare Scope result_scope.
Delimit Scope result_scope with res.
Notation "'let*' x ':=' c 'in' k" := (rbind c (fun x => k))
  (at level 10, x name, c at level 100, k at level 200) : result_scope.

(** [assert cond, msg] *)
Definition py_assert (cond : bool) (msg : string) : result unit :=
  if cond then Ok tt else Raise (AssertionError msg).

(** ** Python strings and integers *)

Module PyStr.

(** [s.split(sep)] for a one-character separator: cuts at every
    occurrence, so [n] occurrences give [n + 1] pieces. *)
Fixpoint split (sep : ascii) (s : string) : list string :=
  match s with
  | EmptyString => [EmptyString]
  | String c r =>
      if Ascii.eqb c sep then EmptyString :: split sep r
      else match split sep r with
           | piece :: rest => String c piece :: rest
           | [] => [String c EmptyString]
           end
  end.

Definition is_digit (c : ascii) : bool :=
  match Ascii.is_nat c with Some _ => true | None => false end.

Fixpoint all_chars (P : ascii -> bool) (s : string) : bool :=
  match s with
  | EmptyString => true
  | String c r => P c && all_chars P r
  end.

(** [c != sep] *)
Definition not_char (sep c : ascii) : bool := negb (Ascii.eqb c sep).

Fixpoint lstrip (s : string) : string :=
  match s with
  | String c r => if Ascii.is_space c then lstrip r else s
  | EmptyString => EmptyString
  end.

Fixpoint rstrip (s : string) : string :=
  match s with
  | EmptyString => EmptyString
  | String c r =>
      match rstrip r with
      | EmptyString => if Ascii.is_space c then EmptyString else String c EmptyString
      | r' => String c r'
      end
  end.

(** [s.strip()] *)
Definition strip (s : string) : string := rstrip (lstrip s).

(** The digits of a decimal literal as [int()] reads them: a non-empty
    run of digits in which single underscores may separate digits.
    [after_digit] tells whether the previous character was a digit. *)
Fixpoint parse_digits (acc : Z) (after_digit : bool) (s : string) : option Z :=
  match s with
  | EmptyString => if after_digit then Some acc else None
  | String c r =>
      match Ascii.is_nat c with
      | Some d => parse_digits (10 * acc + Z.of_nat d) true r
      | None =>
          if Ascii.eqb c "_"%char && after_digit
          then parse_digits acc false r
          else None
      end
  end.

(** [int(s)] in base ten: surrounding whitespace is dropped, one sign
    is allowed, anything else raises [ValueError].  The digits are the
    ASCII ones: the decimal digits of other scripts, which [int] reads
    too, are outside this embedding.  The message shows the literal as
    [repr] prints a string that holds no quote, backslash or control
    character. *)
Definition int (s : string) : result Z :=
  let bad :=
    Raise (ValueError ("invalid literal for int() with base 10: '" +:+ s +:+ "'")) in
  let digits (negative : bool) (r : string) : result Z :=
    match parse_digits 0 false r with
    | Some n => Ok (if negative then - n else n)
    | None => bad
    end in
  match strip s with
  | String c r =>
      if Ascii.eqb c "-" then digits true r
      else if Ascii.eqb c "+" then digits false r
      else digits false (String c r)
  | EmptyString => bad
  end.

(** [str(n)] for an [int]: stdpp's [pretty] on [Z] prints the decimal
    digits, with a leading minus sign for negative numbers. *)
Definition str_int (n : Z) : string := pretty n.

Fixpoint zeros (n : nat) : string :=
  match n with
  | O => EmptyString
  | S k => String "0" (zeros k)
  end.

(** [f"{n:02d}"]: sign-aware zero padding to a total width of two. *)
Definition format_02d (n : Z) : string :=
  let sign := if n <? 0 then "-" else "" in
  let digits := pretty (Z.abs n) in
  sign +:+ zeros (2 - String.length sign - String.length digits) +:+ digits.

End PyStr.

(** ** Python's [datetime] *)

Module Datetime.

(** A naive [datetime], by its place on the time line: the microseconds
    from 0001-01-01 00:00:00, which is [datetime.min], to it.  The
    fields are read off that number as [date.fromordinal] does, and the
    constructor computes it from the fields as [date.toordinal] does. *)
Record datetime : Type := mkDatetime { ticks : Z }.

(** A [timedelta], in microseconds. *)
Record timedelta : Type := mkTimedelta { total_microseconds : Z }.

Definition us_per_second : Z := 1000000.
Definition us_per_day : Z := 86400 * us_per_second.

(** [date.max.toordinal()] *)
Definition MAXORDINAL : Z := 3652059.

(** The positions of the datetimes that exist: 0001-01-01 00:00:00 to
    9999-12-31 23:59:59.999999. *)
Definition in_range (t : Z) : bool := (0 <=? t) && (t <? MAXORDINAL * us_per_day).

(** *** The calendar *)

Definition is_leap (year : Z) : bool :=
  (year mod 4 =? 0) && (negb (year mod 100 =? 0) || (year mod 400 =? 0)).

Definition DAYS_IN_MONTH : list Z := [31; 28; 31; 30; 31; 30; 31; 31; 30; 31; 30; 31].
Definition DAYS_BEFORE_MONTH : list Z :=
  [0; 31; 59; 90; 120; 151; 181; 212; 243; 273; 304; 334].

(** The tables are indexed by the month, from 1. *)
Definition table (t : list Z) (month : Z) : Z := nth (Z.to_nat (month - 1)) t 0.

Definition days_in_month (year month : Z) : Z :=
  if (month =? 2) && is_leap year then 29 else table DAYS_IN_MONTH month.

Definition days_before_month (year month : Z) : Z :=
  table DAYS_BEFORE_MONTH month + (if (2 <? month) && is_leap year then 1 else 0).

Definition days_before_year (year : Z) : Z :=
  let y := year - 1 in y * 365 + y / 4 - y / 100 + y / 400.

(** [date(year, month, day).toordinal()] *)
Definition ymd2ord (year month day : Z) : Z :=
  days_before_year year + days_before_month year month + day.

Definition DI400Y : Z := 146097.
Definition DI100Y : Z := 36524.
Definition DI4Y : Z := 1461.

(** The month and the day of the [n]-th day of a year, counted from 0:
    the estimate [(n + 50) >> 5] is the month or the one after it. *)
Definition month_day (n : Z) (leapyear : bool) : Z * Z :=
  let month := Z.shiftr (n + 50) 5 in
  let preceding :=
    table DAYS_BEFORE_MONTH month + (if (2 <? month) && leapyear then 1 else 0) in
  if n <? preceding then
    let month := month - 1 in
    let preceding :=
      preceding
      - (table DAYS_IN_MONTH month + (if (month =? 2) && leapyear then 1 else 0)) in
    (month, n - preceding + 1)
  else (month, n - preceding + 1).

(** [date.fromordinal(n)] as year, month and day: the 400-year, the
    100-year and the 4-year cycles are taken off, then the years. *)
Definition ord2ymd (n : Z) : Z * Z * Z :=
  let n := n - 1 in
  let n400 := n / DI400Y in
  let n := n mod DI400Y in
  let year := n400 * 400 + 1 in
  let n100 := n / DI100Y in
  let n := n mod DI100Y in
  let n4 := n / DI4Y in
  let n := n mod DI4Y in
  let n1 := n / 365 in
  let n := n mod 365 in
  let year := year + n100 * 100 + n4 * 4 + n1 in
  if (n1 =? 4) || (n100 =? 4) then (year - 1, 12, 31)
  else
    let leapyear := (n1 =? 3) && (negb (n4 =? 24) || (n100 =? 3)) in
    let md := month_day n leapyear in
    (year, md.1, md.2).

(** *** The fields *)

Definition toordinal (d : datetime) : Z := ticks d / us_per_day + 1.
Definition year (d : datetime) : Z := (ord2ymd (toordinal d)).1.1.
Definition month (d : datetime) : Z := (ord2ymd (toordinal d)).1.2.
Definition day (d : datetime) : Z := (ord2ymd (toordinal d)).2.
Definition hour (d : datetime) : Z := ticks d mod us_per_day / (3600 * us_per_second).
Definition minute (d : datetime) : Z :=
  ticks d mod (3600 * us_per_second) / (60 * us_per_second).
Definition second (d : datetime) : Z := ticks d mod (60 * us_per_second) / us_per_second.
Definition microsecond (d : datetime) : Z := ticks d mod us_per_second.

(** [datetime(year, month, day, hour, minute, second, microsecond)] *)
Definition new (year month day hour minute second microsecond : Z)
    : result datetime :=
  (let* _ := if (1 <=? year) && (year <=? 9999) then Ok tt
             else Raise (ValueError
                    ("year " +:+ PyStr.str_int year +:+ " is out of range")) in
   let* _ := if (1 <=? month) && (month <=? 12) then Ok tt
             else Raise (ValueError "month must be in 1..12") in
   let* _ := if (1 <=? day) && (day <=? days_in_month year month) then Ok tt
             else Raise (ValueError "day is out of range for month") in
   let* _ := if (0 <=? hour) && (hour <=? 23) then Ok tt
             else Raise (ValueError "hour must be in 0..23") in
   let* _ := if (0 <=? minute) && (minute <=? 59) then Ok tt
             else Raise (ValueError "minute must be in 0..59") in
   let* _ := if (0 <=? second) && (second <=? 59) then Ok tt
             else Raise (ValueError "second must be in 0..59") in
   let* _ := if (0 <=? microsecond) && (microsecond <=? 999999) then Ok tt
             else Raise (ValueError "microsecond must be in 0..999999") in
   Ok (mkDatetime
         ((ymd2ord year month day - 1) * us_per_day
          + ((hour * 60 + minute) * 60 + second) * us_per_second + microsecond)))%res.

(** *** Comparison and arithmetic *)

(** [a < b] *)
Definition lt (a b : datetime) : bool := ticks a <? ticks b.

(** [a - b] *)
Definition sub (a b : datetime) : timedelta := mkTimedelta (ticks a - ticks b).

(** [delta.days]: whole days, rounded towards the past. *)
Definition days (delta : timedelta) : Z := total_microseconds delta / us_per_day.

(** [a + delta] *)
Definition add (a : datetime) (delta : timedelta) : result datetime :=
  let t := ticks a + total_microseconds delta in
  if in_range t then Ok (mkDatetime t)
  else Raise (Raised "OverflowError" "date value out of range").

(** The [timedelta] built from keyword arguments among [days] and
    [weeks] whose values are whole numbers. *)
Definition timedelta_of (period : gmap string Z) : result timedelta :=
  let d := default 0 (period !! "days") + 7 * default 0 (period !! "weeks") in
  if (-999999999 <=? d) && (d <=? 999999999)
  then Ok (mkTimedelta (d * us_per_day))
  else if (- 2 ^ 31 <=? d) && (d <? 2 ^ 31)
  then Raise (Raised "OverflowError"
         ("days=" +:+ PyStr.str_int d +:+ "; must have magnitude <= 999999999"))
  else Raise (Raised "OverflowError" "Python int too large to convert to C int").

(** *** Text *)

(** [f"{n:0{width}d}"] for a number that is not negative. *)
Definition zfill (width : nat) (n : Z) : string :=
  let digits := PyStr.str_int n in
  PyStr.zeros (width - String.length digits) +:+ digits.

(** [str(d)] *)
Definition str (d : datetime) : string :=
  zfill 4 (year d) +:+ "-" +:+ zfill 2 (month d) +:+ "-" +:+ zfill 2 (day d)
  +:+ " " +:+ zfill 2 (hour d) +:+ ":" +:+ zfill 2 (minute d)
  +:+ ":" +:+ zfill 2 (second d)
  +:+ (if microsecond d =? 0 then "" else "." +:+ zfill 6 (microsecond d)).

(** *** The clock *)

(** What [datetime.now()] returns, reading after reading, and how many
    readings have been made. *)
Record clock : Type := mkClock { time : nat -> datetime; reads : nat }.

(** A computation that may read the clock, and returns or raises. *)
Definition T (A : Type) : Type := clock -> result A * clock.

Definition ret {A} (a : A) : T A := fun c => (Ok a, c).
Definition bind {A B} (m : T A) (k : A -> T B) : T B :=
  fun c => match m c with
           | (inr a, c') => k a c'
           | (inl e, c') => (inl e, c')
           end.
Definition lift {A} (r : result A) : T A := fun c => (r, c).

Declare Scope clock_scope.
Delimit Scope clock_scope with T.
Notation "'do' x '<-' c ';' k" := (bind c (fun x => k))
  (at level 10, x name, c at level 100, k at level 200) : clock_scope.

(** [datetime.now()] *)
Definition now : T datetime :=
  fun c => (Ok (time c (reads c)), mkClock (time c) (S (reads c))).

(** The next reading of the clock, and the clock after it. *)
Definition reading (c : clock) : datetime := time c (reads c).
Definition tick (c : clock) : clock := mkClock (time c) (S (reads c)).

End Datetime.

(** ** [seedwork/domain/value_objects/period.py] *)

Module Period.

Record Period : Type := mkPeriod { year : Z; month : Z }.

Definition __post_init__ (self : Period) : result unit :=
  (let* _ := py_assert ((1 <=? month self) && (month self <=? 12))
               "Month must be between 1 and 12" in
   py_assert (year self <=? 2025) "Year must be 2025 or earlier")%res.

(** The dataclass constructor [Period(year=.., month=..)]: the fields
    are stored, then [__post_init__] runs. *)
Definition new (y m : Z) : result Period :=
  let self := mkPeriod y m in
  (let* _ := __post_init__ self in Ok self)%res.

Definition __lt__ (self period : Period) : bool :=
  (year self <? year period) || (month self <? month period).

Definition __gt__ (self period : Period) : bool :=
  (year self >? year period) || (month self >? month period).

(** Dataclass equality: field by field. *)
Definition __eq__ (self other : Period) : bool :=
  (year self =? year other) && (month self =? month other).

Definition representation (self : Period) : string :=
  PyStr.format_02d (month self) +:+ "-" +:+ PyStr.str_int (year self).

Definition inside_range_period (self start end_ : Period) : bool :=
  __lt__ start self && __lt__ self end_.

Definition from_str_format (period : string) : result Period :=
  match PyStr.split "-" period with
  | [month_str; year_str] =>
      (* keyword arguments are evaluated left to right: year first *)
      (let* y := PyStr.int year_str in
       let* m := PyStr.int month_str in
       new y m)%res
  | [] | [_] =>
      Raise (ValueError "not enough values to unpack (expected 2, got 1)")
  | _ => Raise (ValueError "too many values to unpack (expected 2)")
  end.

(** [datetime.now()] is read once; the period is built from its year
    and its month. *)
Definition get_current_period : Datetime.T Period :=
  Datetime.bind Datetime.now (fun now =>
    Datetime.lift (new (Datetime.year now) (Datetime.month now))).

(** The order the specification describes: year first, month on ties. *)
Definition lex_lt (p q : Period) : bool :=
  (year p <? year q) || ((year p =? year q) && (month p <? month q)).

End Period.

(** ** [seedwork/domain/value_objects/money.py] *)

Module Money.

Inductive Currency : Type := USD | ARS.

Definition Currency_eqb (a b : Currency) : bool :=
  match a, b with
  | USD, USD | ARS, ARS => true
  | _, _ => false
  end.

(** [amount: float]: an IEEE 754 binary64 number, as Python's [float].
    A whole number written as an [int] literal ([Money(amount=10)])
    is the float of the same value; on such values Python's sums,
    products and comparisons of [int] and [float] agree with the
    float ones. *)
Record Money : Type := mkMoney { amount : float; currency : Currency }.

(** Modelled from the spec: [Fee] (value_objects/fee.py, imported by
    money.py, is not among the sources): the value object whose [value]
    field is the percentage [calculate_fee] reads. *)
Record Fee : Type := mkFee { value : float }.

Definition __post_init__ (self : Money) : result unit :=
  py_assert (0 <=? amount self)%float "Amount must be greather than 0".

(** The dataclass constructor [Money(amount=.., currency=..)]. *)
Definition new (a : float) (c : Currency) : result Money :=
  let self := mkMoney a c in
  (let* _ := __post_init__ self in Ok self)%res.

(** [Money(amount=..)] with the default currency. *)
Definition new_default (a : float) : result Money := new a ARS.

(** Dataclass equality: the [(amount, currency)] tuples are compared
    with [==]. *)
Definition __eq__ (self other : Money) : bool :=
  (amount self =? amount other)%float && Currency_eqb (currency self) (currency other).

Definition __lt__ (self other : Money) : bool :=
  (amount self <? amount other)%float.

Definition __gt__ (self other : Money) : bool :=
  (amount other <? amount self)%float.

Definition __truediv__ (self : Money) (other : float) : result Money :=
  if (other =? 0)%float
  then Raise (Raised "ZeroDivisionError" "float division by zero")
  else new (amount self / other)%float (currency self).

Definition __mul__ (self : Money) (other : float) : result Money :=
  new (amount self * other)%float (currency self).

Definition __add__ (self other : Money) : result Money :=
  new (amount self + amount other)%float (currency self).

Definition __sub__ (self other : Money) : result Money :=
  new (amount self - amount other)%float (currency self).

Definition calculate_fee (self : Money) (fee : Fee) : result Money :=
  let amount := ((amount self * value fee) / 100)%float in
  new amount (currency self).

Definition convert (self : Money) (to_currency : Currency) (price : float)
  : result Money :=
  if (price =? 0)%float
  then Raise (Raised "ZeroDivisionError" "float division by zero")
  else new (amount self / price)%float to_currency.

End Money.

(** ** Python objects *)

(** Object identity. *)
Abbreviation loc := positive (only parsing).

(** A class: its name, the names of the classes of its method resolution
    order (itself and every base) and the names of the attributes its
    instances expose. *)
Record pyclass : Type := mkClass {
  cls_name : string;
  cls_mro : list string;
  cls_attrs : list string
}.

(** [issubclass(a, b)] *)
Definition issubclass (a b : pyclass) : bool :=
  bool_decide (cls_name b ∈ cls_mro a).

(** [str(cls)] *)
Definition class_str (c : pyclass) : string :=
  "<class '" +:+ cls_name c +:+ "'>".

(** The values that travel through the container and the transaction
    hooks. *)
Inductive pyval : Type :=
| VNone
| VStr (s : string)
| VUUID (n : N)
| VMethod (name : string)            (* a bound method, e.g. [ctx.publish] *)
| VObj (cls : pyclass) (id : loc).   (* an instance of [cls] *)

(** [hasattr(x, name)] *)
Definition hasattr (x : pyval) (name : string) : bool :=
  match x with
  | VObj c _ => bool_decide (name ∈ cls_attrs c)
  | _ => false
  end.

(** An identifier handed to the dependency provider: [str | type]. *)
Inductive ident : Type :=
| IdStr (s : string)
| IdType (t : pyclass).

(** [str(identifier)] *)
Definition ident_str (i : ident) : string :=
  match i with
  | IdStr s => s
  | IdType t => class_str t
  end.

(** ** [config/container.py]: the dependency provider *)

Module Container.

(** What an attribute of a container holds.  The first four are the
    providers of [dependency_injector] the file uses; [provides] is what
    calling the provider yields (the instance it builds or was
    overridden with, or the error building it raises).  The last two
    are what a container has before anything is registered on it, from
    its class and from the interpreter, and are no providers: [Member]
    is an attribute that an assignment replaces (a method, a piece of
    the container's bookkeeping); [Fixed] is one that refuses the
    assignment of a provider with [refusal] ([__class__] and [__dict__]
    with a [TypeError], a property without setter with an
    [AttributeError]).  [called] is what calling the attribute
    gives. *)
Inductive provider : Type :=
| Factory (cls : pyclass) (provides : result pyval)
| Singleton (cls : pyclass) (provides : result pyval)
| Dependency (instance_of : pyclass) (provided : option pyval)
| Object (provides : pyval)
| Member (called : result pyval)
| Fixed (refusal : exn) (called : result pyval).

(** [provider()], and the call of an attribute that is no provider. *)
Definition call (p : provider) : result pyval :=
  match p with
  | Factory _ r | Singleton _ r => r
  | Dependency t (Some v) => Ok v
  | Dependency t None =>
      Raise (Raised "Error" ("Dependency " +:+ class_str t +:+ " is not defined"))
  | Object v => Ok v
  | Member r | Fixed _ r => r
  end.

(** The name of the class, as error messages print it. *)
Definition type_name (p : provider) : string :=
  match p with
  | Factory _ _ => "dependency_injector.providers.Factory"
  | Singleton _ _ => "dependency_injector.providers.Singleton"
  | Dependency _ _ => "dependency_injector.providers.Dependency"
  | Object _ => "dependency_injector.providers.Object"
  | Member _ | Fixed _ _ => "object"
  end.

(** The store.  [attrs] is what attribute lookup finds on a container
    instance, name by name, in its [__dict__] or on its class, with one
    exception: its [providers] attribute, which refers to a dict object
    for as long as nothing has been assigned to that name.
    [copy.copy] duplicates the [__dict__] but not the dict it refers
    to. *)
Inductive pyobj : Type :=
| ODict (items : gmap string provider)
| OContainer (attrs : gmap string provider) (providers : loc).

Abbreviation heap := (gmap loc pyobj) (only parsing).

Definition dangling {A} : result A :=
  Raise (Raised "ReferenceError" "no such object").

(** [self.providers]: the dict, unless a provider has been assigned to
    the name. *)
Definition self_providers (attrs : gmap string provider) (pl : loc)
  : provider + loc :=
  match attrs !! "providers" with
  | Some p => inl p
  | None => inr pl
  end.

(** [self.providers[name] = pr] *)
Definition providers_setitem (h : heap) (attrs : gmap string provider)
    (pl : loc) (name : string) (pr : provider) : result heap :=
  match self_providers attrs pl with
  | inl p =>
      Raise (TypeError
        ("'" +:+ type_name p +:+ "' object does not support item assignment"))
  | inr pl =>
      match h !! pl with
      | Some (ODict d) => Ok (<[pl := ODict (<[name := pr]> d)]> h)
      | _ => dangling
      end
  end.

(** [setattr(container, name, pr)] for a string [name] and a provider
    [pr].  The container's [__setattr__] first records the provider in
    [self.providers], unless the name is [parent], and then sets the
    attribute as every object does: an attribute the class fixes
    refuses it.  The heap that is returned is the one reached, also when
    the assignment raises: what has been recorded by then stays
    recorded. *)
Definition container_setattr (h : heap) (c : loc) (name : string)
    (pr : provider) : result unit * heap :=
  match h !! c with
  | Some (OContainer attrs pl) =>
      match (if decide (name = "parent") then Ok h
             else providers_setitem h attrs pl name pr) with
      | inl e => (Raise e, h)
      | inr h1 =>
          match attrs !! name with
          | Some (Fixed refusal _) => (Raise refusal, h1)
          | _ => (Ok tt, <[c := OContainer (<[name := pr]> attrs) pl]> h1)
          end
      end
  | _ => (dangling, h)
  end.

(** [setattr(container, identifier, provider)]: the built-in rejects an
    attribute name that is not a string before the container is
    asked. *)
Definition setattr (h : heap) (c : loc) (identifier : ident)
    (pr : provider) : result unit * heap :=
  match identifier with
  | IdStr name => container_setattr h c name pr
  | IdType _ => (Raise (TypeError "attribute name must be string, not 'type'"), h)
  end.

(** [getattr(container, identifier)]: whatever the container has under
    the name, provider or not. *)
Definition getattr (h : heap) (c : loc) (identifier : ident) : result provider :=
  match identifier with
  | IdStr name =>
      match h !! c with
      | Some (OContainer attrs _) =>
          match attrs !! name with
          | Some pr => Ok pr
          | None =>
              if decide (name = "providers")
              then Ok (Member (Raise (TypeError "'dict' object is not callable")))
              else Raise (AttributeError
                     ("'DynamicContainer' object has no attribute '" +:+ name +:+ "'"))
          end
      | _ => dangling
      end
  | IdType _ => Raise (TypeError "attribute name must be string, not 'type'")
  end.

(** [copy.copy(container)]: a new instance with a copy of the
    [__dict__]. *)
Definition copy_container (h : heap) (c : loc) : result (loc * heap) :=
  match h !! c with
  | Some (OContainer attrs pl) =>
      let c' := fresh (dom h) in
      Ok (c', <[c' := OContainer attrs pl]> h)
  | _ => dangling
  end.

Definition inspect_provider (cls : pyclass) (p : provider) : bool :=
  match p with
  | Factory c _ | Singleton c _ => issubclass c cls
  | Dependency c _ => issubclass c cls
  | Object _ | Member _ | Fixed _ _ => false
  end.

(** [inspect.getmembers(container, predicate)]: the members that
    satisfy the predicate, as (name, value) pairs.  Python returns them
    sorted by name; the caller looks only at how many there are and,
    when there is one, at that one.  The [providers] dict of the
    container is a member too; it is no [Factory], [Singleton] or
    [Dependency] and does not satisfy the predicate used here. *)
Definition getmembers (attrs : gmap string provider)
    (predicate : provider -> bool) : list (string * provider) :=
  filter (fun m => predicate m.2 = true) (map_to_list attrs).

(** In the error branch the message is built from [len(providers)],
    where [providers] is the imported module: evaluating it raises
    [TypeError] before the [ValueError] exists. *)
Definition resolve_provider_by_type (h : heap) (container : loc)
    (cls : pyclass) : result (option provider) :=
  match h !! container with
  | Some (OContainer attrs _) =>
      match getmembers attrs (inspect_provider cls) with
      | [] => Ok None
      | [m] => Ok (Some m.2)
      | _ :: _ :: _ => Raise (TypeError "object of type 'module' has no len()")
      end
  | _ => dangling
  end.

Record ContainerProvider : Type := mkProvider {
  container : loc;
  counter : Z
}.

(** [ContainerProvider(container)] *)
Definition __init__ (c : loc) : ContainerProvider := mkProvider c 0.

Definition has_dependency (h : heap) (self : ContainerProvider)
    (identifier : ident) : result bool :=
  match identifier with
  | IdType t =>
      (let* r := resolve_provider_by_type h (container self) t in
       match r with
       | Some _ => Ok true
       | None => Ok false
       end)%res
  | IdStr name =>
      match h !! container self with
      | Some (OContainer attrs pl) =>
          match self_providers attrs pl with
          | inl p =>
              Raise (TypeError
                ("argument of type '" +:+ type_name p +:+ "' is not iterable"))
          | inr pl =>
              match h !! pl with
              | Some (ODict d) => Ok (bool_decide (is_Some (d !! name)))
              | _ => dangling
              end
          end
      | _ => dangling
      end
  end.

(** The [TypeError] of the first [setattr] is handled; any other
    exception, and whatever the second [setattr] raises, leaves the
    method.  The second [setattr] starts from the heap the first one
    reached. *)
Definition register_dependency (h : heap) (self : ContainerProvider)
    (identifier : ident) (dependency_instance : pyval)
    : result (ContainerProvider * heap) :=
  let pr := Object dependency_instance in
  match setattr h (container self) identifier pr with
  | (inr _, h') => Ok (self, h')
  | (inl (TypeError _), h') =>
      match container_setattr h' (container self)
              (ident_str identifier +:+ "-" +:+ PyStr.str_int (counter self)) pr with
      | (inr _, h'') => Ok (mkProvider (container self) (counter self + 1), h'')
      | (inl e, _) => Raise e
      end
  | (inl e, _) => Raise e
  end.

Definition get_dependency (h : heap) (self : ContainerProvider)
    (identifier : ident) : result pyval :=
  match identifier with
  | IdType t =>
      (let* provider := resolve_provider_by_type h (container self) t in
       match provider with
       | Some pr => call pr
       | None => Raise (TypeError "'NoneType' object is not callable")
       end)%res
  | IdStr _ =>
      (let* provider := getattr h (container self) identifier in
       call provider)%res
  end.

(** Modelled from the spec: [DependencyProvider.update] of the [lato]
    base class, which is not among the sources: the given bindings are
    added, overriding, one [register_dependency] per binding. *)
Fixpoint update (h : heap) (self : ContainerProvider)
    (bindings : list (ident * pyval)) : result (ContainerProvider * heap) :=
  match bindings with
  | [] => Ok (self, h)
  | (i, v) :: rest =>
      (let* s := register_dependency h self i v in
       update s.2 s.1 rest)%res
  end.

Definition copy (h : heap) (self : ContainerProvider)
    (bindings : list (ident * pyval)) : result (ContainerProvider * heap) :=
  (let* c := copy_container h (container self) in
   let dp := __init__ c.1 in
   update c.2 dp bindings)%res.

(** *** Vocabulary of the statements *)

(** The provider's container exists and its [providers] attribute
    refers to a dict. *)
Definition well_formed (h : heap) (self : ContainerProvider) : Prop :=
  exists attrs pl d,
    h !! container self = Some (OContainer attrs pl) /\ h !! pl = Some (ODict d).

(** The type a provider declares, if it declares one. *)
Definition declared_type (p : provider) : option pyclass :=
  match p with
  | Factory c _ | Singleton c _ => Some c
  | Dependency c _ => Some c
  | Object _ | Member _ | Fixed _ _ => None
  end.

(** The attribute is a provider whose declared type is a subclass of
    [t] ([t] itself included). *)
Definition declares (t : pyclass) (p : provider) : Prop :=
  exists c, declared_type p = Some c /\ issubclass c t = true.

(** The attribute is a provider, and not something the container has
    of its own accord. *)
Definition is_provider (p : provider) : bool :=
  match p with
  | Member _ | Fixed _ _ => false
  | _ => true
  end.

(** A name that is free for a registration: the container holds
    nothing of its own under it (no method, no bookkeeping, nothing its
    class fixes), and it is neither of the two names the container's
    [__setattr__] and [has_dependency] treat apart. *)
Definition free_name (attrs : gmap string provider) (name : string) : bool :=
  bool_decide (name <> "providers") && bool_decide (name <> "parent")
  && match attrs !! name with
     | Some p => is_provider p
     | None => true
     end.

(** The key [register_dependency] stores an identifier under when the
    counter is [n]. *)
Definition storage_key (n : Z) (i : ident) : string :=
  match i with
  | IdStr s => s
  | IdType _ => ident_str i +:+ "-" +:+ PyStr.str_int n
  end.

(** The counter after registering [i]. *)
Definition next_counter (n : Z) (i : ident) : Z :=
  match i with
  | IdStr _ => n
  | IdType _ => n + 1
  end.

(** The keys a sequence of registrations is stored under, counter
    starting at [n]. *)
Fixpoint stored (n : Z) (regs : list (ident * pyval)) : list (string * pyval) :=
  match regs with
  | [] => []
  | (i, v) :: rest => (storage_key n i, v) :: stored (next_counter n i) rest
  end.

Fixpoint final_counter (n : Z) (regs : list (ident * pyval)) : Z :=
  match regs with
  | [] => n
  | (i, _) :: rest => final_counter (next_counter n i) rest
  end.

(** Storing one more instance among the attributes. *)
Definition put (m : gmap string provider) (kv : string * pyval)
  : gmap string provider := <[kv.1 := Object kv.2]> m.

(** What a computation returned, [d] if it raised. *)
Definition returned {A} (d : A) (r : result A) : A :=
  match r with
  | inr a => a
  | inl _ => d
  end.

End Container.

(** ** [config/container.py]: the transaction hooks and middleware *)

Module Transaction.
Import Container.

(** *** The collaborators *)

(** What the hooks do to their collaborators, in the order it happens:
    methods called on an object (a session, a repository), log records
    with the correlation id the logger carries when the record is
    made, and events handed to [ctx.publish_async]. *)
Inductive frag : Type :=
| Text (s : string)
| Str (v : pyval)        (* [{v}] *)
| ClassOf (v : pyval)    (* [{v.__class__}] *)
| StrExn (e : exn).      (* [{exception}] *)

Inductive call : Type :=
| MethodCall (target : loc) (method : string)
| LogRecord (level : string) (correlation_id : N) (message : list frag)
| PublishAsync (event : pyval).

Record world : Type := mkWorld {
  heap : Container.heap;              (* containers and their dicts *)
  trace : list call;                  (* oldest call first *)
  logger_correlation_id : N;          (* [logger.correlation_id] *)
  buffers : gmap loc (list pyval);    (* pending events of each repository *)
  entropy : nat -> N;                 (* what [os.urandom(16)] returns, draw by draw *)
  drawn : nat;                        (* draws made so far *)
  next_id : loc;                      (* identity of the next object created *)
  failing : loc -> string -> option exn
    (* the method calls that raise: [failing id m = Some e] when the
       method [m] of the object [id] raises [e] *)
}.

(** A computation over the world that returns or raises; the effects
    made before an exception is raised stay. *)
Definition M (A : Type) : Type := world -> result A * world.

Definition ret {A} (a : A) : M A := fun w => (Ok a, w).
Definition raise {A} (e : exn) : M A := fun w => (Raise e, w).
Definition bind {A B} (m : M A) (k : A -> M B) : M B :=
  fun w => match m w with
           | (inr a, w') => k a w'
           | (inl e, w') => (inl e, w')
           end.
Definition lift {A} (r : result A) : M A := fun w => (r, w).

Declare Scope m_scope.
Delimit Scope m_scope with M.
Notation "'do' x '<-' c ';' k" := (bind c (fun x => k))
  (at level 10, x name, c at level 100, k at level 200) : m_scope.
Notation "'run' c ';' k" := (bind c (fun _ => k))
  (at level 10, c at level 100, k at level 200) : m_scope.

Definition record (c : call) : M unit :=
  fun w => (Ok tt, mkWorld (heap w) (trace w ++ [c]) (logger_correlation_id w)
                     (buffers w) (entropy w) (drawn w) (next_id w) (failing w)).

(** [x.method] on a collaborator (a session, a repository), whose
    class is not among the sources: the object when it has the method,
    an [AttributeError] otherwise. *)
Definition bound_method (x : pyval) (method : string) : M loc :=
  match x with
  | VObj c id =>
      if hasattr x method then ret id
      else raise (AttributeError
             ("'" +:+ cls_name c +:+ "' object has no attribute '" +:+ method +:+ "'"))
  | _ => raise (AttributeError ("object has no attribute '" +:+ method +:+ "'"))
  end.

(** [x.method()] on such a collaborator: the call is made, and it
    returns or raises as the world says this method of this object
    does.  What else the collaborator does inside the call is not part
    of this embedding. *)
Definition call_method (x : pyval) (method : string) : M unit :=
  (do id <- bound_method x method;
   run record (MethodCall id method);
   fun w => match failing w id method with
            | Some e => (Raise e, w)
            | None => (Ok tt, w)
            end)%M.

(** Modelled from the spec: the [Logger] of
    seedwork/infrastructure/logging.py, which is not among the sources:
    every record carries the correlation id held by
    [logger.correlation_id] when it is made. *)
Definition log (level : string) (message : list frag) : M unit :=
  fun w => record (LogRecord level (logger_correlation_id w) message) w.

(** [logger.correlation_id.set(value)] *)
Definition set_correlation_id (value : N) : M unit :=
  fun w => (Ok tt, mkWorld (heap w) (trace w) value
                     (buffers w) (entropy w) (drawn w) (next_id w) (failing w)).

(** [os.urandom(16)] read as a big-endian integer. *)
Definition urandom16 : M N :=
  fun w => (Ok (entropy w (drawn w) mod 2 ^ 128)%N,
            mkWorld (heap w) (trace w) (logger_correlation_id w)
              (buffers w) (entropy w) (S (drawn w)) (next_id w) (failing w)).

(** [uuid.UUID(int=..., version=4)]: the variant and version bits are
    forced. *)
Definition uuid_v4_of (n : N) : N :=
  let n := N.ldiff n (N.shiftl 0xc000 48) in
  let n := N.lor n (N.shiftl 0x8000 48) in
  let n := N.ldiff n (N.shiftl 0xf000 64) in
  N.lor n (N.shiftl 4 76).

(** [uuid.uuid4()] *)
Definition uuid4 : M N :=
  (do n <- urandom16; ret (uuid_v4_of n))%M.

(** [uuid.UUID(int=0)], the value the logger carries outside any
    transaction. *)
Definition no_transaction : N := 0%N.

(** Creating an object: a new identity. *)
Definition new_object (c : pyclass) : M pyval :=
  fun w => (Ok (VObj c (next_id w)),
            mkWorld (heap w) (trace w) (logger_correlation_id w)
              (buffers w) (entropy w) (drawn w) (Pos.succ (next_id w)) (failing w)).

Definition get_heap : M Container.heap := fun w => (Ok (heap w), w).
Definition put_heap (h : Container.heap) : M unit :=
  fun w => (Ok tt, mkWorld h (trace w) (logger_correlation_id w)
                     (buffers w) (entropy w) (drawn w) (next_id w) (failing w)).

(** Modelled from the spec: [collect_events] of the concrete
    repositories, which are not among the sources: it returns the
    pending events and empties the buffer. *)
Definition collect_events (repo : pyval) : M (list pyval) :=
  (do id <- bound_method repo "collect_events";
   run record (MethodCall id "collect_events");
   fun w => (Ok (default [] (buffers w !! id)),
             mkWorld (heap w) (trace w) (logger_correlation_id w)
               (<[id := []]> (buffers w)) (entropy w) (drawn w) (next_id w)
               (failing w)))%M.

(** *** The classes of the scope's dependencies *)

Definition Session : pyclass :=
  mkClass "sqlalchemy.orm.session.Session"
    ["sqlalchemy.orm.session.Session"; "object"]
    ["rollback"; "commit"; "close"].
Definition UUID : pyclass := mkClass "uuid.UUID" ["uuid.UUID"; "object"] [].
Definition Logger : pyclass :=
  mkClass "Logger" ["Logger"; "object"] ["debug"; "info"; "warning"; "correlation_id"].
Definition InMemoryOutbox : pyclass :=
  mkClass "InMemoryOutbox" ["InMemoryOutbox"; "object"] [].
Definition repository_attrs : list string :=
  ["add"; "remove"; "get_by_id"; "persist"; "persist_all"; "collect_events"].
Definition StrategyPostgresJsonManagementRepository : pyclass :=
  mkClass "StrategyPostgresJsonManagementRepository"
    ["StrategyPostgresJsonManagementRepository"; "StrategyRepository";
     "GenericRepository"; "object"] repository_attrs.
Definition PartnerPostgresJsonManagementRepository : pyclass :=
  mkClass "PartnerPostgresJsonManagementRepository"
    ["PartnerPostgresJsonManagementRepository"; "PartnerRepository";
     "GenericRepository"; "object"] repository_attrs.
Definition OperationPostgresJsonManagementRepository : pyclass :=
  mkClass "OperationPostgresJsonManagementRepository"
    ["OperationPostgresJsonManagementRepository"; "OperationRepository";
     "GenericRepository"; "object"] repository_attrs.

(** The providers [TransactionContainer] declares, the values given at
    instantiation overriding theirs.  [partner_fees_provider] is a plain
    object, not a provider, and is no member. *)
Definition transaction_members (db_session correlation_id logger
    strategy_repository outbox partner_repository operation_repository : pyval)
  : gmap string provider :=
  list_to_map
    [("correlation_id", Dependency UUID (Some correlation_id));
     ("db_session", Dependency Session (Some db_session));
     ("logger", Dependency Logger (Some logger));
     ("outbox", Singleton InMemoryOutbox (Ok outbox));
     ("strategy_repository",
       Singleton StrategyPostgresJsonManagementRepository (Ok strategy_repository));
     ("partner_repository",
       Singleton PartnerPostgresJsonManagementRepository (Ok partner_repository));
     ("operation_repository",
       Singleton OperationPostgresJsonManagementRepository (Ok operation_repository))].

(** [TransactionContainer(db_session=.., correlation_id=.., logger=..,
    strategy_repository=..)]: a new container with the declared
    providers.  The singletons that are not overridden are given their
    instance here. *)
Definition TransactionContainer (db_session correlation_id logger
    strategy_repository : pyval) : M loc :=
  (do outbox <- new_object InMemoryOutbox;
   do partner_repository <- new_object PartnerPostgresJsonManagementRepository;
   do operation_repository <- new_object OperationPostgresJsonManagementRepository;
   do h <- get_heap;
   let members :=
     transaction_members db_session correlation_id logger strategy_repository
       outbox partner_repository operation_repository in
   let pl := fresh (dom h) in
   let h := <[pl := ODict members]> h in
   let c := fresh (dom h) in
   run put_heap (<[c := OContainer members pl]> h);
   ret c)%M.

(** Modelled from the spec: the [TransactionContext] of [lato], which
    is not among the sources: it holds the scope's dependency provider;
    [ctx[name]] resolves [name] through it, [ctx.set_dependencies]
    registers bindings in it, [ctx.publish_async(event)] hands the
    event to the asynchronous publish path. *)
Record TransactionContext : Type := mkContext {
  dependency_provider : ContainerProvider
}.

Definition ctx_getitem (ctx : TransactionContext) (name : string) : M pyval :=
  fun w => (get_dependency (heap w) (dependency_provider ctx) (IdStr name), w).

Definition set_dependencies (ctx : TransactionContext)
    (bindings : list (ident * pyval)) : M TransactionContext :=
  (do h <- get_heap;
   do r <- lift (update h (dependency_provider ctx) bindings);
   run put_heap r.2;
   ret (mkContext r.1))%M.

Definition publish_async (event : pyval) : M unit := record (PublishAsync event).

(** *** The hooks *)

(** [engine] is what [application.get_dependency("db_engine")]
    returns; [logger] is the module-level logger object. *)
Definition on_create_transaction_context (engine logger : pyval)
    : M TransactionContext :=
  (do session <- new_object Session;
   do correlation_id <- uuid4;
   do u <- uuid4;
   run set_correlation_id u;
   do strategy_repository <- new_object StrategyPostgresJsonManagementRepository;
   do c <- TransactionContainer session (VUUID correlation_id) logger strategy_repository;
   let dependency_provider := Container.__init__ c in
   ret (mkContext dependency_provider))%M.

Definition on_enter_transaction_context (ctx : TransactionContext)
    : M TransactionContext :=
  (do ctx <- set_dependencies ctx [(IdStr "publish", VMethod "publish")];
   run log "debug" [Text "Entering transaction"];
   ret ctx)%M.

(** [exception: Optional[Exception]]; [if exception:] asks for the
    truth of the object, so [None] and an exception that is false take
    the [else] branch.  The re-raise in the source is commented out:
    the hook ends normally after a rollback.  Nothing is guarded: an
    exception raised by the session leaves the hook at once. *)
Definition on_exit_transaction_context (ctx : TransactionContext)
    (exception : option exn) : M unit :=
  (do session <- ctx_getitem ctx "db_session";
   run match exception with
       | Some e =>
           if exn_bool e then
             (run call_method session "rollback";
              log "warning" [Text "rollback due to "; StrExn e])
           else
             (run call_method session "commit";
              log "debug" [Text "committed"])
       | None =>
           (run call_method session "commit";
            log "debug" [Text "committed"])
       end;
   run call_method session "close";
   run log "debug" [Text "transaction ended"];
   set_correlation_id no_transaction)%M.

(** *** The event collector middleware *)

(** Of the two middlewares, this is the one embedded:
    [logging_middleware] logs a description it reads from
    [ctx.current_action], an attribute of the library's context, which
    is not among the sources. *)

(** What [call_next()] returns: a plain value, or a coroutine still to
    be awaited. *)
Inductive call_result : Type :=
| Plain (v : pyval)
| Coroutine (body : M pyval).

(** A [functools.partial]: its keyword arguments, in order, and what
    calling it does. *)
Record partial : Type := mkPartial {
  keywords : list (string * pyval);
  invoke : M call_result
}.

(** *** Collecting and publishing *)

(** [for repo in repositories: domain_events.extend(repo.collect_events())] *)
Fixpoint collect_all (repositories : list pyval) : M (list pyval) :=
  match repositories with
  | [] => ret []
  | repo :: rest =>
      (do events <- collect_events repo;
       do more <- collect_all rest;
       ret (events ++ more))%M
  end.

(** [for event in domain_events: logger.debug(..); await ctx.publish_async(event)] *)
Fixpoint publish_all (domain_events : list pyval) : M unit :=
  match domain_events with
  | [] => ret tt
  | event :: rest =>
      (run log "debug" [Text "Publishing "; Str event];
       run publish_async event;
       publish_all rest)%M
  end.

Definition event_collector_middleware (ctx : TransactionContext)
    (call_next : partial) : M pyval :=
  (let handler_kwargs := keywords call_next in
   do result <- invoke call_next;
   do result <- match result with
                | Coroutine body => body
                | Plain v => ret v
                end;
   do message <- ctx_getitem ctx "message";
   run log "debug" [Text "Collecting event from "; ClassOf message];
   let repositories :=
     filter (fun x => hasattr x "collect_events" = true) (handler_kwargs.*2) in
   do domain_events <- collect_all repositories;
   run publish_all domain_events;
   ret result)%M.

(** *** Vocabulary of the statements *)

(** The handler's own outcome: [call_next()], awaited when it is a
    coroutine. *)
Definition handler_outcome (call_next : partial) : M pyval :=
  (do result <- invoke call_next;
   match result with
   | Coroutine body => body
   | Plain v => ret v
   end)%M.

(** Whether [if exception:] takes the branch of the rollback. *)
Definition rolls_back (exception : option exn) : bool :=
  match exception with
  | Some e => exn_bool e
  | None => false
  end.

(** The calls of the exit hook on its way to the end: the commit or
    the rollback and its record, the closing and its record. *)
Definition exit_calls (w : world) (s : loc) (exception : option exn) : list call :=
  match exception with
  | Some e =>
      if exn_bool e then
        [MethodCall s "rollback";
         LogRecord "warning" (logger_correlation_id w)
           [Text "rollback due to "; StrExn e]]
      else
        [MethodCall s "commit";
         LogRecord "debug" (logger_correlation_id w) [Text "committed"]]
  | None =>
      [MethodCall s "commit";
       LogRecord "debug" (logger_correlation_id w) [Text "committed"]]
  end ++
  [MethodCall s "close";
   LogRecord "debug" (logger_correlation_id w) [Text "transaction ended"]].

(** The method the exit hook calls first. *)
Definition first_call (exception : option exn) : string :=
  if rolls_back exception then "rollback" else "commit".

(** The methods called on [target], in order. *)
Definition methods_called (target : loc) (tr : list call) : list string :=
  omap (fun c => match c with
                 | MethodCall t m => if decide (t = target) then Some m else None
                 | _ => None
                 end) tr.

(** How many times [method] was called on [target]. *)
Definition times_called (target : loc) (method : string) (tr : list call) : nat :=
  length (filter (fun m => m = method) (methods_called target tr)).

(** The objects [collect_events] was called on, in order. *)
Definition collected_from (tr : list call) : list loc :=
  omap (fun c => match c with
                 | MethodCall t m =>
                     if decide (m = "collect_events") then Some t else None
                 | _ => None
                 end) tr.

(** The events handed to [publish_async], in order. *)
Definition published (tr : list call) : list pyval :=
  omap (fun c => match c with PublishAsync e => Some e | _ => None end) tr.

(** The correlation ids of the log records, in order. *)
Definition logged_ids (tr : list call) : list N :=
  omap (fun c => match c with LogRecord _ cid _ => Some cid | _ => None end) tr.

(** The identities of the objects of a list of values. *)
Definition object_ids (vs : list pyval) : list loc :=
  omap (fun v => match v with VObj _ id => Some id | _ => None end) vs.

(** The pending events of a repository. *)
Definition pending (bufs : gmap loc (list pyval)) (id : loc) : list pyval :=
  default [] (bufs !! id).

(** A list without its repetitions, first occurrences kept;
    [seen] holds what came before. *)
Fixpoint first_occurrences (seen ids : list loc) : list loc :=
  match ids with
  | [] => []
  | id :: rest =>
      if decide (id ∈ seen) then first_occurrences seen rest
      else id :: first_occurrences (id :: seen) rest
  end.

(** What querying the repositories [ids] in order returns, and the
    buffers it leaves: a repository gives its pending events and is left
    empty. *)
Fixpoint drain (bufs : gmap loc (list pyval)) (ids : list loc)
  : list pyval * gmap loc (list pyval) :=
  match ids with
  | [] => ([], bufs)
  | id :: rest =>
      let r := drain (<[id := []]> bufs) rest in
      (pending bufs id ++ r.1, r.2)
  end.

(** The world with more calls made and other buffers. *)
Definition after (w : world) (calls : list call)
    (bufs : gmap loc (list pyval)) : world :=
  mkWorld (heap w) (trace w ++ calls) (logger_correlation_id w) bufs
    (entropy w) (drawn w) (next_id w) (failing w).

(** The calls [collect_all] and [publish_all] make. *)
Definition collect_calls (ids : list loc) : list call :=
  (fun id => MethodCall id "collect_events") <$> ids.

Definition publish_calls (cid : N) (events : list pyval) : list call :=
  events ≫= (fun e => [LogRecord "debug" cid [Text "Publishing "; Str e];
                       PublishAsync e]).

(** The repositories among the keyword arguments of a handler. *)
Definition repositories_of (call_next : partial) : list pyval :=
  filter (fun x => hasattr x "collect_events" = true) ((keywords call_next).*2).

End Transaction.

(** ** [seedwork/domain/value_objects/date_range.py] *)

Module DateRange.
Import Datetime.

Record DateRange : Type := mkDateRange { start : datetime; end_ : datetime }.

Definition __post_init__ (self : DateRange) : result unit :=
  py_assert (lt (start self) (end_ self)) "Start date must be before the end date".

(** The dataclass constructor [DateRange(start, end)]. *)
Definition new (s e : datetime) : result DateRange :=
  let self := mkDateRange s e in
  (let* _ := __post_init__ self in Ok self)%res.

Definition already_started (self : DateRange) : T bool :=
  (do t <- now; ret (lt (start self) t))%T.

Definition finished (self : DateRange) : T bool :=
  (do t <- now; ret (lt (end_ self) t))%T.

(** [self.already_started and not self.finished]: the second property
    is read only when the first holds. *)
Definition on_going (self : DateRange) : T bool :=
  (do started <- already_started self;
   if started then (do f <- finished self; ret (negb f)) else ret false)%T.

Definition days_to_start (self : DateRange) : T Z :=
  (do t <- now;
   let _days_to_start := days (sub (start self) t) in
   ret (if _days_to_start =? 0 then 0 else _days_to_start))%T.

Definition period_range_days (self : DateRange) : Z :=
  days (sub (end_ self) (start self)).

Definition create_range_starting_now (e : datetime) : T DateRange :=
  (do t <- now; lift (new t e))%T.

(** The keyword arguments are a dict: its keys are distinct, and the
    order in which they are visited makes no difference, the error
    being the same for every key that is refused.  The values are the
    whole numbers among those the source accepts. *)
Definition add_period_to_datetime (_from : datetime) (period : gmap string Z)
    : result datetime :=
  if bool_decide (map_Forall (fun key _ => key = "days" \/ key = "weeks") period)
  then (let* delta := timedelta_of period in add _from delta)%res
  else Raise (ValueError "Invalid key: It must be 'days' or 'weeks' ").

(** [DateRange.add_period_to_datetime(_from=d, **period)], as
    [from_now_to] and [extended] call it: a [period] that has the key
    [_from] itself gives the keyword twice, which the call refuses
    before the function is entered.  The text of the message is the
    interpreter's and names the function by its module. *)
Definition add_period_to_datetime_from (d : datetime) (period : gmap string Z)
    : result datetime :=
  if bool_decide (is_Some (period !! "_from"))
  then Raise (TypeError
         ("src.seedwork.domain.value_objects.date_range.DateRange."
          +:+ "add_period_to_datetime() got multiple values for "
          +:+ "keyword argument '_from'"))
  else add_period_to_datetime d period.

(** [datetime.now()] is an argument of the call: it is read before the
    call is refused or made. *)
Definition from_now_to (period : gmap string Z) : T DateRange :=
  (do t <- now;
   do end_period_datetime <- lift (add_period_to_datetime_from t period);
   create_range_starting_now end_period_datetime)%T.

(** [calendar.monthrange(year, month)[1]] is [days_in_month]. *)
Definition current_period : T DateRange :=
  (do t <- now;
   do start_date <- lift (Datetime.new (year t) (month t) 1 0 0 0 0);
   let last_day := days_in_month (year t) (month t) in
   do end_date <- lift (Datetime.new (year t) (month t) last_day 23 59 59 999999);
   lift (new start_date end_date))%T.

(** [DateRange(date, self.end).period_range_days if not self.finished
    else 0]: the condition is evaluated first. *)
Definition relative_date_days_left (self : DateRange) (date : datetime) : T Z :=
  (do f <- finished self;
   if negb f then (do r <- lift (new date (end_ self)); ret (period_range_days r))
   else ret 0)%T.

(** The argument [datetime.now()] is evaluated before the call. *)
Definition days_left (self : DateRange) : T Z :=
  (do t <- now; relative_date_days_left self t)%T.

(** [replace(self, end=...)] builds a new [DateRange] from the fields,
    so [__post_init__] runs again. *)
Definition stopped (self : DateRange) : T DateRange :=
  (do t <- now; lift (new (start self) t))%T.

Definition extended (self : DateRange) (period : gmap string Z)
    : result DateRange :=
  (let* new_end := add_period_to_datetime_from (end_ self) period in
   let* _ := py_assert (lt (end_ self) new_end)
               ("You are not extending the period. Last: " +:+ str (end_ self)
                +:+ " Passed: " +:+ str new_end) in
   new (start self) new_end)%res.

End DateRange.

(** ** [modules/partner/domain/performance.py] *)

Module Performance.
Import Datetime.

(** A mutable dataclass: the methods change the fields of [self] one
    assignment after the other, so what has been assigned before an
    exception is raised stays assigned. *)
Record PartnerPerformance : Type := mkPerformance {
  period : Period.Period;
  operations_closed : Z;
  properties_captured : Z;
  revenue_generated : Money.Money;
  last_updated : datetime
}.

(** A method call: it reads and assigns the fields of [self], may read
    the clock, and returns or raises. *)
Definition state : Type := PartnerPerformance * clock.
Definition P (A : Type) : Type := state -> result A * state.

Definition ret {A} (a : A) : P A := fun s => (Ok a, s).
Definition bind {A B} (m : P A) (k : A -> P B) : P B :=
  fun s => match m s with
           | (inr a, s') => k a s'
           | (inl e, s') => (inl e, s')
           end.
Definition lift {A} (r : result A) : P A := fun s => (r, s).

Declare Scope method_scope.
Delimit Scope method_scope with P.
Notation "'do' x '<-' c ';' k" := (bind c (fun x => k))
  (at level 10, x name, c at level 100, k at level 200) : method_scope.
Notation "'run' c ';' k" := (bind c (fun _ => k))
  (at level 10, c at level 100, k at level 200) : method_scope.

(** [self.field] *)
Definition get {A} (field : PartnerPerformance -> A) : P A :=
  fun s => (Ok (field s.1), s).

(** [self.operations_closed = v] and the like *)
Definition set_operations_closed (v : Z) : P unit :=
  fun s => (Ok tt, (mkPerformance (period s.1) v (properties_captured s.1)
                      (revenue_generated s.1) (last_updated s.1), s.2)).
Definition set_properties_captured (v : Z) : P unit :=
  fun s => (Ok tt, (mkPerformance (period s.1) (operations_closed s.1) v
                      (revenue_generated s.1) (last_updated s.1), s.2)).
Definition set_revenue_generated (v : Money.Money) : P unit :=
  fun s => (Ok tt, (mkPerformance (period s.1) (operations_closed s.1)
                      (properties_captured s.1) v (last_updated s.1), s.2)).
Definition set_last_updated (v : datetime) : P unit :=
  fun s => (Ok tt, (mkPerformance (period s.1) (operations_closed s.1)
                      (properties_captured s.1) (revenue_generated s.1) v, s.2)).

(** [datetime.now()] *)
Definition now : P datetime :=
  fun s => (Ok (reading s.2), (s.1, tick s.2)).

(** [PartnerPerformance(period)]: the counts start at zero, the revenue
    at [Money(amount=0)] and [last_updated] at the reading of the
    clock. *)
Definition new (period : Period.Period) : T PartnerPerformance :=
  (do revenue <- Datetime.lift (Money.new_default 0);
   do t <- Datetime.now;
   Datetime.ret (mkPerformance period 0 0 revenue t))%T.

(** [self.revenue_generated += amount] is [Money.__add__] followed by
    the assignment: [Money] has no in-place operators. *)
Definition register_close (amount : Money.Money) : P unit :=
  (do n <- get operations_closed;
   run set_operations_closed (n + 1);
   do revenue <- get revenue_generated;
   do sum <- lift (Money.__add__ revenue amount);
   run set_revenue_generated sum;
   do t <- now;
   set_last_updated t)%P.

Definition register_capture (amount : Money.Money) : P unit :=
  (do n <- get properties_captured;
   run set_properties_captured (n + 1);
   do revenue <- get revenue_generated;
   do sum <- lift (Money.__add__ revenue amount);
   run set_revenue_generated sum;
   do t <- now;
   set_last_updated t)%P.

Definition remove_close (amount : Money.Money) : P unit :=
  (do n <- get operations_closed;
   run lift (py_assert (0 <? n) "There is no closed achievement to remove");
   do n <- get operations_closed;
   run set_operations_closed (n - 1);
   do revenue <- get revenue_generated;
   do difference <- lift (Money.__sub__ revenue amount);
   run set_revenue_generated difference;
   do t <- now;
   set_last_updated t)%P.

Definition remove_capture (amount : Money.Money) : P unit :=
  (do n <- get properties_captured;
   run lift (py_assert (0 <? n) "There is no capture achievement to remove");
   do n <- get properties_captured;
   run set_properties_captured (n - 1);
   do revenue <- get revenue_generated;
   do difference <- lift (Money.__sub__ revenue amount);
   run set_revenue_generated difference;
   do t <- now;
   set_last_updated t)%P.

Definition add_revenue_generated (amount : Money.Money) : P unit :=
  (do revenue <- get revenue_generated;
   do sum <- lift (Money.__add__ revenue amount);
   run set_revenue_generated sum;
   do t <- now;
   set_last_updated t)%P.

Definition substract_revenue_generated (amount : Money.Money) : P unit :=
  (do revenue <- get revenue_generated;
   run lift (py_assert (Money.__gt__ revenue amount)
               "Amount to substract must be greather than revenue generated");
   do revenue <- get revenue_generated;
   do difference <- lift (Money.__sub__ revenue amount);
   run set_revenue_generated difference;
   do t <- now;
   set_last_updated t)%P.

(** *** Vocabulary of the statements *)

(** The calls a caller can make on a performance. *)
Inductive call : Type :=
| RegisterClose (amount : Money.Money)
| RegisterCapture (amount : Money.Money)
| RemoveClose (amount : Money.Money)
| RemoveCapture (amount : Money.Money)
| AddRevenueGenerated (amount : Money.Money)
| SubstractRevenueGenerated (amount : Money.Money).

Definition perform (c : call) : P unit :=
  match c with
  | RegisterClose a => register_close a
  | RegisterCapture a => register_capture a
  | RemoveClose a => remove_close a
  | RemoveCapture a => remove_capture a
  | AddRevenueGenerated a => add_revenue_generated a
  | SubstractRevenueGenerated a => substract_revenue_generated a
  end.

(** The state after a sequence of calls made by a caller that goes on
    after an exception. *)
Definition perform_all (calls : list call) (s : state) : state :=
  foldl (fun s c => (perform c s).2) s calls.

(** How many of the calls are [register_close], and how many are
    [register_capture]. *)
Definition is_register_close (c : call) : bool :=
  match c with RegisterClose _ => true | _ => false end.
Definition is_register_capture (c : call) : bool :=
  match c with RegisterCapture _ => true | _ => false end.
Definition closes (calls : list call) : Z :=
  Z.of_nat (length (filter (fun c => is_register_close c = true) calls)).
Definition captures (calls : list call) : Z :=
  Z.of_nat (length (filter (fun c => is_register_capture c = true) calls)).

End Performance.

(** ** Concrete scopes, used to exercise the statements *)

Module Examples.
Import Container Transaction.

Definition Widget : pyclass := mkClass "Widget" ["Widget"; "object"] [].
Definition widget : pyval := VObj Widget 7.
Definition gadget : pyval := VObj Widget 8.

(** A container with one typed member. *)
Definition members : gmap string provider :=
  {[ "widget" := Dependency Widget (Some widget) ]}.
Definition store : gmap loc pyobj :=
  {[ 1%positive := ODict members; 2%positive := OContainer members 1%positive ]}.
Definition provider0 : ContainerProvider := Container.__init__ 2.

(** A container with two members that declare [Widget]. *)
Definition twins : gmap string provider :=
  {[ "widget" := Dependency Widget (Some widget);
     "spare" := Singleton Widget (Ok gadget) ]}.
Definition twin_store : gmap loc pyobj :=
  {[ 1%positive := ODict twins; 2%positive := OContainer twins 1%positive ]}.


(** A world in which nothing has happened yet and no call raises; the
    [k]-th draw of [os.urandom(16)] is [k + 1]. *)
Definition world0 : world :=
  mkWorld ∅ [] no_transaction ∅ (fun k => N.of_nat k + 1)%N 0 1%positive
    (fun _ _ => None).
Definition engine : pyval := VObj (mkClass "Engine" ["Engine"; "object"] []) 100.
Definition logger : pyval := VObj Logger 101.

(** The scope [on_create_transaction_context] then
    [on_enter_transaction_context] build in [world0]. *)
Definition created : result TransactionContext * world :=
  on_create_transaction_context engine logger world0.
Definition entered : result TransactionContext * world :=
  bind (on_create_transaction_context engine logger)
       on_enter_transaction_context world0.
Definition scope0 : TransactionContext :=
  returned (mkContext provider0) entered.1.
Definition world1 : world := entered.2.

(** The same world, but the [commit] of every session raises. *)
Definition connection_lost : exn :=
  Raised "sqlalchemy.exc.OperationalError" "server closed the connection".
Definition world1_commit_fails : world :=
  mkWorld (heap world1) (trace world1) (logger_correlation_id world1)
    (buffers world1) (entropy world1) (drawn world1) (next_id world1)
    (fun _ method => if decide (method = "commit") then Some connection_lost
                     else None).

(** A scope whose [message] is bound, a repository holding two events,
    and a handler that was given the repository under two names. *)
Definition CreatePartner : pyclass := mkClass "CreatePartner" ["CreatePartner"; "Command"; "object"] [].
Definition command : pyval := VObj CreatePartner 20.
Definition repository : pyval := VObj PartnerPostgresJsonManagementRepository 30.
Definition event1 : pyval := VObj (mkClass "PartnerCreated" ["PartnerCreated"; "object"] []) 41.
Definition event2 : pyval := VObj (mkClass "PartnerActivated" ["PartnerActivated"; "object"] []) 42.
Definition message_members : gmap string provider := {[ "message" := Object command ]}.
Definition world2 : world :=
  mkWorld {[ 1%positive := ODict message_members;
             2%positive := OContainer message_members 1%positive ]}
    [] no_transaction {[ 30%positive := [event1; event2] ]}
    (fun k => N.of_nat k + 1)%N 0 200%positive (fun _ _ => None).
Definition scope2 : TransactionContext := mkContext provider0.
Definition handler_twice : partial :=
  mkPartial [("command", command); ("partner_repository", repository);
             ("repository", repository)]
            (ret (Plain VNone)).
Definition handler_once : partial :=
  mkPartial [("command", command); ("partner_repository", repository)]
            (ret (Coroutine (ret VNone))).

End Examples.

(** * Properties *)

(** ** Strings and integers *)

Module PyStrFacts.
Import PyStr.

Lemma split_no_sep sep s :
  all_chars (not_char sep) s = true -> split sep s = [s].
Proof.
  induction s as [|c r IH]; simpl; [done|].
  unfold not_char at 1. intros [Hc Hr]%andb_true_iff.
  apply negb_true_iff in Hc. rewrite Hc, (IH Hr). done.
Qed.

Lemma split_app sep a b :
  all_chars (not_char sep) a = true ->
  split sep (a +:+ String sep b) = a :: split sep b.
Proof.
  induction a as [|c r IH]; simpl.
  - intros _. by rewrite Ascii.eqb_refl.
  - unfold not_char at 1. intros [Hc Hr]%andb_true_iff.
    apply negb_true_iff in Hc. rewrite Hc, (IH Hr). done.
Qed.

Lemma all_chars_impl (P Q : ascii -> bool) s :
  (forall c, P c = true -> Q c = true) ->
  all_chars P s = true -> all_chars Q s = true.
Proof.
  intros HPQ. induction s as [|c r IH]; simpl; [done|].
  intros [Hc Hr]%andb_true_iff. by rewrite (HPQ _ Hc), (IH Hr).
Qed.

Lemma digit_not_space c : is_digit c = true -> Ascii.is_space c = false.
Proof.
  destruct c as [[] [] [] [] [] [] [] []]; vm_compute; congruence.
Qed.

Lemma digit_not_dash c : is_digit c = true -> not_char "-" c = true.
Proof.
  destruct c as [[] [] [] [] [] [] [] []]; vm_compute; congruence.
Qed.

Lemma digit_not_sign c :
  is_digit c = true -> Ascii.eqb c "-" = false /\ Ascii.eqb c "+" = false.
Proof.
  destruct c as [[] [] [] [] [] [] [] []]; vm_compute; intuition congruence.
Qed.

Lemma lstrip_digits s : all_chars is_digit s = true -> lstrip s = s.
Proof.
  destruct s as [|c r]; simpl; [done|].
  intros [Hc _]%andb_true_iff. by rewrite (digit_not_space _ Hc).
Qed.

Lemma rstrip_digits s : all_chars is_digit s = true -> rstrip s = s.
Proof.
  induction s as [|c r IH]; simpl; [done|].
  intros [Hc Hr]%andb_true_iff. rewrite (IH Hr), (digit_not_space _ Hc).
  by destruct r.
Qed.

Lemma strip_digits s : all_chars is_digit s = true -> strip s = s.
Proof.
  intros H. unfold strip. by rewrite (lstrip_digits _ H), (rstrip_digits _ H).
Qed.

(** [int] on a string of digits reads its digits. *)
Lemma int_digits s n :
  all_chars is_digit s = true ->
  parse_digits 0 false s = Some n ->
  int s = Ok n.
Proof.
  intros Hs Hn. unfold int. rewrite (strip_digits _ Hs).
  destruct s as [|c r]; [done|].
  simpl in Hs. apply andb_true_iff in Hs as [Hc _].
  destruct (digit_not_sign _ Hc) as [-> ->]. by rewrite Hn.
Qed.

Lemma pretty_N_char_digit d :
  (d < 10)%N -> Ascii.is_nat (pretty_N_char d) = Some (N.to_nat d).
Proof.
  intros Hd.
  assert (d = 0 \/ d = 1 \/ d = 2 \/ d = 3 \/ d = 4 \/ d = 5 \/ d = 6
          \/ d = 7 \/ d = 8 \/ d = 9)%N as Hcases by lia.
  repeat (destruct Hcases as [-> | Hcases]; [done|]). by subst.
Qed.

Lemma pretty_N_go_digits x s :
  all_chars is_digit s = true -> all_chars is_digit (pretty_N_go x s) = true.
Proof.
  revert s. induction (N.lt_wf_0 x) as [x _ IH]. intros s Hs.
  destruct (decide (x = 0)%N) as [-> | Hx]; [by rewrite pretty_N_go_0|].
  rewrite pretty_N_go_step by lia. apply IH.
  - apply N.div_lt; lia.
  - simpl. rewrite Hs, andb_true_r. unfold is_digit.
    rewrite pretty_N_char_digit; [done|]. apply N.mod_lt. lia.
Qed.

(** Reading back the digits [pretty] prints: the digits of [x] in front
    of [s] shift the accumulator by their number and add [x]. *)
Lemma parse_pretty_N_go x :
  (0 < x)%N ->
  exists k : Z, 0 <= k /\ forall acc b s,
    parse_digits acc b (pretty_N_go x s)
    = parse_digits (acc * 10 ^ k + Z.of_N x) true s.
Proof.
  induction (N.lt_wf_0 x) as [x _ IH]. intros Hx.
  assert (Hd : Ascii.is_nat (pretty_N_char (x `mod` 10)%N)
               = Some (N.to_nat (x `mod` 10)%N)).
  { apply pretty_N_char_digit, N.mod_lt. lia. }
  destruct (decide (x `div` 10 = 0)%N) as [Hq | Hq].
  - exists 1. split; [lia|]. intros acc b s.
    rewrite pretty_N_go_step, Hq, pretty_N_go_0 by done. simpl.
    rewrite Hd. f_equal.
    pose proof (N.div_mod x 10). lia.
  - destruct (IH (x `div` 10)%N) as (k & Hk & IHk).
    { apply N.div_lt; lia. } { by apply N.neq_0_lt_0. }
    exists (k + 1). split; [lia|]. intros acc b s.
    rewrite pretty_N_go_step, IHk by done. simpl.
    rewrite Hd. f_equal.
    rewrite Z.pow_add_r by lia.
    pose proof (N.div_mod x 10). lia.
Qed.

Lemma pretty_nonneg_digits (n : Z) :
  0 <= n -> all_chars is_digit (pretty n) = true.
Proof.
  destruct n as [|q|q]; [done| |lia]. intros _.
  change (pretty (Z.pos q)) with (pretty_N_go (N.pos q) "").
  by apply pretty_N_go_digits.
Qed.

Lemma parse_pretty_nonneg (n : Z) :
  0 <= n -> parse_digits 0 false (pretty n) = Some n.
Proof.
  destruct n as [|q|q]; [done| |lia]. intros _.
  change (pretty (Z.pos q)) with (pretty_N_go (N.pos q) "").
  destruct (parse_pretty_N_go (N.pos q)) as (k & _ & Hk); [lia|].
  rewrite Hk. simpl. f_equal; lia.
Qed.

(** [int(str(n)) == n] for a non-negative [n]. *)
Lemma int_str_int (n : Z) : 0 <= n -> int (str_int n) = Ok n.
Proof.
  intros Hn. apply int_digits.
  - by apply pretty_nonneg_digits.
  - by apply parse_pretty_nonneg.
Qed.

Lemma month_cases (m : Z) :
  1 <= m <= 12 ->
  m = 1 \/ m = 2 \/ m = 3 \/ m = 4 \/ m = 5 \/ m = 6 \/ m = 7 \/ m = 8
  \/ m = 9 \/ m = 10 \/ m = 11 \/ m = 12.
Proof. lia. Qed.

(** The two-digit month: no dash in it, and [int] reads it back. *)
Lemma format_02d_month (m : Z) :
  1 <= m <= 12 ->
  all_chars (not_char "-") (format_02d m) = true /\ int (format_02d m) = Ok m.
Proof.
  intros Hm. pose proof (month_cases m Hm) as Hcases.
  repeat (destruct Hcases as [-> | Hcases]; [by vm_compute|]).
  subst. by vm_compute.
Qed.

End PyStrFacts.

(** ** [Period] *)

Module PeriodFacts.
Import PyStr PyStrFacts Period.

Lemma Period_new_valid y m :
  1 <= m <= 12 -> y <= 2025 -> new y m = Ok (mkPeriod y m).
Proof.
  intros Hm Hy. unfold new, __post_init__; simpl.
  replace ((1 <=? m) && (m <=? 12)) with true by (symmetry; apply andb_true_iff; lia).
  replace (y <=? 2025) with true by (symmetry; apply Z.leb_le; lia). done.
Qed.

Lemma Period_new_inv y m p :
  new y m = Ok p -> p = mkPeriod y m /\ 1 <= m <= 12 /\ y <= 2025.
Proof.
  unfold new, __post_init__; simpl.
  destruct ((1 <=? m) && (m <=? 12)) eqn:Hm; simpl; [|done].
  destruct (y <=? 2025) eqn:Hy; simpl; [|done].
  apply andb_true_iff in Hm. intros [= <-]. split; [done|lia].
Qed.

Lemma Period_new_month_out_of_range y m :
  ~ (1 <= m <= 12) ->
  new y m = Raise (AssertionError "Month must be between 1 and 12").
Proof.
  intros Hm. unfold new, __post_init__; simpl.
  replace ((1 <=? m) && (m <=? 12)) with false; [done|].
  symmetry. apply andb_false_iff. lia.
Qed.

(** Two dash-free pieces around one dash are read back piece by piece. *)
Lemma from_str_format_pieces a b :
  all_chars (not_char "-") a = true ->
  all_chars (not_char "-") b = true ->
  from_str_format (a +:+ "-" +:+ b)
  = (let* y := int b in let* m := int a in new y m)%res.
Proof.
  intros Ha Hb. unfold from_str_format.
  change ("-" +:+ b) with (String "-" b).
  by rewrite (split_app _ _ _ Ha), (split_no_sep _ _ Hb).
Qed.

(** The code's [<] holds whenever the year-then-month order does. *)
Lemma lex_lt_lt p q : lex_lt p q = true -> __lt__ p q = true.
Proof.
  unfold lex_lt, __lt__. intros H.
  apply orb_true_iff in H as [H | [_ H]%andb_true_iff];
    apply orb_true_iff; auto.
Qed.

(** Within one year the two orders coincide. *)
Lemma lt_same_year p q : year p = year q -> __lt__ p q = lex_lt p q.
Proof.
  unfold lex_lt, __lt__. intros ->.
  by rewrite Z.ltb_irrefl, Z.eqb_refl.
Qed.

(** C6 (the code at the failing input): [Period(2024, 1)] and
    [Period(2023, 5)] are both valid, the first is not before the
    second in the year-then-month order, yet [__lt__] answers [True],
    and so does [__gt__]: the comparison takes the months into account
    even when the years differ. *)
Theorem Period_lt_ignores_year_order :
  new 2024 1 = Ok (mkPeriod 2024 1) /\
  new 2023 5 = Ok (mkPeriod 2023 5) /\
  lex_lt (mkPeriod 2024 1) (mkPeriod 2023 5) = false /\
  __lt__ (mkPeriod 2024 1) (mkPeriod 2023 5) = true /\
  __gt__ (mkPeriod 2024 1) (mkPeriod 2023 5) = true.
Proof. repeat split. Qed.

(** C7 (counterexample): [Period(year=-5, month=3)] is constructed, its
    representation is ["03--5"], and reading that back raises instead
    of returning the period. *)
Lemma Period_roundtrip_fails_negative_year :
  new (-5) 3 = Ok (mkPeriod (-5) 3) /\
  representation (mkPeriod (-5) 3) = "03--5" /\
  from_str_format (representation (mkPeriod (-5) 3))
  = Raise (ValueError "too many values to unpack (expected 2)").
Proof. repeat split. Qed.

(** C7 (amended): construction fails whenever the month is outside
    1..12, [Period(year=2024, month=13)] among them;
    [from_str_format("03-2024")] is [Period(year=2024, month=3)]; and
    for every constructed period whose year is not negative, reading
    back its representation returns the period. *)
Theorem Period_construction_and_roundtrip :
  (forall y m, ~ (1 <= m <= 12) ->
     new y m = Raise (AssertionError "Month must be between 1 and 12")) /\
  new 2024 13 = Raise (AssertionError "Month must be between 1 and 12") /\
  (from_str_format "03-2024" = new 2024 3 /\ new 2024 3 = Ok (mkPeriod 2024 3)) /\
  (forall y m p, new y m = Ok p -> 0 <= y ->
     from_str_format (representation p) = Ok p).
Proof.
  split; [exact Period_new_month_out_of_range|].
  split; [done|]. split; [done|].
  intros y m p Hnew Hy.
  apply Period_new_inv in Hnew as (-> & Hm & Hy').
  destruct (format_02d_month m Hm) as [Hdash Hint].
  unfold representation; simpl.
  rewrite from_str_format_pieces.
  - rewrite (int_str_int y Hy), Hint; simpl. by apply Period_new_valid.
  - done.
  - apply (all_chars_impl is_digit); [exact digit_not_dash|].
    by apply pretty_nonneg_digits.
Qed.

Lemma Period_roundtrip_witness :
  from_str_format (representation (mkPeriod 1999 12)) = Ok (mkPeriod 1999 12).
Proof.
  apply (proj2 (proj2 (proj2 Period_construction_and_roundtrip)) 1999 12).
  - reflexivity.
  - lia.
Defined.

End PeriodFacts.

(** ** [Money] *)

Module MoneyFacts.
Import Money.

(** A float below zero is not at or above zero (NaN is neither). *)
Lemma ltb_zero_not_leb (a : float) :
  (a <? 0)%float = true -> (0 <=? a)%float = false.
Proof.
  rewrite ltb_spec, leb_spec.
  change (Prim2SF 0) with (S754_zero false).
  destruct (Prim2SF a) as [s|s| |s m e]; try destruct s; cbv; congruence.
Qed.

Lemma Money_new_ok a c :
  (0 <=? a)%float = true -> new a c = Ok (mkMoney a c).
Proof. intros H. unfold new, __post_init__; simpl. by rewrite H. Qed.

Lemma Money_new_inv a c m : new a c = Ok m -> m = mkMoney a c.
Proof.
  unfold new, __post_init__; simpl.
  destruct (0 <=? a)%float; simpl; [|done]. by intros [= <-].
Qed.

Lemma Money_new_negative a c :
  (a <? 0)%float = true ->
  new a c = Raise (AssertionError "Amount must be greather than 0").
Proof.
  intros H. unfold new, __post_init__; simpl.
  by rewrite (ltb_zero_not_leb a H).
Qed.

(** C8: construction fails for every amount below zero,
    [Money(amount=-1)] among them; [Money(amount=10) +
    Money(amount=5)] is [Money(amount=15)];
    [Money(amount=10).calculate_fee(Fee(10))] is [Money(amount=1)];
    and whenever [calculate_fee] returns, the amount of the result is
    [amount * value / 100] and its currency is the currency of the
    money the fee is taken from. *)
Theorem Money_construction_sum_and_fee :
  (forall a c, (a <? 0)%float = true ->
     new a c = Raise (AssertionError "Amount must be greather than 0")) /\
  new_default (-1) = Raise (AssertionError "Amount must be greather than 0") /\
  (let* a := new_default 10 in
   let* b := new_default 5 in
   __add__ a b)%res = new_default 15 /\
  new_default 15 = Ok (mkMoney 15 ARS) /\
  (let* a := new_default 10 in calculate_fee a (mkFee 10))%res = new_default 1 /\
  new_default 1 = Ok (mkMoney 1 ARS) /\
  (forall m fee m', calculate_fee m fee = Ok m' ->
     amount m' = (amount m * value fee / 100)%float /\ currency m' = currency m).
Proof.
  split; [exact Money_new_negative|].
  repeat (split; [reflexivity|]).
  intros m fee m' H. unfold calculate_fee in H.
  apply Money_new_inv in H as ->. done.
Qed.

Lemma Money_negative_witness :
  new (-2.5) USD = Raise (AssertionError "Amount must be greather than 0").
Proof.
  apply (proj1 Money_construction_sum_and_fee (-2.5)%float USD).
  reflexivity.
Defined.

(** C10: [a + b] and [a - b] never look at the currency of [b]: the
    outcome is the same whatever that currency is; they return
    whenever the resulting amount is at or above zero, and what they
    return carries the currency of [a]. *)
Theorem Money_add_sub_keep_left_currency (a b : Money) :
  (forall c, __add__ a (mkMoney (amount b) c) = __add__ a b) /\
  (forall c, __sub__ a (mkMoney (amount b) c) = __sub__ a b) /\
  ((0 <=? amount a + amount b)%float = true ->
     __add__ a b = Ok (mkMoney (amount a + amount b) (currency a))) /\
  ((0 <=? amount a - amount b)%float = true ->
     __sub__ a b = Ok (mkMoney (amount a - amount b) (currency a))) /\
  (forall m, __add__ a b = Ok m -> currency m = currency a) /\
  (forall m, __sub__ a b = Ok m -> currency m = currency a).
Proof.
  repeat split; try done.
  - apply Money_new_ok.
  - apply Money_new_ok.
  - intros m H. unfold __add__ in H. by apply Money_new_inv in H as ->.
  - intros m H. unfold __sub__ in H. by apply Money_new_inv in H as ->.
Qed.

Lemma Money_mixed_currency_witness :
  __add__ (mkMoney 10 USD) (mkMoney 5 ARS) = Ok (mkMoney 15 USD) /\
  __sub__ (mkMoney 10 USD) (mkMoney 5 ARS) = Ok (mkMoney 5 USD).
Proof.
  split.
  - apply (proj1 (proj2 (proj2
      (Money_add_sub_keep_left_currency (mkMoney 10 USD) (mkMoney 5 ARS))))).
    reflexivity.
  - apply (proj1 (proj2 (proj2 (proj2
      (Money_add_sub_keep_left_currency (mkMoney 10 USD) (mkMoney 5 ARS)))))).
    reflexivity.
Defined.

End MoneyFacts.

(** ** The dependency provider *)

Module ContainerFacts.
Import Container.

(** *** Storing and reading attributes *)

Lemma free_name_spec attrs name :
  free_name attrs name = true <->
  name <> "providers" /\ name <> "parent" /\
  forall p, attrs !! name = Some p -> is_provider p = true.
Proof.
  unfold free_name. rewrite !andb_true_iff, !bool_decide_eq_true.
  destruct (attrs !! name) as [p|]; split.
  - intros [[? ?] ?]. repeat split; try done. by intros ? [= <-].
  - intros (? & ? & H). repeat split; try done. by apply H.
  - by intros [[? ?] _].
  - by intros (? & ? & _).
Qed.

(** A name that is free stays free when an instance is stored. *)
Lemma free_name_insert attrs key v name :
  free_name attrs name = true ->
  free_name (<[key := Object v]> attrs) name = true.
Proof.
  rewrite !free_name_spec. intros (? & ? & H). repeat split; try done.
  intros p. destruct (decide (key = name)) as [->|Hne].
  - rewrite lookup_insert_eq. by intros [= <-].
  - rewrite lookup_insert_ne by done. apply H.
Qed.

(** The synthesized keys start with [<]: they are none of the names
    the container treats apart. *)
Lemma storage_key_type_ordinary n t :
  storage_key n (IdType t) <> "providers" /\ storage_key n (IdType t) <> "parent".
Proof. split; discriminate. Qed.

(** Under a free name, with the [providers] dict in place, the
    provider is recorded in the dict and set as an attribute. *)
Lemma container_setattr_ok h c attrs pl d name pr :
  h !! c = Some (OContainer attrs pl) ->
  h !! pl = Some (ODict d) ->
  attrs !! "providers" = None ->
  free_name attrs name = true ->
  container_setattr h c name pr
  = (Ok tt,
     <[c := OContainer (<[name := pr]> attrs) pl]>
       (<[pl := ODict (<[name := pr]> d)]> h)).
Proof.
  intros Hc Hpl Hprov (Hn1 & Hn2 & Hfree)%free_name_spec.
  unfold container_setattr, providers_setitem, self_providers.
  rewrite Hc, Hprov, Hpl. rewrite decide_False by done.
  destruct (attrs !! name) as [p|] eqn:Hp; [|done].
  specialize (Hfree p eq_refl). by destruct p.
Qed.

(** Whatever it does, [setattr] writes nowhere but in the container
    and in the dict of its [providers]. *)
Lemma container_setattr_frame h c name pr r h' x :
  container_setattr h c name pr = (r, h') ->
  x <> c -> (forall d, h !! x <> Some (ODict d)) ->
  h' !! x = h !! x.
Proof.
  unfold container_setattr, providers_setitem, self_providers.
  intros H Hx Hd. revert H.
  destruct (h !! c) as [[|attrs pl]|]; try (by intros [= _ <-]).
  assert (Hpl : forall d, h !! pl = Some (ODict d) ->
                  forall o, (<[pl := o]> h) !! x = h !! x).
  { intros d Hpl o. rewrite lookup_insert_ne; [done|]. intros ->.
    by apply (Hd d). }
  destruct (decide (name = "parent")).
  - destruct (attrs !! name) as [[]|]; intros [= _ <-];
      by rewrite ?lookup_insert_ne.
  - destruct (attrs !! "providers"); [by intros [= _ <-]|].
    destruct (h !! pl) as [[d|]|] eqn:E; try (by intros [= _ <-]).
    destruct (attrs !! name) as [[]|]; intros [= _ <-];
      rewrite ?lookup_insert_ne by done; by apply (Hpl d).
Qed.

(** The container stays a container, with the same dict. *)
Lemma container_setattr_container h c name pr r h' attrs pl :
  h !! c = Some (OContainer attrs pl) ->
  container_setattr h c name pr = (r, h') ->
  exists attrs', h' !! c = Some (OContainer attrs' pl).
Proof.
  intros Hc. unfold container_setattr, providers_setitem, self_providers.
  rewrite Hc.
  assert (Hkeep : forall d o, h !! pl = Some (ODict d) ->
                    (<[pl := o]> h) !! c = Some (OContainer attrs pl)).
  { intros d o Hpl. rewrite lookup_insert_ne; [done|]. intros ->. congruence. }
  destruct (decide (name = "parent")).
  - destruct (attrs !! name) as [[]|]; intros [= _ <-];
      rewrite ?lookup_insert_eq; eauto.
  - destruct (attrs !! "providers"); [intros [= _ <-]; eauto|].
    destruct (h !! pl) as [[d|]|] eqn:E; try (intros [= _ <-]; eauto).
    destruct (attrs !! name) as [[]|]; intros [= _ <-];
      rewrite ?lookup_insert_eq; eauto.
Qed.

(** A registration under a free name stores the instance under
    [storage_key] and moves the counter to [next_counter]. *)
Lemma register_dependency_ok h self attrs pl d i v :
  h !! container self = Some (OContainer attrs pl) ->
  h !! pl = Some (ODict d) ->
  attrs !! "providers" = None ->
  free_name attrs (storage_key (counter self) i) = true ->
  register_dependency h self i v
  = Ok (mkProvider (container self) (next_counter (counter self) i),
        <[container self :=
            OContainer (<[storage_key (counter self) i := Object v]> attrs) pl]>
          (<[pl := ODict (<[storage_key (counter self) i := Object v]> d)]> h)).
Proof.
  intros Hc Hpl Hprov Hfree. unfold register_dependency, setattr.
  destruct i as [s|t]; cbn [storage_key next_counter] in *.
  - rewrite (container_setattr_ok _ _ _ _ _ _ _ Hc Hpl Hprov Hfree). by destruct self.
  - by rewrite (container_setattr_ok _ _ _ _ _ _ _ Hc Hpl Hprov Hfree).
Qed.

Lemma register_dependency_container h self i v self' h' :
  register_dependency h self i v = Ok (self', h') ->
  container self' = container self.
Proof.
  unfold register_dependency.
  destruct (setattr _ _ _ _) as [[[]|[]] h1]; try done;
    try (by intros [= <- _]);
    destruct (container_setattr _ _ _ _) as [[|[]] h2]; try done;
    by intros [= <- _].
Qed.

(** A registration leaves every other container as it was. *)
Lemma register_dependency_frame h self i v self' h' x :
  register_dependency h self i v = Ok (self', h') ->
  x <> container self -> (forall d, h !! x <> Some (ODict d)) ->
  h' !! x = h !! x.
Proof.
  intros Hreg Hx Hd.
  assert (Hfirst : forall r h1,
            setattr h (container self) i (Object v) = (r, h1) ->
            h1 !! x = h !! x).
  { intros r h1. destruct i as [s|t]; simpl.
    - intros H. by apply (container_setattr_frame _ _ _ _ _ _ _ H).
    - by intros [= _ <-]. }
  revert Hreg. unfold register_dependency.
  destruct (setattr _ _ _ _) as [[e|[]] h1] eqn:Hs.
  - specialize (Hfirst _ _ eq_refl).
    destruct e; try done.
    destruct (container_setattr h1 _ _ _) as [[|[]] h2] eqn:Hs2; try done.
    intros [= _ <-]. rewrite <- Hfirst.
    apply (container_setattr_frame _ _ _ _ _ _ _ Hs2); [done|].
    intros d. rewrite Hfirst. apply Hd.
  - intros [= _ <-]. by apply (Hfirst (Ok tt)).
Qed.

(** What a registration under a type does, when it returns. *)
Lemma register_type_inv h self attrs pl d t v self' h' :
  h !! container self = Some (OContainer attrs pl) ->
  h !! pl = Some (ODict d) ->
  register_dependency h self (IdType t) v = Ok (self', h') ->
  let key := storage_key (counter self) (IdType t) in
  attrs !! "providers" = None /\
  self' = mkProvider (container self) (counter self + 1) /\
  h' = <[container self := OContainer (<[key := Object v]> attrs) pl]>
         (<[pl := ODict (<[key := Object v]> d)]> h).
Proof.
  intros Hc Hpl. unfold register_dependency, setattr.
  cbn [storage_key ident_str].
  unfold container_setattr, providers_setitem, self_providers. rewrite Hc.
  rewrite decide_False by discriminate.
  destruct (attrs !! "providers"); [done|]. rewrite Hpl.
  destruct (attrs !! _) as [[]|]; try done; by intros [= <- <-].
Qed.

(** A sequence of registrations under free names returns; the
    attributes it leaves are the former ones overridden, in order,
    under the keys of [stored]. *)
Lemma update_ok regs : forall h self attrs pl d,
  h !! container self = Some (OContainer attrs pl) ->
  h !! pl = Some (ODict d) ->
  attrs !! "providers" = None ->
  Forall (fun k => free_name attrs k = true) (stored (counter self) regs).*1 ->
  exists h',
    update h self regs
    = Ok (mkProvider (container self) (final_counter (counter self) regs), h') /\
    h' !! container self
    = Some (OContainer (foldl put attrs (stored (counter self) regs)) pl) /\
    h' !! pl = Some (ODict (foldl put d (stored (counter self) regs))).
Proof.
  induction regs as [|[i v] regs IH]; intros h self attrs pl d Hc Hpl Hprov Hfree.
  - exists h. simpl. by destruct self.
  - simpl in Hfree. apply Forall_cons in Hfree as [Hkey Hfree].
    simpl. rewrite (register_dependency_ok _ _ _ _ _ _ _ Hc Hpl Hprov Hkey). simpl.
    assert (container self <> pl) as Hne by (intros E; congruence).
    apply free_name_spec in Hkey as Hkey'. destruct Hkey' as (Hk1 & _ & _).
    destruct (IH
      (<[container self :=
           OContainer (<[storage_key (counter self) i := Object v]> attrs) pl]>
         (<[pl := ODict (<[storage_key (counter self) i := Object v]> d)]> h))
      (mkProvider (container self) (next_counter (counter self) i))
      (<[storage_key (counter self) i := Object v]> attrs) pl
      (<[storage_key (counter self) i := Object v]> d))
      as (h' & Hup & Hc' & Hpl').
    + apply lookup_insert_eq.
    + simpl. rewrite lookup_insert_ne by done. apply lookup_insert_eq.
    + by rewrite lookup_insert_ne.
    + simpl. eapply Forall_impl; [exact Hfree|].
      intros k Hk. by apply free_name_insert.
    + exists h'. simpl in *. by rewrite Hup.
Qed.



(** A lookup by name is the call of whatever the container has under
    the name; its [providers] attribute is a dict, which cannot be
    called. *)
Lemma get_dependency_str h self attrs pl s :
  h !! container self = Some (OContainer attrs pl) ->
  get_dependency h self (IdStr s)
  = match attrs !! s with
    | Some pr => call pr
    | None =>
        if decide (s = "providers")
        then Raise (TypeError "'dict' object is not callable")
        else Raise (AttributeError
               ("'DynamicContainer' object has no attribute '" +:+ s +:+ "'"))
    end.
Proof.
  intros Hc. unfold get_dependency, getattr. rewrite Hc.
  destruct (attrs !! s); [done|]. by destruct (decide (s = "providers")).
Qed.


(** Registrations under string identifiers are stored under the
    identifiers themselves. *)
Lemma stored_strings regs : forall n,
  Forall (fun r => exists s, r.1 = IdStr s) regs ->
  (stored n regs).*1 = (fun r => ident_str r.1) <$> regs.
Proof.
  induction regs as [|[i v] regs IH]; intros n Hall; simpl; [done|].
  apply Forall_cons in Hall as [[s Hs] Hall]. simpl in Hs. subst i. simpl.
  by rewrite IH.
Qed.



(** *** Lookup by type *)

Lemma elem_of_getmembers attrs predicate n p :
  (n, p) ∈ getmembers attrs predicate <->
  attrs !! n = Some p /\ predicate p = true.
Proof.
  unfold getmembers. rewrite list_elem_of_filter, elem_of_map_to_list. simpl.
  tauto.
Qed.

Lemma NoDup_getmembers attrs predicate : NoDup (getmembers attrs predicate).
Proof. unfold getmembers. apply NoDup_filter, NoDup_map_to_list. Qed.

Lemma NoDup_names_getmembers attrs predicate n p q :
  (n, p) ∈ getmembers attrs predicate ->
  (n, q) ∈ getmembers attrs predicate -> p = q.
Proof.
  intros [Hp _]%elem_of_getmembers [Hq _]%elem_of_getmembers. congruence.
Qed.

(** Exactly one member satisfies the predicate: it is the list. *)
Lemma getmembers_unique attrs predicate n p :
  attrs !! n = Some p -> predicate p = true ->
  (forall n' p', attrs !! n' = Some p' -> predicate p' = true -> n' = n) ->
  getmembers attrs predicate = [(n, p)].
Proof.
  intros Hn Hp Huniq.
  assert (Hin : (n, p) ∈ getmembers attrs predicate) by by apply elem_of_getmembers.
  assert (Hall : forall x, x ∈ getmembers attrs predicate -> x = (n, p)).
  { intros [n' p'] Hx. pose proof Hx as [Hn' Hp']%elem_of_getmembers.
    assert (n' = n) as -> by eauto. f_equal. congruence. }
  pose proof (NoDup_getmembers attrs predicate) as Hnd.
  destruct (getmembers attrs predicate) as [|x [|y l]].
  - by apply elem_of_nil in Hin.
  - f_equal. apply Hall. left.
  - exfalso. apply NoDup_cons in Hnd as [Hx _]. apply Hx.
    rewrite (Hall x), (Hall y); [left | right; left | left].
Qed.

Lemma getmembers_none attrs predicate :
  (forall n p, attrs !! n = Some p -> predicate p = false) ->
  getmembers attrs predicate = [].
Proof.
  intros Hnone. destruct (getmembers attrs predicate) as [|[n p] l] eqn:E; [done|].
  assert ((n, p) ∈ getmembers attrs predicate) as [Hn Hp]%elem_of_getmembers
    by (rewrite E; left).
  rewrite (Hnone n p Hn) in Hp. done.
Qed.

Lemma getmembers_several attrs predicate n1 p1 n2 p2 :
  n1 <> n2 -> attrs !! n1 = Some p1 -> attrs !! n2 = Some p2 ->
  predicate p1 = true -> predicate p2 = true ->
  exists x y l, getmembers attrs predicate = x :: y :: l.
Proof.
  intros Hne H1 H2 Hp1 Hp2.
  assert (Hin1 : (n1, p1) ∈ getmembers attrs predicate) by by apply elem_of_getmembers.
  assert (Hin2 : (n2, p2) ∈ getmembers attrs predicate) by by apply elem_of_getmembers.
  destruct (getmembers attrs predicate) as [|x [|y l]].
  - by apply elem_of_nil in Hin1.
  - apply list_elem_of_singleton in Hin1, Hin2. congruence.
  - by exists x, y, l.
Qed.

(** The predicate of the lookup holds of the providers that declare a
    subclass of the requested type, and of nothing else: not of an
    [Object] provider, which declares no type, and not of what the
    container has of its own accord. *)
Lemma inspect_provider_declares cls p :
  inspect_provider cls p = true <-> declares cls p.
Proof.
  unfold declares.
  destruct p; simpl; split; try (intros (c & [= <-] & ?)); eauto;
    try done; by intros (? & ? & ?).
Qed.

Lemma inspect_provider_not_declares cls p :
  inspect_provider cls p = false <-> ~ declares cls p.
Proof.
  rewrite <- inspect_provider_declares. by destruct (inspect_provider cls p).
Qed.

(** What the lookup by type does, by the number of attributes that
    declare a subclass of the type. *)
Lemma resolve_provider_by_type_cases h c attrs pl t :
  h !! c = Some (OContainer attrs pl) ->
  (forall n p,
     attrs !! n = Some p -> declares t p ->
     (forall n' p', attrs !! n' = Some p' -> declares t p' -> n' = n) ->
     resolve_provider_by_type h c t = Ok (Some p)) /\
  ((forall n p, attrs !! n = Some p -> ~ declares t p) ->
     resolve_provider_by_type h c t = Ok None) /\
  (forall n1 p1 n2 p2,
     n1 <> n2 -> attrs !! n1 = Some p1 -> attrs !! n2 = Some p2 ->
     declares t p1 -> declares t p2 ->
     resolve_provider_by_type h c t
     = Raise (TypeError "object of type 'module' has no len()")).
Proof.
  intros Hc. unfold resolve_provider_by_type. rewrite Hc. repeat split.
  - intros n p Hn Hp%inspect_provider_declares Huniq.
    rewrite (getmembers_unique _ _ n p); [done|done|done|].
    intros n' p' Hn' Hp'%inspect_provider_declares. by apply (Huniq n' p').
  - intros Hnone. rewrite getmembers_none; [done|].
    intros n p Hn. apply inspect_provider_not_declares. by apply (Hnone n).
  - intros n1 p1 n2 p2 Hne H1 H2 Hp1%inspect_provider_declares
      Hp2%inspect_provider_declares.
    destruct (getmembers_several _ _ _ _ _ _ Hne H1 H2 Hp1 Hp2) as (x & y & l & ->).
    done.
Qed.

(** C3 (the code at its failing inputs): a lookup by type on a
    provider whose container has the attributes [attrs].  When exactly
    one attribute is a provider that declares a subclass of the
    requested type, the lookup is the call of that provider.  When two
    or more are, the lookup raises, but not the error the code is
    building: evaluating the message of its [ValueError] raises a
    [TypeError] ([len] of a module).  When none is, the lookup raises a
    [TypeError] as well, from calling [None]. *)
Theorem get_dependency_by_type h self attrs pl t :
  h !! container self = Some (OContainer attrs pl) ->
  (forall n p,
     attrs !! n = Some p -> declares t p ->
     (forall n' p', attrs !! n' = Some p' -> declares t p' -> n' = n) ->
     get_dependency h self (IdType t) = call p) /\
  ((forall n p, attrs !! n = Some p -> ~ declares t p) ->
     get_dependency h self (IdType t)
     = Raise (TypeError "'NoneType' object is not callable")) /\
  (forall n1 p1 n2 p2,
     n1 <> n2 -> attrs !! n1 = Some p1 -> attrs !! n2 = Some p2 ->
     declares t p1 -> declares t p2 ->
     get_dependency h self (IdType t)
     = Raise (TypeError "object of type 'module' has no len()") /\
     forall msg, get_dependency h self (IdType t) <> Raise (ValueError msg)).
Proof.
  intros Hc.
  destruct (resolve_provider_by_type_cases h (container self) attrs pl t Hc)
    as (Hone & Hnone & Hmany).
  unfold get_dependency. repeat split.
  - intros n p Hn Hp Huniq. by rewrite (Hone n p).
  - intros H. by rewrite (Hnone H).
  - by rewrite (Hmany n1 p1 n2 p2).
  - by rewrite (Hmany n1 p1 n2 p2).
Qed.

(** *** Registering and reading back *)


Lemma final_counter_strings regs : forall n,
  Forall (fun r => exists s, r.1 = IdStr s) regs -> final_counter n regs = n.
Proof.
  induction regs as [|[i v] regs IH]; intros n Hall; simpl; [done|].
  apply Forall_cons in Hall as [[s Hs] Hall]. simpl in Hs. subst i. simpl.
  by apply IH.
Qed.

(** A lookup by type sees the attributes that declare a type and
    nothing else: it is the same in two containers that hold the same
    such attributes. *)
Lemma getmembers_perm attrs attrs' predicate :
  (forall n p, attrs' !! n = Some p /\ predicate p = true <->
               attrs !! n = Some p /\ predicate p = true) ->
  getmembers attrs' predicate ≡ₚ getmembers attrs predicate.
Proof.
  intros H. apply NoDup_Permutation; try apply NoDup_getmembers.
  intros [n p]. rewrite !elem_of_getmembers. apply H.
Qed.

Lemma resolve_perm (l l' : list (string * provider)) :
  l ≡ₚ l' ->
  match l with
  | [] => Ok None
  | [m] => Ok (Some m.2)
  | _ :: _ :: _ => Raise (TypeError "object of type 'module' has no len()")
  end
  = match l' return result (option provider) with
    | [] => Ok None
    | [m] => Ok (Some m.2)
    | _ :: _ :: _ => Raise (TypeError "object of type 'module' has no len()")
    end.
Proof.
  intros Hp. pose proof (Permutation_length Hp) as Hlen.
  destruct l as [|x [|y l]], l' as [|x' [|y' l']]; try done.
  apply Permutation_singleton_l in Hp. by injection Hp as <-.
Qed.

Lemma get_dependency_type_perm h h' self self' attrs attrs' pl pl' t :
  h !! container self = Some (OContainer attrs pl) ->
  h' !! container self' = Some (OContainer attrs' pl') ->
  (forall n p, attrs' !! n = Some p /\ declares t p <->
               attrs !! n = Some p /\ declares t p) ->
  get_dependency h' self' (IdType t) = get_dependency h self (IdType t) /\
  has_dependency h' self' (IdType t) = has_dependency h self (IdType t).
Proof.
  intros Hc Hc' H.
  assert (E : resolve_provider_by_type h' (container self') t
              = resolve_provider_by_type h (container self) t).
  { unfold resolve_provider_by_type. rewrite Hc, Hc'.
    apply resolve_perm, getmembers_perm. intros n p.
    rewrite !inspect_provider_declares. apply H. }
  unfold get_dependency, has_dependency. by rewrite E.
Qed.

(** Storing an instance under a key that held no provider declaring
    the type leaves the lookups by that type as they were. *)
Lemma insert_object_keeps_type_lookup h h' self self' attrs pl pl' key v t :
  h !! container self = Some (OContainer attrs pl) ->
  h' !! container self' = Some (OContainer (<[key := Object v]> attrs) pl') ->
  (forall p, attrs !! key = Some p -> ~ declares t p) ->
  get_dependency h' self' (IdType t) = get_dependency h self (IdType t) /\
  has_dependency h' self' (IdType t) = has_dependency h self (IdType t).
Proof.
  intros Hc Hc' Hkey. apply (get_dependency_type_perm _ _ _ _ _ _ _ _ _ Hc Hc').
  intros n p. destruct (decide (n = key)) as [->|Hne].
  - rewrite lookup_insert_eq. split.
    + intros [[= <-] (c & Hd & _)]. done.
    + intros [Hn Hp]. by destruct (Hkey p Hn).
  - by rewrite lookup_insert_ne.
Qed.



(** *** Deriving a provider *)

(** A lookup reads nothing but the provider's own container. *)
Lemma get_dependency_same_container h h' self i :
  h' !! container self = h !! container self ->
  get_dependency h' self i = get_dependency h self i.
Proof.
  intros E. unfold get_dependency, resolve_provider_by_type, getattr.
  destruct i; by rewrite E.
Qed.

Lemma update_container regs : forall h self self' h',
  update h self regs = Ok (self', h') -> container self' = container self.
Proof.
  induction regs as [|[i v] regs IH]; intros h self self' h' Hup; simpl in Hup.
  - by injection Hup as <- _.
  - destruct (register_dependency h self i v) as [e|[self1 h1]] eqn:Hreg; [done|].
    simpl in Hup. apply register_dependency_container in Hreg.
    rewrite <- Hreg. by eapply IH.
Qed.

(** A sequence of registrations leaves every other container as it
    was. *)
Lemma update_frame regs : forall h self self' h' c,
  update h self regs = Ok (self', h') ->
  c <> container self ->
  (exists attrs pl, h !! c = Some (OContainer attrs pl)) ->
  h' !! c = h !! c.
Proof.
  induction regs as [|[i v] regs IH]; intros h self self' h' c Hup Hne Hc; simpl in Hup.
  - by injection Hup as <- <-.
  - destruct (register_dependency h self i v) as [e|[self1 h1]] eqn:Hreg; [done|].
    simpl in Hup.
    assert (Hsame : h1 !! c = h !! c).
    { apply (register_dependency_frame _ _ _ _ _ _ _ Hreg Hne).
      destruct Hc as (a & q & Hc). intros d. by rewrite Hc. }
    rewrite <- Hsame. eapply IH; [exact Hup| |].
    + by rewrite (register_dependency_container _ _ _ _ _ _ Hreg).
    + destruct Hc as (a & q & Hc). exists a, q. by rewrite Hsame.
Qed.

Lemma copy_container_fresh h c c' h' :
  copy_container h c = Ok (c', h') ->
  c' <> c /\ h' !! c = h !! c /\ exists attrs pl, h !! c = Some (OContainer attrs pl).
Proof.
  unfold copy_container.
  destruct (h !! c) as [[|attrs pl]|] eqn:Hc; try done.
  intros [= <- <-].
  assert (fresh (dom h) <> c) as Hne.
  { intros E. apply (is_fresh (dom h)). rewrite E. apply elem_of_dom. eauto. }
  split; [done|]. split; [by rewrite lookup_insert_ne|eauto].
Qed.

(** C5: a provider derived by [copy], with its extra bindings and
    whatever is registered on it afterwards, leaves every lookup on the
    original provider as it was. *)
Theorem copy_then_register_leaves_original h self extra dp h1 more dp' h2 i :
  copy h self extra = Ok (dp, h1) ->
  update h1 dp more = Ok (dp', h2) ->
  get_dependency h2 self i = get_dependency h self i.
Proof.
  intros Hcopy Hmore. unfold copy in Hcopy.
  destruct (copy_container h (container self)) as [e|[c' h0]] eqn:Hcc; [done|].
  simpl in Hcopy.
  apply copy_container_fresh in Hcc as (Hne & Hsame0 & attrs & pl & Hc).
  assert (Hc0 : exists a q, h0 !! container self = Some (OContainer a q)).
  { exists attrs, pl. by rewrite Hsame0. }
  pose proof (update_container _ _ _ _ _ Hcopy) as Hdp. simpl in Hdp.
  assert (Hsame1 : h1 !! container self = h0 !! container self).
  { eapply update_frame; [exact Hcopy|simpl; congruence|exact Hc0]. }
  assert (Hsame2 : h2 !! container self = h1 !! container self).
  { eapply update_frame; [exact Hmore|congruence|].
    destruct Hc0 as (a & q & Hc0). exists a, q. by rewrite Hsame1. }
  apply get_dependency_same_container. congruence.
Qed.

(** *** The statements on concrete containers *)

Lemma store_well_formed : well_formed Examples.store Examples.provider0.
Proof. by exists Examples.members, 1%positive, Examples.members. Qed.

(** The container of [Examples.twin_store] has two providers that
    declare [Widget]: the lookup of [Widget] raises the [TypeError] of
    [len(providers)]. *)
Lemma get_dependency_by_type_witness :
  get_dependency Examples.twin_store Examples.provider0 (IdType Examples.Widget)
  = Raise (TypeError "object of type 'module' has no len()") /\
  forall msg,
    get_dependency Examples.twin_store Examples.provider0 (IdType Examples.Widget)
    <> Raise (ValueError msg).
Proof.
  apply (proj2 (proj2 (get_dependency_by_type Examples.twin_store Examples.provider0
                         Examples.twins 1%positive Examples.Widget eq_refl))
           "spare" (Singleton Examples.Widget (Ok Examples.gadget))
           "widget" (Dependency Examples.Widget (Some Examples.widget))).
  - discriminate.
  - reflexivity.
  - reflexivity.
  - by exists Examples.Widget.
  - by exists Examples.Widget.
Defined.


Lemma copy_then_register_witness :
  let derived := returned (Examples.provider0, Examples.store)
                   (copy Examples.store Examples.provider0
                      [(IdStr "widget", Examples.gadget)]) in
  let later := returned derived
                 (update derived.2 derived.1 [(IdStr "extra", Examples.gadget)]) in
  get_dependency later.2 Examples.provider0 (IdStr "widget")
  = get_dependency Examples.store Examples.provider0 (IdStr "widget").
Proof.
  intros derived later.
  apply (copy_then_register_leaves_original Examples.store Examples.provider0
           [(IdStr "widget", Examples.gadget)] derived.1 derived.2
           [(IdStr "extra", Examples.gadget)] later.1 later.2).
  - vm_compute. reflexivity.
  - vm_compute. reflexivity.
Defined.

(** The derived provider shares the [providers] dict of the original:
    after a registration on the copy, [has_dependency] on the original
    answers [True] for a name the original cannot resolve. *)
Lemma has_dependency_sees_derived_registration :
  let derived := returned (Examples.provider0, Examples.store)
                   (copy Examples.store Examples.provider0
                      [(IdStr "extra", Examples.gadget)]) in
  has_dependency Examples.store Examples.provider0 (IdStr "extra") = Ok false /\
  has_dependency derived.2 Examples.provider0 (IdStr "extra") = Ok true /\
  get_dependency derived.2 derived.1 (IdStr "extra") = Ok Examples.gadget /\
  get_dependency derived.2 Examples.provider0 (IdStr "extra")
  = Raise (AttributeError "'DynamicContainer' object has no attribute 'extra'").
Proof. vm_compute. repeat split. Qed.

(** The counter of a derived provider starts again at zero: a type
    registered on the copy takes the key a type registration of the
    original already holds, and displaces it in the copy. *)
Lemma derived_counter_restarts :
  let first := returned (Examples.provider0, Examples.store)
                 (register_dependency Examples.store Examples.provider0
                    (IdType Examples.Widget) Examples.widget) in
  let derived := returned first (copy first.2 first.1 []) in
  let second := returned derived
                  (register_dependency derived.2 derived.1
                     (IdType Examples.Widget) Examples.gadget) in
  get_dependency derived.2 derived.1 (IdStr "<class 'Widget'>-0") = Ok Examples.widget /\
  get_dependency second.2 second.1 (IdStr "<class 'Widget'>-0") = Ok Examples.gadget /\
  get_dependency second.2 first.1 (IdStr "<class 'Widget'>-0") = Ok Examples.widget.
Proof. vm_compute. repeat split. Qed.

(** What the names the container treats apart do.  A provider
    registered under [providers] takes the place of the dict: the
    instance is found under the name, [has_dependency] raises from then
    on, and so does every later registration.  A provider registered
    under [parent] is not recorded in the dict: the instance is found,
    and [has_dependency] denies it.  Before any registration, the
    lookup of [providers] finds the dict and fails to call it. *)
Lemma names_treated_apart :
  let first := returned (Examples.provider0, Examples.store)
                 (register_dependency Examples.store Examples.provider0
                    (IdStr "providers") Examples.gadget) in
  let other := returned (Examples.provider0, Examples.store)
                 (register_dependency Examples.store Examples.provider0
                    (IdStr "parent") Examples.gadget) in
  get_dependency Examples.store Examples.provider0 (IdStr "providers")
  = Raise (TypeError "'dict' object is not callable") /\
  get_dependency first.2 first.1 (IdStr "providers") = Ok Examples.gadget /\
  has_dependency first.2 first.1 (IdStr "widget")
  = Raise (TypeError
      "argument of type 'dependency_injector.providers.Object' is not iterable") /\
  register_dependency first.2 first.1 (IdStr "extra") Examples.widget
  = Raise (TypeError
      "'dependency_injector.providers.Object' object does not support item assignment") /\
  get_dependency other.2 other.1 (IdStr "parent") = Ok Examples.gadget /\
  has_dependency other.2 other.1 (IdStr "parent") = Ok false.
Proof. vm_compute. repeat split. Qed.

End ContainerFacts.

(** ** The transaction hooks *)

Module TransactionFacts.
Import Container Transaction.

#[local] Arguments hasattr : simpl never.
#[local] Arguments transaction_members : simpl never.
#[local] Arguments uuid_v4_of : simpl never.

Lemma bind_assoc {A B C} (m : M A) (f : A -> M B) (g : B -> M C) w :
  bind (bind m f) g w = bind m (fun x => bind (f x) g) w.
Proof. unfold bind. by destruct (m w) as [[e|a] w']. Qed.

Lemma methods_called_app target tr1 tr2 :
  methods_called target (tr1 ++ tr2)
  = methods_called target tr1 ++ methods_called target tr2.
Proof. apply omap_app. Qed.

(** *** Leaving the scope *)

Lemma call_method_run w cls s method :
  hasattr (VObj cls s) method = true ->
  call_method (VObj cls s) method w
  = (match failing w s method with
     | Some e => Raise e
     | None => Ok tt
     end,
     after w [MethodCall s method] (buffers w)).
Proof.
  intros H. unfold call_method, bound_method, bind, ret, record, after. rewrite H.
  cbn. by destruct (failing w s method).
Qed.

Lemma after_after w calls1 calls2 bufs1 bufs2 :
  after (after w calls1 bufs1) calls2 bufs2 = after w (calls1 ++ calls2) bufs2.
Proof. unfold after. cbn. by rewrite <- app_assoc. Qed.

Lemma log_run w level message :
  log level message w
  = (Ok tt, after w [LogRecord level (logger_correlation_id w) message] (buffers w)).
Proof. done. Qed.

Lemma bind_run {A B} (m : M A) (k : A -> M B) w :
  bind m k w
  = match m w with
    | (inr a, w') => k a w'
    | (inl e, w') => (inl e, w')
    end.
Proof. done. Qed.

Lemma bind_ok {A B} (m : M A) (k : A -> M B) w a w' :
  m w = (Ok a, w') -> bind m k w = k a w'.
Proof. intros H. unfold bind. by rewrite H. Qed.

Lemma bind_raise {A B} (m : M A) (k : A -> M B) w e w' :
  m w = (Raise e, w') -> bind m k w = (Raise e, w').
Proof. intros H. unfold bind. by rewrite H. Qed.

(** What [on_exit_transaction_context] does when [db_session] resolves
    to a session, according to which of its calls on the session
    raises, if any. *)
Lemma on_exit_run w ctx cls s exception :
  get_dependency (heap w) (dependency_provider ctx) (IdStr "db_session")
  = Ok (VObj cls s) ->
  hasattr (VObj cls s) "rollback" = true ->
  hasattr (VObj cls s) "commit" = true ->
  hasattr (VObj cls s) "close" = true ->
  on_exit_transaction_context ctx exception w
  = match failing w s (first_call exception) with
    | Some e => (Raise e, after w [MethodCall s (first_call exception)] (buffers w))
    | None =>
        match failing w s "close" with
        | Some e =>
            (Raise e, after w (take 3 (exit_calls w s exception)) (buffers w))
        | None =>
            (Ok tt,
             mkWorld (heap w) (trace w ++ exit_calls w s exception)
               no_transaction (buffers w) (entropy w) (drawn w) (next_id w)
               (failing w))
        end
    end.
Proof.
  intros Hs Hr Hc Hcl.
  unfold on_exit_transaction_context. rewrite bind_run. unfold ctx_getitem at 1.
  rewrite Hs. cbn [Ok].
  assert (Hbranch : forall method level message,
            hasattr (VObj cls s) method = true ->
            bind (call_method (VObj cls s) method) (fun _ => log level message) w
            = match failing w s method with
              | Some e => (Raise e, after w [MethodCall s method] (buffers w))
              | None =>
                  (Ok tt,
                   after w [MethodCall s method;
                            LogRecord level (logger_correlation_id w) message]
                     (buffers w))
              end).
  { intros method level message H. rewrite bind_run, call_method_run by done.
    destruct (failing w s method); [done|].
    by rewrite log_run, after_after. }
  assert (Hend : forall calls,
            bind (call_method (VObj cls s) "close")
              (fun _ => bind (log "debug" [Text "transaction ended"])
                 (fun _ => set_correlation_id no_transaction))
              (after w calls (buffers w))
            = match failing w s "close" with
              | Some e =>
                  (Raise e, after w (calls ++ [MethodCall s "close"]) (buffers w))
              | None =>
                  (Ok tt,
                   mkWorld (heap w)
                     (trace w ++ calls ++
                      [MethodCall s "close";
                       LogRecord "debug" (logger_correlation_id w)
                         [Text "transaction ended"]])
                     no_transaction (buffers w) (entropy w) (drawn w) (next_id w)
                     (failing w))
              end).
  { intros calls. rewrite bind_run, call_method_run by done. cbn [failing after].
    destruct (failing w s "close").
    - by rewrite after_after.
    - rewrite after_after, bind_run, log_run, after_after.
      unfold set_correlation_id, after. cbn. by rewrite <- !app_assoc. }
  rewrite bind_run.
  unfold first_call, rolls_back, exit_calls.
  destruct exception as [e|]; [destruct (exn_bool e)|].
  - rewrite Hbranch by done. destruct (failing w s "rollback"); [done|].
    rewrite Hend. by destruct (failing w s "close").
  - rewrite Hbranch by done. destruct (failing w s "commit"); [done|].
    rewrite Hend. by destruct (failing w s "close").
  - rewrite Hbranch by done. destruct (failing w s "commit"); [done|].
    rewrite Hend. by destruct (failing w s "close").
Qed.

(** C1 (amended): in a scope whose [db_session] is a session whose
    calls return, the exit hook returns without raising whether or not
    an exception is handed to it; handed none (the handler completed),
    it calls [commit] once, [rollback] never and [close] once; handed an
    exception that is true, as exceptions are unless their class says
    otherwise (the handler raised), it calls [rollback] once, [commit]
    never and [close] once; [close] comes last. *)
Theorem on_exit_commits_or_rolls_back w ctx cls s exception :
  get_dependency (heap w) (dependency_provider ctx) (IdStr "db_session")
  = Ok (VObj cls s) ->
  hasattr (VObj cls s) "rollback" = true ->
  hasattr (VObj cls s) "commit" = true ->
  hasattr (VObj cls s) "close" = true ->
  (forall method, failing w s method = None) ->
  (forall e, exception = Some e -> exn_bool e = true) ->
  exists w' calls,
    on_exit_transaction_context ctx exception w = (Ok tt, w') /\
    trace w' = trace w ++ calls /\
    methods_called s calls
    = [match exception with Some _ => "rollback" | None => "commit" end; "close"] /\
    times_called s "commit" calls
    = match exception with Some _ => 0%nat | None => 1%nat end /\
    times_called s "rollback" calls
    = match exception with Some _ => 1%nat | None => 0%nat end /\
    times_called s "close" calls = 1%nat.
Proof.
  intros Hs Hr Hc Hcl Hreturn Htrue.
  eexists _, _.
  split.
  { rewrite (on_exit_run w ctx cls s exception) by done.
    by rewrite !Hreturn. }
  split; [reflexivity|].
  unfold times_called, methods_called, exit_calls.
  destruct exception as [e|]; [rewrite (Htrue e eq_refl)|];
    simpl; rewrite !decide_True by done; repeat split.
Qed.

(** C1 (counterexample): the handler has completed and the hook is
    handed no exception, but the [commit] of the session raises: the
    exception leaves the hook, which has called [commit] once and
    [close] never; the session is not closed and the logger keeps the
    correlation id of the scope. *)
Lemma commit_raises_and_session_stays_open :
  let r := on_exit_transaction_context Examples.scope0 None
             Examples.world1_commit_fails in
  r.1 = Raise Examples.connection_lost /\
  times_called 1 "commit" (trace r.2) = 1%nat /\
  times_called 1 "close" (trace r.2) = 0%nat /\
  logger_correlation_id r.2 = logger_correlation_id Examples.world1 /\
  logger_correlation_id r.2 <> no_transaction.
Proof. vm_compute. repeat split. discriminate. Qed.

(** The exit hook leaves the logger with the id of no transaction when
    the calls on the session return. *)
Lemma on_exit_resets_correlation_id w ctx cls s exception :
  get_dependency (heap w) (dependency_provider ctx) (IdStr "db_session")
  = Ok (VObj cls s) ->
  hasattr (VObj cls s) "rollback" = true ->
  hasattr (VObj cls s) "commit" = true ->
  hasattr (VObj cls s) "close" = true ->
  (forall method, failing w s method = None) ->
  logger_correlation_id (on_exit_transaction_context ctx exception w).2
  = no_transaction.
Proof.
  intros Hs Hr Hc Hcl Hreturn.
  rewrite (on_exit_run w ctx cls s exception) by done. by rewrite !Hreturn.
Qed.

(** *** Creating the scope *)

Lemma transaction_members_lookup a b c d e f g :
  transaction_members a b c d e f g !! "db_session"
  = Some (Dependency Session (Some a)) /\
  transaction_members a b c d e f g !! "correlation_id"
  = Some (Dependency UUID (Some b)).
Proof. split; reflexivity. Qed.

(** A [uuid4] is never the id of no transaction: its version bits are
    set. *)
Lemma uuid_v4_of_not_zero n : uuid_v4_of n <> no_transaction.
Proof.
  unfold uuid_v4_of, no_transaction. intros E.
  apply (f_equal (fun x => N.testbit x 78)) in E.
  rewrite N.lor_spec in E. rewrite orb_true_r in E. done.
Qed.

(** What [on_create_transaction_context] builds: the scope's session is
    a new object, the correlation id it registers is the [uuid4] of one
    draw, and the id it gives the logger is the [uuid4] of the next
    draw. *)
Lemma on_create_run w engine logger :
  exists ctx w',
    on_create_transaction_context engine logger w = (Ok ctx, w') /\
    trace w' = trace w /\
    get_dependency (heap w') (dependency_provider ctx) (IdStr "db_session")
    = Ok (VObj Session (next_id w)) /\
    get_dependency (heap w') (dependency_provider ctx) (IdStr "correlation_id")
    = Ok (VUUID (uuid_v4_of (entropy w (drawn w) mod 2 ^ 128)%N)) /\
    logger_correlation_id w'
    = uuid_v4_of (entropy w (S (drawn w)) mod 2 ^ 128)%N.
Proof.
  eexists _, _. split.
  { unfold on_create_transaction_context, TransactionContainer, uuid4, urandom16,
      new_object, set_correlation_id, get_heap, put_heap, bind, ret.
    cbn [heap trace logger_correlation_id buffers entropy drawn next_id failing Ok].
    reflexivity. }
  split; [done|].
  cbn [heap dependency_provider container Container.__init__ logger_correlation_id].
  erewrite !ContainerFacts.get_dependency_str by apply lookup_insert_eq.
  destruct (transaction_members_lookup
    (VObj Session (next_id w))
    (VUUID (uuid_v4_of (entropy w (drawn w) mod 2 ^ 128)%N)) logger
    (VObj StrategyPostgresJsonManagementRepository (Pos.succ (next_id w)))
    (VObj InMemoryOutbox (Pos.succ (Pos.succ (next_id w))))
    (VObj PartnerPostgresJsonManagementRepository
       (Pos.succ (Pos.succ (Pos.succ (next_id w)))))
    (VObj OperationPostgresJsonManagementRepository
       (Pos.succ (Pos.succ (Pos.succ (Pos.succ (next_id w))))))) as [-> ->].
  done.
Qed.

(** The registered id and the logger's id are equal only when the two
    draws agree on every bit [uuid4] keeps. *)
Lemma on_create_ids_differ w engine logger :
  uuid_v4_of (entropy w (drawn w) mod 2 ^ 128)%N
  <> uuid_v4_of (entropy w (S (drawn w)) mod 2 ^ 128)%N ->
  exists ctx w',
    on_create_transaction_context engine logger w = (Ok ctx, w') /\
    get_dependency (heap w') (dependency_provider ctx) (IdStr "correlation_id")
    <> Ok (VUUID (logger_correlation_id w')).
Proof.
  intros Hne. destruct (on_create_run w engine logger)
    as (ctx & w' & Hrun & _ & _ & Hid & Hlog).
  exists ctx, w'. split; [done|]. rewrite Hid, Hlog. unfold Ok. congruence.
Qed.

(** C9 (the code at the failing input): in a world where successive
    draws of [os.urandom(16)] differ, the scope that
    [on_create_transaction_context] builds registers one id as its
    [correlation_id] dependency and gives the logger another; the
    record [on_enter_transaction_context] logs carries the logger's id,
    not the registered one.  At exit the logger is back at the id of no
    transaction. *)
Theorem correlation_id_is_not_the_logger_id :
  Examples.entered.1 = Ok Examples.scope0 /\
  get_dependency (heap Examples.world1) (dependency_provider Examples.scope0)
    (IdStr "correlation_id")
  = Ok (VUUID (uuid_v4_of 1)) /\
  logger_correlation_id Examples.world1 = uuid_v4_of 2 /\
  uuid_v4_of 1 <> uuid_v4_of 2 /\
  logged_ids (trace Examples.world1) = [uuid_v4_of 2] /\
  logger_correlation_id
    (on_exit_transaction_context Examples.scope0 None Examples.world1).2
  = no_transaction.
Proof. vm_compute. repeat split. discriminate. Qed.

(** The heap [on_create_transaction_context] leaves: the scope's
    container and the dict its [providers] attribute refers to. *)
Lemma on_create_well_formed w engine logger :
  exists ctx w' members pl,
    on_create_transaction_context engine logger w = (Ok ctx, w') /\
    heap w' !! container (dependency_provider ctx) = Some (OContainer members pl) /\
    heap w' !! pl = Some (ODict members) /\
    members !! "db_session" = Some (Dependency Session (Some (VObj Session (next_id w)))) /\
    members !! "publish" = None /\
    members !! "providers" = None /\
    counter (dependency_provider ctx) = 0 /\
    trace w' = trace w /\
    failing w' = failing w.
Proof.
  eexists _, _, _, (fresh (dom (heap w))). split.
  { unfold on_create_transaction_context, TransactionContainer, uuid4, urandom16,
      new_object, set_correlation_id, get_heap, put_heap, bind, ret.
    cbn [heap trace logger_correlation_id buffers entropy drawn next_id failing Ok].
    reflexivity. }
  cbn [heap dependency_provider container counter Container.__init__ trace failing].
  split; [apply lookup_insert_eq|]. split.
  { rewrite lookup_insert_ne; [apply lookup_insert_eq|].
    intros E. eapply (is_fresh (dom (<[fresh (dom (heap w)) := _]> (heap w)))).
    rewrite E. apply elem_of_dom. rewrite lookup_insert_eq. eauto. }
  repeat split.
Qed.

(** What [on_enter_transaction_context] does in a scope whose container
    has no attribute of its own named [publish]. *)
Lemma on_enter_run w ctx attrs pl d :
  heap w !! container (dependency_provider ctx) = Some (OContainer attrs pl) ->
  heap w !! pl = Some (ODict d) ->
  attrs !! "providers" = None ->
  free_name attrs "publish" = true ->
  on_enter_transaction_context ctx w
  = (Ok (mkContext (mkProvider (container (dependency_provider ctx))
                      (counter (dependency_provider ctx)))),
     mkWorld
       (<[container (dependency_provider ctx) :=
            OContainer (<["publish" := Object (VMethod "publish")]> attrs) pl]>
          (<[pl := ODict (<["publish" := Object (VMethod "publish")]> d)]> (heap w)))
       (trace w ++ [LogRecord "debug" (logger_correlation_id w)
                      [Text "Entering transaction"]])
       (logger_correlation_id w) (buffers w) (entropy w) (drawn w) (next_id w)
       (failing w)).
Proof.
  intros Hc Hpl Hprov Hfree.
  unfold on_enter_transaction_context, set_dependencies, get_heap, lift, put_heap,
    log, record, ret, bind.
  cbn [update rbind Ok].
  rewrite (ContainerFacts.register_dependency_ok _ _ _ _ _ (IdStr "publish")
             (VMethod "publish") Hc Hpl Hprov Hfree).
  reflexivity.
Qed.

(** X1: the hooks of one unit of work, one after the other, around a
    handler that leaves the world as it finds it, when the calls on the
    session they create return and the exception, if there is one, is
    true: they return, the calls they make on the session are [commit]
    (no exception) or [rollback] (an exception), then [close], and the
    logger ends with the id of no transaction. *)
Lemma unit_of_work_session_calls w engine logger exception :
  (forall method, failing w (next_id w) method = None) ->
  (forall e, exception = Some e -> exn_bool e = true) ->
  exists w' calls,
    bind (on_create_transaction_context engine logger)
      (fun ctx => bind (on_enter_transaction_context ctx)
         (fun ctx => on_exit_transaction_context ctx exception)) w
    = (Ok tt, w') /\
    trace w' = trace w ++ calls /\
    methods_called (next_id w) calls
    = [match exception with Some _ => "rollback" | None => "commit" end; "close"] /\
    logger_correlation_id w' = no_transaction.
Proof.
  intros Hreturn Htrue.
  destruct (on_create_well_formed w engine logger)
    as (ctx & w1 & members & pl & Hcreate & Hc & Hpl & Hsess & Hpub & Hprov & Hn
        & Htr & Hfail).
  rewrite (bind_ok _ _ _ _ _ Hcreate).
  erewrite bind_ok.
  2:{ apply (on_enter_run w1 ctx members pl members Hc Hpl Hprov).
      apply ContainerFacts.free_name_spec.
      split; [discriminate|]. split; [discriminate|].
      intros p. by rewrite Hpub. }
  set (w2 := mkWorld _ _ _ _ _ _ _ _).
  assert (Hs : get_dependency (heap w2)
                 (mkProvider (container (dependency_provider ctx))
                    (counter (dependency_provider ctx))) (IdStr "db_session")
               = Ok (VObj Session (next_id w))).
  { erewrite ContainerFacts.get_dependency_str; [|simpl; apply lookup_insert_eq].
    rewrite lookup_insert_ne by done. by rewrite Hsess. }
  rewrite (on_exit_run w2
             (mkContext (mkProvider (container (dependency_provider ctx))
                           (counter (dependency_provider ctx))))
             Session (next_id w) exception Hs eq_refl eq_refl eq_refl).
  assert (Hret2 : forall method, failing w2 (next_id w) method = None).
  { intros method. unfold w2. cbn [failing]. rewrite Hfail. apply Hreturn. }
  rewrite !Hret2.
  eexists _, _. split; [reflexivity|]. cbn [trace logger_correlation_id].
  unfold w2 at 1. cbn [trace]. rewrite Htr, <- app_assoc.
  split; [reflexivity|]. split; [|done].
  unfold methods_called, exit_calls.
  destruct exception as [e|]; [rewrite (Htrue e eq_refl)|]; simpl;
    by rewrite !decide_True.
Qed.

Lemma unit_of_work_session_calls_witness :
  exists w' calls,
    bind (on_create_transaction_context Examples.engine Examples.logger)
      (fun ctx => bind (on_enter_transaction_context ctx)
         (fun ctx => on_exit_transaction_context ctx None)) Examples.world0
    = (Ok tt, w') /\
    trace w' = trace Examples.world0 ++ calls /\
    methods_called 1 calls = ["commit"; "close"] /\
    logger_correlation_id w' = no_transaction.
Proof.
  apply (unit_of_work_session_calls Examples.world0 Examples.engine Examples.logger
           None); [done|discriminate].
Defined.

Lemma on_exit_witness :
  exists w' calls,
    on_exit_transaction_context Examples.scope0
      (Some (Raised "PartnerException" "without permissions")) Examples.world1
    = (Ok tt, w') /\
    trace w' = trace Examples.world1 ++ calls /\
    methods_called 1 calls = ["rollback"; "close"] /\
    times_called 1 "commit" calls = 0%nat /\
    times_called 1 "rollback" calls = 1%nat /\
    times_called 1 "close" calls = 1%nat.
Proof.
  apply (on_exit_commits_or_rolls_back Examples.world1 Examples.scope0
           Session 1 (Some (Raised "PartnerException" "without permissions")));
    try (vm_compute; reflexivity).
  by intros e [= <-].
Defined.

(** *** Collecting and publishing events *)

Lemma collected_from_app tr1 tr2 :
  collected_from (tr1 ++ tr2) = collected_from tr1 ++ collected_from tr2.
Proof. apply omap_app. Qed.

Lemma published_app tr1 tr2 : published (tr1 ++ tr2) = published tr1 ++ published tr2.
Proof. apply omap_app. Qed.

Lemma collected_from_collect_calls ids : collected_from (collect_calls ids) = ids.
Proof. induction ids as [|id ids IH]; simpl; [done|]. by f_equal. Qed.

Lemma published_collect_calls ids : published (collect_calls ids) = [].
Proof. by induction ids. Qed.

Lemma collected_from_publish_calls cid events :
  collected_from (publish_calls cid events) = [].
Proof. by induction events. Qed.

Lemma published_publish_calls cid events :
  published (publish_calls cid events) = events.
Proof. induction events as [|e events IH]; simpl; [done|]. by f_equal. Qed.

(** The values that expose [collect_events] are objects. *)
Lemma object_ids_repositories (vs : list pyval) :
  Forall (fun x => hasattr x "collect_events" = true) vs ->
  length (object_ids vs) = length vs.
Proof.
  induction 1 as [|v vs Hv _ IH]; simpl; [done|].
  destruct v; try discriminate Hv. simpl. by f_equal.
Qed.

Lemma collect_all_run repositories : forall w,
  Forall (fun x => hasattr x "collect_events" = true) repositories ->
  collect_all repositories w
  = (Ok (drain (buffers w) (object_ids repositories)).1,
     after w (collect_calls (object_ids repositories))
       (drain (buffers w) (object_ids repositories)).2).
Proof.
  induction repositories as [|repo rest IH]; intros w Hall.
  - simpl. unfold ret, after. simpl. rewrite app_nil_r. by destruct w.
  - apply Forall_cons in Hall as [Hrepo Hrest].
    destruct repo as [| | | |c id]; try discriminate Hrepo.
    simpl. unfold bind at 1. unfold collect_events, bind at 1, bound_method.
    rewrite Hrepo. unfold ret, bind at 1, record. simpl.
    unfold bind at 1. rewrite IH by done. simpl.
    unfold ret, after, pending. simpl. by rewrite <- app_assoc.
Qed.

Lemma publish_all_run events : forall w,
  publish_all events w
  = (Ok tt, after w (publish_calls (logger_correlation_id w) events) (buffers w)).
Proof.
  induction events as [|e events IH]; intros w.
  - simpl. unfold ret, after. simpl. rewrite app_nil_r. by destruct w.
  - simpl. unfold bind at 1, log, record. simpl.
    unfold bind at 1, publish_async, record. simpl.
    rewrite IH. unfold after. simpl. by rewrite <- !app_assoc.
Qed.

(** *** What draining returns *)

Lemma first_occurrences_not_seen ids : forall seen x,
  x ∈ first_occurrences seen ids -> x ∉ seen.
Proof.
  induction ids as [|id ids IH]; intros seen x; simpl.
  - by intros ?%elem_of_nil.
  - destruct (decide (id ∈ seen)) as [Hin|Hout]; [by apply IH|].
    intros [->|Hx]%elem_of_cons; [done|].
    apply IH in Hx. by apply not_elem_of_cons in Hx as [_ ?].
Qed.

Lemma NoDup_first_occurrences ids : forall seen,
  NoDup (first_occurrences seen ids).
Proof.
  induction ids as [|id ids IH]; intros seen; simpl; [constructor|].
  destruct (decide (id ∈ seen)); [apply IH|].
  constructor; [|apply IH].
  intros Hx%first_occurrences_not_seen. apply Hx. left.
Qed.

Lemma first_occurrences_NoDup ids : forall seen,
  NoDup ids -> (forall x, x ∈ ids -> x ∉ seen) ->
  first_occurrences seen ids = ids.
Proof.
  induction ids as [|id ids IH]; intros seen Hnd Hseen; simpl; [done|].
  apply NoDup_cons in Hnd as [Hid Hnd].
  rewrite decide_False by (apply Hseen; left).
  f_equal. apply IH; [done|].
  intros x Hx [->|Hs]%elem_of_cons; [done|].
  by apply (Hseen x); [right|].
Qed.

Lemma pending_insert_ne bufs id x :
  x <> id -> pending (<[id := []]> bufs) x = pending bufs x.
Proof. intros Hne. unfold pending. by rewrite lookup_insert_ne. Qed.

Lemma pending_insert_eq bufs id : pending (<[id := []]> bufs) id = [].
Proof. unfold pending. by rewrite lookup_insert_eq. Qed.

(** Querying repositories in order returns the pending events of each
    distinct repository, in the order of their first occurrence: a
    repository queried again has nothing left. *)
Lemma drain_first_occurrences ids : forall bufs0 bufs seen,
  (forall x, pending bufs x = if decide (x ∈ seen) then [] else pending bufs0 x) ->
  (drain bufs ids).1 = first_occurrences seen ids ≫= pending bufs0.
Proof.
  induction ids as [|id ids IH]; intros bufs0 bufs seen Hb; simpl; [done|].
  rewrite Hb. destruct (decide (id ∈ seen)) as [Hin|Hout]; simpl.
  - apply IH. intros x. destruct (decide (x = id)) as [->|Hne].
    + by rewrite pending_insert_eq, decide_True.
    + by rewrite pending_insert_ne.
  - f_equal. apply IH. intros x. destruct (decide (x = id)) as [->|Hne].
    + rewrite pending_insert_eq, decide_True; [done|left].
    + rewrite pending_insert_ne, Hb by done.
      destruct (decide (x ∈ seen)) as [Hx|Hx].
      * rewrite decide_True; [done|by right].
      * rewrite decide_False; [done|]. by apply not_elem_of_cons.
Qed.

Lemma drain_keeps_empty ids : forall (bufs : gmap loc (list pyval)) id,
  bufs !! id = Some [] -> (drain bufs ids).2 !! id = Some [].
Proof.
  induction ids as [|x ids IH]; intros bufs id Hb; simpl; [done|].
  apply IH. destruct (decide (x = id)) as [->|Hne].
  - apply lookup_insert_eq.
  - by rewrite lookup_insert_ne.
Qed.

(** Every repository queried is left with an empty buffer. *)
Lemma drain_leaves_empty ids : forall (bufs : gmap loc (list pyval)) id,
  id ∈ ids -> (drain bufs ids).2 !! id = Some [].
Proof.
  induction ids as [|x ids IH]; intros bufs id; simpl.
  - by intros ?%elem_of_nil.
  - intros [->|Hin]%elem_of_cons; [|by apply IH].
    apply drain_keeps_empty, lookup_insert_eq.
Qed.

(** *** The event collector middleware *)

Lemma repositories_of_collectable call_next :
  Forall (fun x => hasattr x "collect_events" = true) (repositories_of call_next).
Proof.
  apply Forall_forall. intros x Hx. unfold repositories_of in Hx.
  by apply list_elem_of_filter in Hx as [Hx _].
Qed.

(** The middleware is the handler's outcome followed by the collection
    and the publication. *)
Lemma event_collector_middleware_unfold ctx call_next w :
  event_collector_middleware ctx call_next w
  = bind (handler_outcome call_next)
      (fun result =>
         do message <- ctx_getitem ctx "message";
         run log "debug" [Text "Collecting event from "; ClassOf message];
         do domain_events <- collect_all (repositories_of call_next);
         run publish_all domain_events;
         ret result)%M w.
Proof.
  unfold event_collector_middleware, handler_outcome. by rewrite bind_assoc.
Qed.

(** What the middleware does after a handler that returned [v] and left
    the world [w1]. *)
Lemma event_collector_middleware_run ctx call_next w v w1 message :
  handler_outcome call_next w = (Ok v, w1) ->
  get_dependency (heap w1) (dependency_provider ctx) (IdStr "message") = Ok message ->
  let ids := object_ids (repositories_of call_next) in
  event_collector_middleware ctx call_next w
  = (Ok v,
     after w1
       ([LogRecord "debug" (logger_correlation_id w1)
           [Text "Collecting event from "; ClassOf message]]
        ++ collect_calls ids
        ++ publish_calls (logger_correlation_id w1) (drain (buffers w1) ids).1)
       (drain (buffers w1) ids).2).
Proof.
  intros Hh Hm ids. rewrite event_collector_middleware_unfold.
  unfold bind at 1. rewrite Hh.
  unfold bind at 1, ctx_getitem. rewrite Hm.
  unfold bind at 1, log, record. simpl.
  unfold bind at 1.
  rewrite collect_all_run by apply repositories_of_collectable. simpl.
  unfold bind at 1. rewrite publish_all_run. simpl.
  unfold ret, after. simpl. fold ids. by rewrite <- !app_assoc.
Qed.

(** C2 (counterexample): a handler that returned and was given one
    repository under two keyword arguments: [collect_events] is called
    on that repository twice.  The two pending events are still
    published once each, in order. *)
Lemma repository_passed_twice_is_queried_twice :
  let r := event_collector_middleware Examples.scope2 Examples.handler_twice
             Examples.world2 in
  r.1 = Ok VNone /\
  times_called 30 "collect_events" (trace r.2) = 2%nat /\
  published (trace r.2) = [Examples.event1; Examples.event2].
Proof. vm_compute. repeat split. Qed.

(** With no repository passed twice, the events published are the
    pending events of the repositories in the order of the arguments. *)
Lemma event_collector_distinct_repositories ctx call_next w v w1 message :
  handler_outcome call_next w = (Ok v, w1) ->
  get_dependency (heap w1) (dependency_provider ctx) (IdStr "message") = Ok message ->
  NoDup (object_ids (repositories_of call_next)) ->
  published (trace (event_collector_middleware ctx call_next w).2)
  = published (trace w1)
    ++ (object_ids (repositories_of call_next) ≫= pending (buffers w1)).
Proof.
  intros Hh Hm Hnd.
  rewrite (event_collector_middleware_run ctx call_next w v w1 message Hh Hm).
  unfold after. cbn [snd trace].
  rewrite !published_app, published_collect_calls, published_publish_calls.
  cbn [published omap app]. f_equal.
  rewrite (drain_first_occurrences _ (buffers w1) (buffers w1) []).
  - rewrite first_occurrences_NoDup; [done|done|].
    intros x _. apply not_elem_of_nil.
  - intros x. rewrite decide_False; [done|apply not_elem_of_nil].
Qed.

(** C2 (amended): when the handler returns (awaited when it is a
    coroutine) in a scope whose [message] is bound, the middleware
    returns the handler's value after calling [collect_events] once for
    each keyword argument that exposes it, in the order of the
    arguments (a repository passed under several arguments once per
    argument), and handing the collected events one by one to
    [publish_async]: the pending events of each distinct repository, in
    the order in which the repositories first occur, each event once;
    the repositories queried are left empty.  When the handler raises,
    the middleware raises the same exception and does nothing more. *)
Theorem event_collector_collects_then_publishes ctx call_next w :
  (forall v w1 message,
     handler_outcome call_next w = (Ok v, w1) ->
     get_dependency (heap w1) (dependency_provider ctx) (IdStr "message")
     = Ok message ->
     exists w2 calls,
       event_collector_middleware ctx call_next w = (Ok v, w2) /\
       trace w2 = trace w1 ++ calls /\
       collected_from calls = object_ids (repositories_of call_next) /\
       length (collected_from calls) = length (repositories_of call_next) /\
       published calls
       = first_occurrences [] (object_ids (repositories_of call_next))
           ≫= pending (buffers w1) /\
       (forall id, id ∈ object_ids (repositories_of call_next) ->
          buffers w2 !! id = Some [])) /\
  (forall e w1,
     handler_outcome call_next w = (Raise e, w1) ->
     event_collector_middleware ctx call_next w = (Raise e, w1)).
Proof.
  split.
  - intros v w1 message Hh Hm.
    eexists _, _. split; [by apply event_collector_middleware_run|].
    split; [reflexivity|].
    assert (Hcol : collected_from
              ([LogRecord "debug" (logger_correlation_id w1)
                  [Text "Collecting event from "; ClassOf message]]
               ++ collect_calls (object_ids (repositories_of call_next))
               ++ publish_calls (logger_correlation_id w1)
                    (drain (buffers w1) (object_ids (repositories_of call_next))).1)
            = object_ids (repositories_of call_next)).
    { rewrite !collected_from_app, collected_from_collect_calls,
        collected_from_publish_calls. simpl. by rewrite app_nil_r. }
    split; [exact Hcol|]. split.
    { rewrite Hcol. apply object_ids_repositories, repositories_of_collectable. }
    split.
    { rewrite !published_app, published_collect_calls, published_publish_calls.
      simpl. apply drain_first_occurrences. intros x.
      rewrite decide_False; [done|apply not_elem_of_nil]. }
    intros id Hid. simpl. by apply drain_leaves_empty.
  - intros e w1 Hh. rewrite event_collector_middleware_unfold.
    unfold bind. by rewrite Hh.
Qed.

Lemma event_collector_witness :
  exists w2 calls,
    event_collector_middleware Examples.scope2 Examples.handler_once Examples.world2
    = (Ok VNone, w2) /\
    trace w2 = trace Examples.world2 ++ calls /\
    collected_from calls = object_ids (repositories_of Examples.handler_once) /\
    length (collected_from calls) = length (repositories_of Examples.handler_once) /\
    published calls
    = first_occurrences [] (object_ids (repositories_of Examples.handler_once))
        ≫= pending (buffers Examples.world2) /\
    (forall id, id ∈ object_ids (repositories_of Examples.handler_once) ->
       buffers w2 !! id = Some []).
Proof.
  apply (proj1 (event_collector_collects_then_publishes Examples.scope2
                  Examples.handler_once Examples.world2)
           VNone Examples.world2 Examples.command).
  - reflexivity.
  - vm_compute. reflexivity.
Defined.

(** In that scope the repository is queried once and its two events are
    published in the order they were raised. *)
Lemma event_collector_example :
  let r := event_collector_middleware Examples.scope2 Examples.handler_once
             Examples.world2 in
  r.1 = Ok VNone /\
  times_called 30 "collect_events" (trace r.2) = 1%nat /\
  published (trace r.2) = [Examples.event1; Examples.event2] /\
  buffers r.2 !! 30%positive = Some [].
Proof. vm_compute. repeat split. Qed.
End TransactionFacts.

(** ** What [Period.from_str_format] reads *)

Module PeriodFormatFacts.
Import PyStr PyStrFacts Period PeriodFacts.

Lemma split_nonempty sep s : split sep s <> [].
Proof.
  destruct s as [|c r]; simpl; [done|].
  destruct (Ascii.eqb c sep); [done|]. by destruct (split sep r).
Qed.

(** One piece: the string holds no separator. *)
Lemma split_single_inv sep s : forall a,
  split sep s = [a] -> s = a /\ all_chars (not_char sep) s = true.
Proof.
  induction s as [|c r IH]; intros a; simpl.
  - by intros [= <-].
  - unfold not_char at 1. destruct (Ascii.eqb c sep) eqn:Hc.
    + intros [= _ H]. by apply split_nonempty in H.
    + destruct (split sep r) as [|piece rest] eqn:Hr.
      { by apply split_nonempty in Hr. }
      intros [= <- ->]. destruct (IH piece eq_refl) as [-> Hall].
      by rewrite Hall.
Qed.

(** Two pieces: the string is the two pieces around one separator. *)
Lemma split_pair_inv sep s : forall a b,
  split sep s = [a; b] ->
  s = a +:+ String sep b /\
  all_chars (not_char sep) a = true /\ all_chars (not_char sep) b = true.
Proof.
  induction s as [|c r IH]; intros a b; simpl; [done|].
  destruct (Ascii.eqb c sep) eqn:Hc.
  - intros [= <- H]. apply Ascii.eqb_eq in Hc as ->.
    apply split_single_inv in H as [-> Hall]. done.
  - destruct (split sep r) as [|piece rest] eqn:Hr.
    { by apply split_nonempty in Hr. }
    intros [= <- ->]. destruct (IH piece b eq_refl) as (-> & Ha & Hb).
    simpl. unfold not_char at 1. by rewrite Hc, Ha, Hb.
Qed.

(** A separator in front of a string adds a piece. *)
Lemma split_two_or_more sep c : forall s,
  exists y z l, split sep (s +:+ String sep c) = y :: z :: l.
Proof.
  induction s as [|x s IH]; simpl.
  - rewrite Ascii.eqb_refl.
    destruct (split sep c) as [|z l] eqn:Hc; [by apply split_nonempty in Hc|].
    by exists "", z, l.
  - destruct IH as (y & z & l & ->). destruct (Ascii.eqb x sep).
    + by exists "", y, (z :: l).
    + by exists (String x y), z, l.
Qed.

Lemma split_three_or_more sep b c : forall a,
  exists x y z l,
    split sep (a +:+ String sep (b +:+ String sep c)) = x :: y :: z :: l.
Proof.
  induction a as [|x a IH]; simpl.
  - rewrite Ascii.eqb_refl.
    destruct (split_two_or_more sep c b) as (y & z & l & ->).
    by exists "", y, z, l.
  - destruct IH as (x' & y & z & l & ->). destruct (Ascii.eqb x sep).
    + by exists "", x', y, (z :: l).
    + by exists (String x x'), y, z, l.
Qed.

(** X2: what [from_str_format] accepts and what it rejects:
    - a string without a dash, and a string with two dashes or more, is
      a [ValueError] (the unpacking of the pieces fails);
    - whenever a period is returned, the string is a month text and a
      year text around exactly one dash, [int] reads them as the month
      and the year of the period, and the period satisfies the bounds
      of the constructor. *)
Theorem from_str_format_shape :
  (forall s, all_chars (not_char "-") s = true ->
     from_str_format s
     = Raise (ValueError "not enough values to unpack (expected 2, got 1)")) /\
  (forall a b c,
     from_str_format (a +:+ "-" +:+ b +:+ "-" +:+ c)
     = Raise (ValueError "too many values to unpack (expected 2)")) /\
  (forall s p, from_str_format s = Ok p ->
     exists month_str year_str,
       s = month_str +:+ "-" +:+ year_str /\
       all_chars (not_char "-") month_str = true /\
       all_chars (not_char "-") year_str = true /\
       int month_str = Ok (month p) /\ int year_str = Ok (year p) /\
       1 <= month p <= 12 /\ year p <= 2025).
Proof.
  split; [|split].
  - intros s Hs. unfold from_str_format. by rewrite (split_no_sep _ _ Hs).
  - intros a b c. unfold from_str_format.
    change ("-" +:+ b +:+ "-" +:+ c) with (String "-" (b +:+ String "-" c)).
    destruct (split_three_or_more "-" b c a) as (x & y & z & l & ->). done.
  - intros s p. unfold from_str_format.
    destruct (split "-" s) as [|a [|b [|c l]]] eqn:Hs; try done.
    apply split_pair_inv in Hs as (-> & Ha & Hb).
    destruct (int b) as [e|y] eqn:Hy; [done|].
    destruct (int a) as [e|m] eqn:Hm; [done|]. simpl.
    intros (-> & Hmr & Hyr)%Period_new_inv.
    exists a, b. done.
Qed.

Lemma from_str_format_shape_witness :
  from_str_format "2024"
  = Raise (ValueError "not enough values to unpack (expected 2, got 1)").
Proof.
  apply (proj1 from_str_format_shape "2024"). reflexivity.
Defined.

End PeriodFormatFacts.

(** ** Periods between two periods *)

Module PeriodRangeFacts.
Import Period PeriodFacts.

(** X29: [inside_range_period] never misses a period that lies between
    the bounds in the order of the calendar (year first, then month),
    and [a > b] is [b < a]; within one year it is exactly the order of
    the months.  Across years it also accepts periods outside the
    bounds: it answers [True] for June 2020 between January 2021 and
    December 2021. *)
Theorem inside_range_period_accepts_too_much :
  (forall self start end_,
     lex_lt start self = true -> lex_lt self end_ = true ->
     inside_range_period self start end_ = true) /\
  (forall p q, __gt__ p q = __lt__ q p) /\
  (forall self start end_,
     year start = year self -> year self = year end_ ->
     inside_range_period self start end_
     = (month start <? month self) && (month self <? month end_)) /\
  (new 2020 6 = Ok (mkPeriod 2020 6) /\
   new 2021 1 = Ok (mkPeriod 2021 1) /\
   new 2021 12 = Ok (mkPeriod 2021 12) /\
   lex_lt (mkPeriod 2021 1) (mkPeriod 2020 6) = false /\
   inside_range_period (mkPeriod 2020 6) (mkPeriod 2021 1) (mkPeriod 2021 12) = true).
Proof.
  split; [|split; [|split]].
  - intros self start end_ H1 H2. unfold inside_range_period.
    by rewrite (lex_lt_lt _ _ H1), (lex_lt_lt _ _ H2).
  - intros p q. unfold __gt__, __lt__. by rewrite !Z.gtb_ltb.
  - intros self start end_ H1 H2. unfold inside_range_period.
    rewrite (lt_same_year _ _ H1), (lt_same_year _ _ H2). unfold lex_lt.
    by rewrite H1, H2, !Z.ltb_irrefl, !Z.eqb_refl.
  - repeat split.
Qed.

Lemma inside_range_period_witness :
  inside_range_period (mkPeriod 2023 11) (mkPeriod 2022 12) (mkPeriod 2024 1) = true.
Proof.
  apply (proj1 inside_range_period_accepts_too_much); reflexivity.
Defined.

End PeriodRangeFacts.

(** ** Amounts and the order of [Money] *)

Module MoneyOrderFacts.
Import Money MoneyFacts.

(** *** Comparisons of binary64 numbers *)

Lemma SFcompare_antisym x y :
  SFcompare y x = option_map CompOpp (SFcompare x y).
Proof.
  destruct x as [sx|sx| |sx mx ex], y as [sy|sy| |sy my ey];
    try destruct sx; try destruct sy; try reflexivity; simpl;
    rewrite (Z.compare_antisym ex ey);
    destruct (ex ?= ey); simpl; try reflexivity;
    rewrite (Pos.compare_cont_antisym mx my Eq); simpl;
    by destruct (Pos.compare_cont Eq mx my).
Qed.

Lemma SFcompare_refl x : x <> S754_nan -> SFcompare x x = Some Eq.
Proof.
  destruct x as [s|s| |s m e]; try destruct s; try done; intros _; simpl;
    by rewrite Z.compare_refl, Pos.compare_cont_refl.
Qed.

Lemma ltb_asym (a b : float) : (a <? b)%float = true -> (b <? a)%float = false.
Proof.
  rewrite !FloatAxioms.ltb_spec. unfold SFltb.
  rewrite (SFcompare_antisym (Prim2SF a) (Prim2SF b)).
  by destruct (SFcompare (Prim2SF a) (Prim2SF b)) as [[]|].
Qed.

Lemma ltb_irrefl (a : float) : (a <? a)%float = false.
Proof.
  destruct (a <? a)%float eqn:E; [|done].
  by rewrite (ltb_asym _ _ E) in E.
Qed.

Lemma eqb_not_ltb (a b : float) :
  (a =? b)%float = true -> (a <? b)%float = false /\ (b <? a)%float = false.
Proof.
  rewrite FloatAxioms.eqb_spec, !FloatAxioms.ltb_spec. unfold SFeqb, SFltb.
  rewrite (SFcompare_antisym (Prim2SF a) (Prim2SF b)).
  by destruct (SFcompare (Prim2SF a) (Prim2SF b)) as [[]|].
Qed.

Lemma ltb_not_eqb (a b : float) :
  (a <? b)%float = true -> (a =? b)%float = false.
Proof.
  rewrite FloatAxioms.eqb_spec, !FloatAxioms.ltb_spec. unfold SFeqb, SFltb.
  by destruct (SFcompare (Prim2SF a) (Prim2SF b)) as [[]|].
Qed.

(** A float at or above zero is a number, equal to itself. *)
Lemma leb_zero_eqb_refl (a : float) :
  (0 <=? a)%float = true -> (a =? a)%float = true.
Proof.
  rewrite FloatAxioms.leb_spec, FloatAxioms.eqb_spec. unfold SFeqb.
  change (Prim2SF 0) with (S754_zero false).
  destruct (Prim2SF a) as [s|s| |s m e] eqn:E; try done;
    intros _; by rewrite SFcompare_refl.
Qed.

(** *** Sums of floats at or above zero *)

(** The floats at or above zero: the zeros, and the positive finite
    and infinite ones. *)
Lemma leb_zero_cases (x : spec_float) :
  SFleb (S754_zero false) x = true <->
  (exists s, x = S754_zero s) \/ x = S754_infinity false \/
  exists m e, x = S754_finite false m e.
Proof.
  destruct x as [s|s| |s m e]; try destruct s; cbv; split;
    try (intros [(? & ?)|[?|(? & ? & ?)]]); try done; eauto.
Qed.

Lemma shr_1_nonneg mrs : 0 <= shr_m mrs -> 0 <= shr_m (shr_1 mrs).
Proof.
  destruct mrs as [m r s]. simpl.
  destruct m as [|p|p]; [done| |lia]. intros _. by destruct p.
Qed.

Lemma iter_pos_shr_1_nonneg p : forall mrs,
  0 <= shr_m mrs -> 0 <= shr_m (SpecFloat.iter_pos shr_1 p mrs).
Proof.
  induction p as [p IH|p IH|]; intros mrs H; simpl.
  - by apply IH, IH, shr_1_nonneg.
  - by apply IH, IH.
  - by apply shr_1_nonneg.
Qed.

Lemma shr_fexp_nonneg prec emax m e l :
  0 <= m -> 0 <= shr_m (shr_fexp prec emax m e l).1.
Proof.
  intros H. unfold shr_fexp, shr.
  assert (0 <= shr_m (shr_record_of_loc m l)) as H0.
  { destruct l as [|[]]; done. }
  destruct (fexp prec emax (Zdigits2 m + e) - e) as [|p|p]; simpl; try done.
  by apply iter_pos_shr_1_nonneg.
Qed.

Lemma round_nearest_even_nonneg m l : 0 <= m -> 0 <= round_nearest_even m l.
Proof.
  intros H. unfold round_nearest_even.
  destruct l as [|[]]; try done; [destruct (Z.even m)|]; lia.
Qed.

(** Rounding a mantissa that is not negative, with the sign of the
    positive numbers, gives a float at or above zero. *)
Lemma binary_round_aux_nonneg prec emax m e l :
  0 <= m ->
  SFleb (S754_zero false) (binary_round_aux prec emax false m e l) = true.
Proof.
  intros H. unfold binary_round_aux.
  pose proof (shr_fexp_nonneg prec emax m e l H) as H1.
  destruct (shr_fexp prec emax m e l) as [mrs' e']. simpl in H1.
  pose proof (shr_fexp_nonneg prec emax
                (round_nearest_even (shr_m mrs') (loc_of_shr_record mrs')) e'
                loc_Exact (round_nearest_even_nonneg _ _ H1)) as H2.
  destruct (shr_fexp prec emax _ e' loc_Exact) as [mrs'' e'']. simpl in H2.
  destruct (shr_m mrs'') as [|p|p]; [done| |lia].
  by destruct (e'' <=? emax - prec).
Qed.

Lemma SFadd_nonneg prec emax x y :
  SFleb (S754_zero false) x = true -> SFleb (S754_zero false) y = true ->
  SFleb (S754_zero false) (SFadd prec emax x y) = true.
Proof.
  intros Hx Hy.
  apply leb_zero_cases in Hx as [[sx ->]|[->|(mx & ex & ->)]];
    apply leb_zero_cases in Hy as [[sy ->]|[->|(my & ey & ->)]];
    try done; try (by destruct sx); try (by destruct sx, sy).
  unfold SFadd, binary_normalize, cond_Zopp.
  change (Z.pos ?a + Z.pos ?b) with (Z.pos (a + b)). cbv beta iota.
  unfold binary_round.
  destruct (shl_align _ _ _) as [mz ez].
  by apply binary_round_aux_nonneg.
Qed.

(** The sum of two floats at or above zero is at or above zero. *)
Lemma add_nonneg (a b : float) :
  (0 <=? a)%float = true -> (0 <=? b)%float = true ->
  (0 <=? a + b)%float = true.
Proof.
  rewrite !FloatAxioms.leb_spec, FloatAxioms.add_spec. change (Prim2SF 0) with (S754_zero false).
  apply SFadd_nonneg.
Qed.

Lemma Money_new_checked a c m :
  new a c = Ok m -> m = mkMoney a c /\ (0 <=? a)%float = true.
Proof.
  unfold new, __post_init__; simpl.
  destruct (0 <=? a)%float; simpl; [|done]. by intros [= <-].
Qed.

(** X3: every amount of money that a constructor or an operation returns is
    at or above zero, hence a number (never NaN), and the money is
    equal to itself; and a sum of two such moneys always returns. *)
Theorem Money_amount_never_negative :
  (forall a c m, new a c = Ok m ->
     (0 <=? amount m)%float = true /\ __eq__ m m = true) /\
  (forall (x y m : Money) (k : float) (fee : Fee) (c : Currency),
     __add__ x y = Ok m \/ __sub__ x y = Ok m \/ __mul__ x k = Ok m \/
     __truediv__ x k = Ok m \/ calculate_fee x fee = Ok m \/
     convert x c k = Ok m ->
     (0 <=? amount m)%float = true /\ __eq__ m m = true) /\
  (forall x y : Money,
     (0 <=? amount x)%float = true -> (0 <=? amount y)%float = true ->
     __add__ x y = Ok (mkMoney (amount x + amount y) (currency x))).
Proof.
  assert (Hnew : forall a c m, new a c = Ok m ->
            (0 <=? amount m)%float = true /\ __eq__ m m = true).
  { intros a c m (-> & Ha)%Money_new_checked. split; [done|].
    unfold __eq__; simpl. rewrite (leb_zero_eqb_refl _ Ha). by destruct c. }
  split; [exact Hnew|]. split.
  - intros x y m k fee c H.
    unfold __add__, __sub__, __mul__, __truediv__, calculate_fee, convert in H.
    destruct (k =? 0)%float;
      destruct H as [H|[H|[H|[H|[H|H]]]]]; try discriminate H;
      by apply Hnew in H.
  - intros x y Hx Hy. unfold __add__. apply Money_new_ok. by apply add_nonneg.
Qed.

Lemma Money_amount_witness :
  __add__ (mkMoney 2.5 USD) (mkMoney 0.25 ARS) = Ok (mkMoney 2.75 USD).
Proof.
  apply (proj2 (proj2 Money_amount_never_negative) (mkMoney 2.5 USD) (mkMoney 0.25 ARS)).
  - reflexivity.
  - reflexivity.
Defined.

(** X4: [<] and [>] look at the amounts only: the currencies play no part,
    [a > b] is [b < a], [<] is irreflexive and never holds in both
    directions; equality does look at the currency, so two moneys of
    the same amount in different currencies are neither equal nor
    ordered. *)
Theorem Money_order_ignores_currency (a b : Money) :
  (forall c1 c2,
     __lt__ (mkMoney (amount a) c1) (mkMoney (amount b) c2) = __lt__ a b /\
     __gt__ (mkMoney (amount a) c1) (mkMoney (amount b) c2) = __gt__ a b) /\
  __gt__ a b = __lt__ b a /\
  __lt__ a a = false /\
  (__lt__ a b = true -> __lt__ b a = false /\ __eq__ a b = false) /\
  ((amount a =? amount b)%float = true -> currency a <> currency b ->
     __eq__ a b = false /\ __lt__ a b = false /\ __gt__ a b = false).
Proof.
  unfold __lt__, __gt__, __eq__. repeat split.
  - apply ltb_irrefl.
  - by apply ltb_asym.
  - by rewrite (ltb_not_eqb _ _ H).
  - rewrite H. simpl. by destruct (currency a), (currency b).
  - by apply (eqb_not_ltb (amount a) (amount b)).
  - by apply (eqb_not_ltb (amount a) (amount b)).
Qed.

Lemma Money_order_witness :
  __eq__ (mkMoney 10 USD) (mkMoney 10 ARS) = false /\
  __lt__ (mkMoney 10 USD) (mkMoney 10 ARS) = false /\
  __gt__ (mkMoney 10 USD) (mkMoney 10 ARS) = false.
Proof.
  apply (proj2 (proj2 (proj2 (proj2
    (Money_order_ignores_currency (mkMoney 10 USD) (mkMoney 10 ARS)))))).
  - reflexivity.
  - discriminate.
Defined.

End MoneyOrderFacts.

(** ** The dependency provider: types, names and copies *)

Module ProviderFacts.
Import Container ContainerFacts.

(** *** Asking whether a type is provided *)

(** X5: [has_dependency] by type answers as [get_dependency] by type
    resolves: [True] when exactly one attribute of the container is a
    provider that declares a subclass of the type, and then the lookup
    is the call of that provider; [False] when none is, and then the
    lookup raises; when two or more are, [has_dependency] does not
    answer: it raises, as the lookup does. *)
Theorem has_dependency_by_type h self attrs pl t :
  h !! container self = Some (OContainer attrs pl) ->
  (forall n p,
     attrs !! n = Some p -> declares t p ->
     (forall n' p', attrs !! n' = Some p' -> declares t p' -> n' = n) ->
     has_dependency h self (IdType t) = Ok true /\
     get_dependency h self (IdType t) = call p) /\
  ((forall n p, attrs !! n = Some p -> ~ declares t p) ->
     has_dependency h self (IdType t) = Ok false /\
     get_dependency h self (IdType t)
     = Raise (TypeError "'NoneType' object is not callable")) /\
  (forall n1 p1 n2 p2,
     n1 <> n2 -> attrs !! n1 = Some p1 -> attrs !! n2 = Some p2 ->
     declares t p1 -> declares t p2 ->
     has_dependency h self (IdType t)
     = Raise (TypeError "object of type 'module' has no len()") /\
     get_dependency h self (IdType t)
     = Raise (TypeError "object of type 'module' has no len()")).
Proof.
  intros Hc.
  destruct (resolve_provider_by_type_cases h (container self) attrs pl t Hc)
    as (Hone & Hnone & Hmany).
  unfold has_dependency, get_dependency. split; [|split].
  - intros n p Hn Hp Huniq. by rewrite (Hone n p).
  - intros H. by rewrite (Hnone H).
  - intros n1 p1 n2 p2 Hne H1 H2 Hp1 Hp2. by rewrite (Hmany n1 p1 n2 p2).
Qed.

Lemma has_dependency_by_type_witness :
  has_dependency Examples.store Examples.provider0 (IdType Examples.Widget) = Ok true /\
  get_dependency Examples.store Examples.provider0 (IdType Examples.Widget)
  = call (Dependency Examples.Widget (Some Examples.widget)).
Proof.
  apply (proj1 (has_dependency_by_type Examples.store Examples.provider0
                  Examples.members 1%positive Examples.Widget eq_refl)
           "widget" (Dependency Examples.Widget (Some Examples.widget))).
  - reflexivity.
  - by exists Examples.Widget.
  - intros n' p' Hn' _. unfold Examples.members in Hn'.
    apply lookup_singleton_Some in Hn' as [<- _]. reflexivity.
Defined.

(** *** What a registration does to the lookups by type *)

(** A synthesized key has a dash: it is not the name [parent]. *)
Lemma synthesized_not_parent s x : s +:+ String "-" x <> "parent".
Proof.
  do 6 (destruct s as [|? s]; [intros E; simplify_eq/=|]).
  destruct s; intros E; simplify_eq/=.
Qed.

(** What a registration leaves in the container when it returns, under
    a key that the container does not refuse. *)
Lemma register_dependency_inv h self attrs pl i v self' h' :
  h !! container self = Some (OContainer attrs pl) ->
  register_dependency h self i v = Ok (self', h') ->
  let key := storage_key (counter self) i in
  (forall refusal called, attrs !! key <> Some (Fixed refusal called)) ->
  self' = mkProvider (container self) (next_counter (counter self) i) /\
  h' !! container self = Some (OContainer (<[key := Object v]> attrs) pl).
Proof.
  intros Hc Hreg key Hkey. revert Hreg.
  unfold register_dependency, setattr.
  assert (Hset : forall name,
            (forall refusal called, attrs !! name <> Some (Fixed refusal called)) ->
            match container_setattr h (container self) name (Object v) with
            | (inr _, h1) =>
                h1 !! container self
                = Some (OContainer (<[name := Object v]> attrs) pl)
            | (inl e, h1) =>
                h1 = h /\ name <> "parent" /\
                (attrs !! "providers" = None -> e = Raised "ReferenceError" "no such object")
            end).
  { intros name Hname.
    unfold container_setattr, providers_setitem, self_providers. rewrite Hc.
    destruct (decide (name = "parent")) as [->|Hp].
    - destruct (attrs !! "parent") as [p|] eqn:E; [destruct p|];
        try (cbn; by rewrite lookup_insert_eq).
      by destruct (Hname refusal called).
    - destruct (attrs !! "providers"); [done|].
      destruct (h !! pl) as [[d|]|]; try done.
      destruct (attrs !! name) as [p|] eqn:E; [destruct p|];
        try (cbn; by rewrite lookup_insert_eq).
      by destruct (Hname refusal called). }
  destruct i as [s|t]; cbn [storage_key next_counter ident_str] in *.
  - specialize (Hset s Hkey).
    destruct (container_setattr h (container self) s (Object v)) as [[e|[]] h1].
    + destruct Hset as (-> & Hp & He).
      destruct e; try done.
      unfold container_setattr, providers_setitem, self_providers. rewrite Hc.
      rewrite decide_False by apply synthesized_not_parent.
      destruct (attrs !! "providers") eqn:Hprov; [done|].
      by specialize (He eq_refl).
    + intros [= <- <-]. split; [by destruct self|done].
  - specialize (Hset key Hkey). fold key.
    destruct (container_setattr h (container self) key (Object v)) as [[e|[]] h1];
      [done|].
    by intros [= <- <-].
Qed.

(** X6: registered instances are held by [Object] providers, which declare
    no type.  When a registration returns, under a key the container
    does not refuse, the instance is found under the key; the lookup by
    a type is left as it was when the key held no provider declaring a
    subclass of the type; when the key held the one provider that did,
    the registration has taken that provider away, and the lookup by
    type raises from then on although the name resolves. *)
Theorem register_dependency_and_lookup_by_type h self attrs pl i v self' h' t :
  h !! container self = Some (OContainer attrs pl) ->
  register_dependency h self i v = Ok (self', h') ->
  let key := storage_key (counter self) i in
  (forall refusal called, attrs !! key <> Some (Fixed refusal called)) ->
  get_dependency h' self' (IdStr key) = Ok v /\
  ((forall p, attrs !! key = Some p -> ~ declares t p) ->
     get_dependency h' self' (IdType t) = get_dependency h self (IdType t)) /\
  (forall p,
     attrs !! key = Some p -> declares t p ->
     (forall n' p', attrs !! n' = Some p' -> declares t p' -> n' = key) ->
     get_dependency h self (IdType t) = call p /\
     get_dependency h' self' (IdType t)
     = Raise (TypeError "'NoneType' object is not callable")).
Proof.
  intros Hc Hreg key Hkey.
  destruct (register_dependency_inv _ _ _ _ _ _ _ _ Hc Hreg Hkey) as [-> Hc'].
  fold key in Hc'.
  set (self' := mkProvider (container self) (next_counter (counter self) i)).
  change (h' !! container self' = Some (OContainer (<[key := Object v]> attrs) pl))
    in Hc'.
  split; [|split].
  - rewrite (get_dependency_str _ _ _ _ _ Hc'). by rewrite lookup_insert_eq.
  - intros Hnot.
    by apply (insert_object_keeps_type_lookup h h' self self' attrs pl pl key v t).
  - intros p Hp Hm Huniq.
    destruct (resolve_provider_by_type_cases h (container self) attrs pl t Hc)
      as (Hone & _ & _).
    split; [unfold get_dependency; by rewrite (Hone key p)|].
    destruct (resolve_provider_by_type_cases h' (container self') _ pl t Hc')
      as (_ & Hnone & _).
    unfold get_dependency. rewrite Hnone; [done|].
    intros n q. destruct (decide (n = key)) as [->|Hne].
    + rewrite lookup_insert_eq. by intros [= <-] (c & Hd & _).
    + rewrite lookup_insert_ne by done. intros Hn Hq.
      by destruct Hne; apply (Huniq n q).
Qed.

Lemma register_dependency_and_lookup_by_type_witness :
  let r := returned (Examples.provider0, Examples.store)
             (register_dependency Examples.store Examples.provider0
                (IdStr "widget") Examples.gadget) in
  get_dependency Examples.store Examples.provider0 (IdType Examples.Widget)
  = call (Dependency Examples.Widget (Some Examples.widget)) /\
  get_dependency r.2 r.1 (IdType Examples.Widget)
  = Raise (TypeError "'NoneType' object is not callable").
Proof.
  intros r.
  apply (proj2 (proj2 (register_dependency_and_lookup_by_type
                         Examples.store Examples.provider0 Examples.members
                         1%positive (IdStr "widget") Examples.gadget r.1 r.2
                         Examples.Widget eq_refl eq_refl
                         ltac:(intros ? ?; vm_compute; discriminate)))
           (Dependency Examples.Widget (Some Examples.widget))).
  - reflexivity.
  - by exists Examples.Widget.
  - intros n' p' Hn' _. unfold Examples.members in Hn'.
    apply lookup_singleton_Some in Hn' as [<- _]. reflexivity.
Defined.

(** *** Derived providers *)

Lemma foldl_put_is_Some l : forall (m : gmap string provider) k,
  k ∈ l.*1 -> is_Some (foldl put m l !! k).
Proof.
  induction l as [|[k' w] l IH] using rev_ind; intros m k; simpl.
  - by intros ?%elem_of_nil.
  - rewrite fmap_app, foldl_app. simpl. unfold put at 1. simpl.
    intros [Hk|Hk%list_elem_of_singleton]%elem_of_app.
    + destruct (decide (k = k')) as [->|Hne].
      * rewrite lookup_insert_eq. eauto.
      * rewrite lookup_insert_ne by done. by apply IH.
    + subst. rewrite lookup_insert_eq. eauto.
Qed.

Lemma foldl_put_other l : forall (m : gmap string provider) k,
  k ∉ l.*1 -> foldl put m l !! k = m !! k.
Proof.
  induction l as [|[k' w] l IH]; intros m k Hk; simpl; [done|].
  simpl in Hk. apply not_elem_of_cons in Hk as [Hne Hk].
  rewrite (IH _ _ Hk). unfold put; simpl. by rewrite lookup_insert_ne.
Qed.

(** What is found under a key that has been stored is an [Object]
    provider. *)
Lemma foldl_put_object l : forall (m : gmap string provider) k p,
  k ∈ l.*1 -> foldl put m l !! k = Some p -> exists v, p = Object v.
Proof.
  induction l as [|[k' w] l IH] using rev_ind; intros m k p; simpl.
  - by intros ?%elem_of_nil.
  - rewrite fmap_app, foldl_app. simpl. unfold put at 1. simpl.
    destruct (decide (k = k')) as [->|Hne].
    + rewrite lookup_insert_eq. intros _ [= <-]. eauto.
    + rewrite lookup_insert_ne by done.
      intros [Hk|Hk%list_elem_of_singleton]%elem_of_app; [by apply IH|done].
Qed.

(** What [copy] builds when the keys of its bindings are free names: a
    new container with the attributes of the original and the same
    [providers] dict, then the bindings. *)
Lemma copy_run h self extra attrs pl d :
  h !! container self = Some (OContainer attrs pl) ->
  h !! pl = Some (ODict d) ->
  attrs !! "providers" = None ->
  Forall (fun k => free_name attrs k = true) (stored 0 extra).*1 ->
  exists dp h1,
    copy h self extra = Ok (dp, h1) /\
    container dp <> container self /\
    counter dp = final_counter 0 extra /\
    h1 !! container dp = Some (OContainer (foldl put attrs (stored 0 extra)) pl) /\
    h1 !! pl = Some (ODict (foldl put d (stored 0 extra))) /\
    h1 !! container self = Some (OContainer attrs pl).
Proof.
  intros Hc Hpl Hprov Hfree. unfold copy, copy_container.
  rewrite Hc. cbn [rbind Ok fst snd].
  set (c' := fresh (dom h)) in *.
  assert (Hfresh : forall x o, h !! x = Some o -> c' <> x).
  { intros x o Hx E. apply (is_fresh (dom h)). fold c'. rewrite E.
    apply elem_of_dom. eauto. }
  destruct (update_ok extra (<[c' := OContainer attrs pl]> h) (__init__ c')
              attrs pl d) as (h' & Hup & Hc' & Hpl'); try done.
  { apply lookup_insert_eq. }
  { rewrite lookup_insert_ne; [done|]. by apply (Hfresh pl (ODict d)). }
  eexists _, h'. split; [exact Hup|]. cbn [container counter __init__] in *.
  split; [by apply (Hfresh _ _ Hc)|]. split; [done|].
  split; [done|]. split; [done|].
  rewrite (update_frame extra _ _ _ _ (container self) Hup).
  - rewrite lookup_insert_ne; [done|]. by apply (Hfresh _ _ Hc).
  - simpl. intros E. by apply (Hfresh _ _ Hc).
  - exists attrs, pl. rewrite lookup_insert_ne; [done|]. by apply (Hfresh _ _ Hc).
Qed.

(** X7: with bindings whose keys are free names, [copy] returns a provider
    that resolves every name its bindings do not override as the
    original does, and every type as well when no binding takes the
    name of a provider that declares a subclass of it; its counter
    starts again from zero. *)
Theorem derived_provider_inherits h self attrs pl d extra :
  h !! container self = Some (OContainer attrs pl) ->
  h !! pl = Some (ODict d) ->
  attrs !! "providers" = None ->
  Forall (fun k => free_name attrs k = true) (stored 0 extra).*1 ->
  exists dp h1,
    copy h self extra = Ok (dp, h1) /\
    counter dp = final_counter 0 extra /\
    (forall s, s ∉ (stored 0 extra).*1 ->
       get_dependency h1 dp (IdStr s) = get_dependency h self (IdStr s)) /\
    (forall t,
       (forall k p, k ∈ (stored 0 extra).*1 -> attrs !! k = Some p -> ~ declares t p) ->
       get_dependency h1 dp (IdType t) = get_dependency h self (IdType t)).
Proof.
  intros Hc Hpl Hprov Hfree.
  destruct (copy_run _ _ _ _ _ _ Hc Hpl Hprov Hfree)
    as (dp & h1 & Hcopy & _ & Hn & Hdp & _ & _).
  exists dp, h1. split; [done|]. split; [done|]. split.
  - intros s Hs.
    rewrite (get_dependency_str _ _ _ _ _ Hdp), (get_dependency_str _ _ _ _ _ Hc).
    by rewrite foldl_put_other.
  - intros t Hkeys.
    apply (get_dependency_type_perm _ _ _ _ _ _ _ _ _ Hc Hdp).
    intros n p. destruct (decide (n ∈ (stored 0 extra).*1)) as [Hin|Hout].
    + split.
      * intros [Hn' (c & Hd' & _)].
        destruct (foldl_put_object _ _ _ _ Hin Hn') as [v ->]. done.
      * intros [Hn' Hp]. by destruct (Hkeys n p Hin Hn').
    + by rewrite foldl_put_other.
Qed.

Lemma derived_provider_inherits_witness :
  exists dp h1,
    copy Examples.store Examples.provider0 [(IdStr "extra", Examples.gadget)]
    = Ok (dp, h1) /\
    counter dp = 0 /\
    (forall s, s ∉ ["extra"] ->
       get_dependency h1 dp (IdStr s)
       = get_dependency Examples.store Examples.provider0 (IdStr s)) /\
    (forall t,
       (forall k p, k ∈ ["extra"] -> Examples.members !! k = Some p -> ~ declares t p) ->
       get_dependency h1 dp (IdType t)
       = get_dependency Examples.store Examples.provider0 (IdType t)).
Proof.
  apply (derived_provider_inherits Examples.store Examples.provider0
           Examples.members 1%positive Examples.members
           [(IdStr "extra", Examples.gadget)] eq_refl eq_refl eq_refl).
  by repeat constructor.
Defined.

(** *** The shared dict *)

(** What [setattr] does to the dict of the container: it takes nothing
    out of it, and it records the name it is given, unless the name is
    [parent], whenever the container still refers to the dict. *)
Lemma container_setattr_records h c attrs pl name pr r h' :
  h !! c = Some (OContainer attrs pl) ->
  container_setattr h c name pr = (r, h') ->
  (forall d k, h !! pl = Some (ODict d) -> is_Some (d !! k) ->
     exists d', h' !! pl = Some (ODict d') /\ is_Some (d' !! k)) /\
  (name <> "parent" ->
     (exists d', h' !! pl = Some (ODict d') /\ is_Some (d' !! name)) \/
     (h' = h /\ (attrs !! "providers" <> None \/ forall d, h !! pl <> Some (ODict d)))) /\
  (name <> "parent" -> r = Ok tt ->
     attrs !! "providers" = None /\ exists d, h !! pl = Some (ODict d)).
Proof.
  intros Hc. unfold container_setattr, providers_setitem, self_providers.
  rewrite Hc.
  assert (Hne : forall d, h !! pl = Some (ODict d) -> c <> pl)
    by (intros d Hd E; congruence).
  destruct (decide (name = "parent")) as [->|Hp].
  { intros H. split; [|by split].
    intros d k Hd Hk. exists d. split; [|done].
    destruct (attrs !! "parent") as [p|]; [destruct p|];
      injection H as _ <-; rewrite ?lookup_insert_ne by (by apply (Hne d)); done. }
  destruct (attrs !! "providers") as [p0|] eqn:Hprov.
  { intros [= <- <-]. split; [eauto|]. split; [|done]. intros _. right. split; [done|].
    left. done. }
  destruct (h !! pl) as [o|] eqn:Hpl; [destruct o as [d0|]|].
  2,3: intros [= <- <-]; (split; [done|]); (split; [|done]); intros _; right;
       (split; [done|]); right; intros d; congruence.
  assert (Hcp : c <> pl) by (by apply (Hne d0)).
  assert (Hdict : forall k, k = name \/ is_Some (d0 !! k) ->
            is_Some (<[name := pr]> d0 !! k)).
  { intros k [->|Hk]; [by rewrite lookup_insert_eq|].
    destruct (decide (name = k)) as [->|]; [by rewrite lookup_insert_eq|].
    by rewrite lookup_insert_ne. }
  assert (Hh1 : forall o, (<[c := o]> (<[pl := ODict (<[name := pr]> d0)]> h)) !! pl
                          = Some (ODict (<[name := pr]> d0))).
  { intros o. rewrite lookup_insert_ne by done. apply lookup_insert_eq. }
  intros H.
  assert (Hpl' : h' !! pl = Some (ODict (<[name := pr]> d0))).
  { destruct (attrs !! name) as [p|]; [destruct p|]; injection H as _ <-;
      first [apply Hh1|apply lookup_insert_eq]. }
  split; [|split].
  - intros d k [= <-] Hk. eexists. split; [exact Hpl'|]. apply Hdict. by right.
  - intros _. left. eexists. split; [exact Hpl'|]. apply Hdict. by left.
  - intros _ _. eauto.
Qed.

(** A registration that returns has recorded the name it was given in
    the dict of the container, unless the name is [parent], and has
    taken nothing out of that dict. *)
Lemma register_dependency_records h self attrs pl i v self' h' :
  h !! container self = Some (OContainer attrs pl) ->
  register_dependency h self i v = Ok (self', h') ->
  (exists attrs', h' !! container self = Some (OContainer attrs' pl)) /\
  (forall s, i = IdStr s -> s <> "parent" ->
     exists d', h' !! pl = Some (ODict d') /\ is_Some (d' !! s)) /\
  (forall d k, h !! pl = Some (ODict d) -> is_Some (d !! k) ->
     exists d', h' !! pl = Some (ODict d') /\ is_Some (d' !! k)).
Proof.
  intros Hc. unfold register_dependency, setattr.
  destruct i as [s|t].
  - destruct (container_setattr h (container self) s (Object v)) as [r h1] eqn:Hs1.
    destruct (container_setattr_container _ _ _ _ _ _ _ _ Hc Hs1) as [attrs1 Hc1].
    destruct (container_setattr_records _ _ _ _ _ _ _ _ Hc Hs1)
      as (Hkeep1 & Hrec1 & _).
    destruct r as [e|[]].
    + destruct e; try done.
      destruct (container_setattr h1 _ _ _) as [r2 h2] eqn:Hs2.
      destruct (container_setattr_container _ _ _ _ _ _ _ _ Hc1 Hs2) as [attrs2 Hc2].
      destruct (container_setattr_records _ _ _ _ _ _ _ _ Hc1 Hs2)
        as (Hkeep2 & _ & Hok2).
      destruct r2 as [e2|[]]; [done|]. intros [= <- <-].
      split; [eauto|]. split.
      * intros s' [= <-] Hp.
        destruct (Hrec1 Hp) as [(d1 & Hd1 & Hin)|(-> & Hbad)].
        -- by apply (Hkeep2 d1 s).
        -- exfalso. assert (attrs1 = attrs) as -> by congruence.
           destruct (Hok2 (synthesized_not_parent _ _) eq_refl) as (Hprov & d & Hd).
           destruct Hbad as [Hbad|Hbad]; [done|by apply (Hbad d)].
      * intros d k Hd Hk. destruct (Hkeep1 d k Hd Hk) as (d1 & Hd1 & Hk1).
        by apply (Hkeep2 d1 k).
    + intros [= <- <-]. split; [eauto|]. split; [|done].
      intros s' [= <-] Hp.
      destruct (Hrec1 Hp) as [?|(-> & Hbad)]; [done|].
      destruct (container_setattr_records _ _ _ _ _ _ _ _ Hc Hs1) as (_ & _ & Hok).
      destruct (Hok Hp eq_refl) as (Hprov & d & Hd).
      destruct Hbad as [Hbad|Hbad]; [done|by destruct (Hbad d)].
  - intros Hreg. cbn in Hreg.
    destruct (container_setattr h _ _ _) as [r2 h2] eqn:Hs2.
    destruct (container_setattr_container _ _ _ _ _ _ _ _ Hc Hs2) as [attrs2 Hc2].
    destruct (container_setattr_records _ _ _ _ _ _ _ _ Hc Hs2) as (Hkeep2 & _ & _).
    destruct r2 as [e2|[]]; [done|]. injection Hreg as <- <-.
    split; [eauto|]. split; [done|]. done.
Qed.

Lemma update_records regs : forall h self attrs pl self' h' s v,
  h !! container self = Some (OContainer attrs pl) ->
  update h self regs = Ok (self', h') ->
  (IdStr s, v) ∈ regs -> s <> "parent" ->
  exists d', h' !! pl = Some (ODict d') /\ is_Some (d' !! s).
Proof.
  assert (Hkeep : forall l h self attrs pl self' h' d k,
            h !! container self = Some (OContainer attrs pl) ->
            update h self l = Ok (self', h') ->
            h !! pl = Some (ODict d) -> is_Some (d !! k) ->
            exists d', h' !! pl = Some (ODict d') /\ is_Some (d' !! k)).
  { clear regs.
    induction l as [|[i w] l IH]; intros h self attrs pl self' h' d k Hc Hup Hd Hk.
    - simpl in Hup. injection Hup as <- <-. eauto.
    - simpl in Hup.
      destruct (register_dependency h self i w) as [e|[self1 h1]] eqn:Hreg; [done|].
      simpl in Hup.
      destruct (register_dependency_records _ _ _ _ _ _ _ _ Hc Hreg)
        as ((attrs1 & Hc1) & _ & Hk1).
      destruct (Hk1 d k Hd Hk) as (d1 & Hd1 & Hin1).
      rewrite <- (register_dependency_container _ _ _ _ _ _ Hreg) in Hc1.
      by apply (IH h1 self1 attrs1 pl self' h' d1 k). }
  induction regs as [|[i w] regs IH]; intros h self attrs pl self' h' s v Hc Hup Hin Hp.
  - by apply elem_of_nil in Hin.
  - simpl in Hup.
    destruct (register_dependency h self i w) as [e|[self1 h1]] eqn:Hreg; [done|].
    simpl in Hup.
    destruct (register_dependency_records _ _ _ _ _ _ _ _ Hc Hreg)
      as ((attrs1 & Hc1) & Hrec & _).
    rewrite <- (register_dependency_container _ _ _ _ _ _ Hreg) in Hc1.
    apply elem_of_cons in Hin as [[= <- <-]|Hin].
    + destruct (Hrec s eq_refl Hp) as (d1 & Hd1 & Hin1).
      by apply (Hkeep regs h1 self1 attrs1 pl self' h' d1 s).
    + by apply (IH h1 self1 attrs1 pl self' h' s v).
Qed.

(** X8: the [providers] dict is shared between a provider and the providers
    derived from it, and [has_dependency] by name reads that dict while
    [get_dependency] by name reads the container's own attributes: after
    [copy] with a binding for a name other than [parent],
    [has_dependency] on the original answers [True] for that name,
    whereas [get_dependency] on the original still does what it did
    before, whatever that was. *)
Theorem has_dependency_reads_shared_dict h self attrs pl extra dp h1 s v :
  h !! container self = Some (OContainer attrs pl) ->
  attrs !! "providers" = None ->
  copy h self extra = Ok (dp, h1) ->
  (IdStr s, v) ∈ extra ->
  s <> "parent" ->
  has_dependency h1 self (IdStr s) = Ok true /\
  get_dependency h1 self (IdStr s) = get_dependency h self (IdStr s).
Proof.
  intros Hc Hprov Hcopy Hin Hp.
  assert (Hself : h1 !! container self = h !! container self).
  { revert Hcopy. unfold copy.
    destruct (copy_container h (container self)) as [e|[c' h0]] eqn:Hcc; [done|].
    cbn [rbind fst snd]. intros Hup.
    apply copy_container_fresh in Hcc as (Hne & Hsame0 & _).
    rewrite <- Hsame0.
    apply (update_frame _ _ _ _ _ _ Hup); [done|].
    exists attrs, pl. by rewrite Hsame0. }
  split; [|by apply get_dependency_same_container].
  revert Hcopy. unfold copy, copy_container. rewrite Hc. cbn [rbind Ok fst snd].
  intros Hup.
  destruct (update_records extra _ (__init__ (fresh (dom h))) attrs pl _ _ s v
              (lookup_insert_eq _ _ _) Hup Hin Hp) as (d1 & Hd1 & Hs).
  unfold has_dependency, self_providers. rewrite Hself, Hc, Hprov, Hd1.
  by rewrite bool_decide_eq_true_2.
Qed.

Lemma has_dependency_reads_shared_dict_witness :
  let derived := returned (Examples.provider0, Examples.store)
                   (copy Examples.store Examples.provider0
                      [(IdStr "extra", Examples.gadget)]) in
  has_dependency derived.2 Examples.provider0 (IdStr "extra") = Ok true /\
  get_dependency derived.2 Examples.provider0 (IdStr "extra")
  = get_dependency Examples.store Examples.provider0 (IdStr "extra").
Proof.
  intros derived.
  destruct (has_dependency_reads_shared_dict Examples.store Examples.provider0
              Examples.members 1%positive
              [(IdStr "extra", Examples.gadget)] derived.1 derived.2
              "extra" Examples.gadget eq_refl eq_refl eq_refl) as (H1 & H2).
  - left.
  - discriminate.
  - exact (conj H1 H2).
Defined.

(** X9: the counter that makes the synthesized keys distinct belongs to the
    provider, and [copy] starts a new one at zero: a type registered on
    a derived provider takes the key of the first type registration of
    the original, and displaces that instance in the derived provider
    (the original keeps it). *)
Theorem derived_counter_reuses_key h self t v1 self1 h1 dp h2 v2 dp' h3 :
  well_formed h self -> counter self = 0 ->
  register_dependency h self (IdType t) v1 = Ok (self1, h1) ->
  copy h1 self1 [] = Ok (dp, h2) ->
  register_dependency h2 dp (IdType t) v2 = Ok (dp', h3) ->
  let key := storage_key 0 (IdType t) in
  counter self1 = 1 /\ counter dp = 0 /\
  get_dependency h2 dp (IdStr key) = Ok v1 /\
  get_dependency h3 dp' (IdStr key) = Ok v2 /\
  get_dependency h3 self1 (IdStr key) = Ok v1.
Proof.
  intros (attrs & pl & d & Hc & Hpl) Hn Hreg1 Hcopy Hreg2 key.
  destruct (register_type_inv _ _ _ _ _ _ _ _ _ Hc Hpl Hreg1) as (Hprov & -> & ->).
  rewrite Hn in *. fold key in Hcopy, Hreg2 |- *.
  assert (container self <> pl) as Hne by (intros E; congruence).
  set (h1 := <[container self := _]> _) in *.
  assert (Hc1 : h1 !! container self
                = Some (OContainer (<[key := Object v1]> attrs) pl))
    by apply lookup_insert_eq.
  assert (Hpl1 : h1 !! pl = Some (ODict (<[key := Object v1]> d))).
  { unfold h1. rewrite lookup_insert_ne by done. apply lookup_insert_eq. }
  destruct (copy_run h1 (mkProvider (container self) (0 + 1)) []
              _ _ _ Hc1 Hpl1) as (dp0 & h20 & Hcopy0 & Hdne & Hdn & Hdp & Hd2 & Hself2).
  { destruct (storage_key_type_ordinary 0 t) as [? _].
    by rewrite lookup_insert_ne. }
  { constructor. }
  rewrite Hcopy0 in Hcopy. injection Hcopy as <- <-.
  cbn [container counter final_counter stored foldl] in *.
  destruct (register_type_inv _ _ _ _ _ _ _ _ _ Hdp Hd2 Hreg2) as (_ & -> & ->).
  rewrite Hdn. fold key.
  split; [done|]. split; [done|]. split; [|split].
  - rewrite (get_dependency_str _ _ _ _ _ Hdp). by rewrite lookup_insert_eq.
  - erewrite get_dependency_str; [|simpl; apply lookup_insert_eq].
    by rewrite lookup_insert_eq.
  - erewrite get_dependency_str.
    2:{ simpl. rewrite lookup_insert_ne by done.
        rewrite lookup_insert_ne; [exact Hself2|]. intros E. congruence. }
    by rewrite lookup_insert_eq.
Qed.

Lemma derived_counter_reuses_key_witness :
  let first := returned (Examples.provider0, Examples.store)
                 (register_dependency Examples.store Examples.provider0
                    (IdType Examples.Widget) Examples.widget) in
  let derived := returned first (copy first.2 first.1 []) in
  let second := returned derived
                  (register_dependency derived.2 derived.1
                     (IdType Examples.Widget) Examples.gadget) in
  counter first.1 = 1 /\ counter derived.1 = 0 /\
  get_dependency derived.2 derived.1 (IdStr "<class 'Widget'>-0") = Ok Examples.widget /\
  get_dependency second.2 second.1 (IdStr "<class 'Widget'>-0") = Ok Examples.gadget /\
  get_dependency second.2 first.1 (IdStr "<class 'Widget'>-0") = Ok Examples.widget.
Proof.
  intros first derived second.
  apply (derived_counter_reuses_key Examples.store Examples.provider0
           Examples.Widget Examples.widget first.1 first.2 derived.1 derived.2
           Examples.gadget second.1 second.2 store_well_formed eq_refl).
  - reflexivity.
  - vm_compute. reflexivity.
  - vm_compute. reflexivity.
Defined.

End ProviderFacts.

(** ** Transaction scopes *)

Module ScopeFacts.
Import Container Transaction TransactionFacts.

#[local] Arguments hasattr : simpl never.
#[local] Arguments transaction_members : simpl never.
#[local] Arguments uuid_v4_of : simpl never.
#[local] Arguments get_dependency : simpl never.
#[local] Arguments has_dependency : simpl never.

(** *** Entering the scope *)

(** The world [on_create_transaction_context] leaves, in full: a new
    dict and a new container in the heap, both at identities the heap
    did not hold. *)
Lemma on_create_heap w engine logger :
  exists members pl c,
    on_create_transaction_context engine logger w
    = (Ok (mkContext (mkProvider c 0)),
       mkWorld (<[c := OContainer members pl]> (<[pl := ODict members]> (heap w)))
         (trace w) (uuid_v4_of (entropy w (S (drawn w)) mod 2 ^ 128)%N)
         (buffers w) (entropy w) (S (S (drawn w)))
         (Pos.succ (Pos.succ (Pos.succ (Pos.succ (Pos.succ (next_id w))))))
         (failing w)) /\
    heap w !! pl = None /\ heap w !! c = None /\ c <> pl /\
    members !! "db_session"
    = Some (Dependency Session (Some (VObj Session (next_id w)))) /\
    members !! "logger" = Some (Dependency Logger (Some logger)) /\
    members !! "publish" = None /\
    members !! "providers" = None.
Proof.
  eexists _, (fresh (dom (heap w))), _. split.
  { unfold on_create_transaction_context, TransactionContainer, uuid4, urandom16,
      new_object, set_correlation_id, get_heap, put_heap, bind, ret.
    cbn [heap trace logger_correlation_id buffers entropy drawn next_id failing Ok].
    reflexivity. }
  assert (Hpl : heap w !! fresh (dom (heap w)) = None).
  { apply not_elem_of_dom, is_fresh. }
  match goal with |- _ /\ heap w !! ?c = None /\ _ =>
    assert (Hc : c ∉ dom (<[fresh (dom (heap w)) :=
                              ODict (transaction_members
                                (VObj Session (next_id w))
                                (VUUID (uuid_v4_of (entropy w (drawn w) mod 2 ^ 128)%N))
                                logger
                                (VObj StrategyPostgresJsonManagementRepository
                                   (Pos.succ (next_id w)))
                                (VObj InMemoryOutbox (Pos.succ (Pos.succ (next_id w))))
                                (VObj PartnerPostgresJsonManagementRepository
                                   (Pos.succ (Pos.succ (Pos.succ (next_id w)))))
                                (VObj OperationPostgresJsonManagementRepository
                                   (Pos.succ (Pos.succ (Pos.succ (Pos.succ (next_id w)))))))]>
                            (heap w))) by apply is_fresh
  end.
  apply not_elem_of_dom in Hc.
  apply lookup_insert_None in Hc as [Hc Hne].
  repeat split; done.
Qed.

(** The world the two hooks leave, one after the other. *)
Lemma create_enter_run w engine logger :
  exists members pl c,
    bind (on_create_transaction_context engine logger)
      on_enter_transaction_context w
    = (Ok (mkContext (mkProvider c 0)),
       mkWorld
         (<[c := OContainer (<["publish" := Object (VMethod "publish")]> members) pl]>
            (<[pl := ODict (<["publish" := Object (VMethod "publish")]> members)]>
               (<[c := OContainer members pl]> (<[pl := ODict members]> (heap w)))))
         (trace w ++
          [LogRecord "debug" (uuid_v4_of (entropy w (S (drawn w)) mod 2 ^ 128)%N)
             [Text "Entering transaction"]])
         (uuid_v4_of (entropy w (S (drawn w)) mod 2 ^ 128)%N)
         (buffers w) (entropy w) (S (S (drawn w)))
         (Pos.succ (Pos.succ (Pos.succ (Pos.succ (Pos.succ (next_id w))))))
         (failing w)) /\
    heap w !! pl = None /\ heap w !! c = None /\ c <> pl /\
    members !! "db_session"
    = Some (Dependency Session (Some (VObj Session (next_id w)))) /\
    members !! "logger" = Some (Dependency Logger (Some logger)) /\
    members !! "providers" = None.
Proof.
  destruct (on_create_heap w engine logger)
    as (members & pl & c & Hcreate & Hpl & Hc & Hne & Hsess & Hlog & Hpub & Hprov).
  exists members, pl, c. split; [|by repeat split].
  rewrite (bind_ok _ _ _ _ _ Hcreate).
  erewrite (on_enter_run _ _ members pl members).
  - reflexivity.
  - apply lookup_insert_eq.
  - cbn [heap dependency_provider container].
    rewrite lookup_insert_ne by done. apply lookup_insert_eq.
  - exact Hprov.
  - unfold free_name. by rewrite Hpub.
Qed.

(** X10: [on_create_transaction_context] followed by
    [on_enter_transaction_context] always returns.  The scope it leaves
    resolves [publish] to the context's [publish] method and
    [db_session] to the session created for it; one record has been
    logged, and the correlation id it carries, the one the logger holds
    inside the scope, is never the id of no transaction. *)
Theorem entered_scope w engine logger :
  exists ctx w',
    bind (on_create_transaction_context engine logger)
      on_enter_transaction_context w = (Ok ctx, w') /\
    get_dependency (heap w') (dependency_provider ctx) (IdStr "publish")
    = Ok (VMethod "publish") /\
    has_dependency (heap w') (dependency_provider ctx) (IdStr "publish") = Ok true /\
    get_dependency (heap w') (dependency_provider ctx) (IdStr "db_session")
    = Ok (VObj Session (next_id w)) /\
    trace w'
    = trace w ++ [LogRecord "debug" (logger_correlation_id w')
                    [Text "Entering transaction"]] /\
    logger_correlation_id w' <> no_transaction.
Proof.
  destruct (create_enter_run w engine logger)
    as (members & pl & c & Hrun & Hpl & Hc & Hne & Hsess & _ & Hprov).
  eexists _, _. split; [exact Hrun|].
  cbn [heap trace logger_correlation_id dependency_provider].
  split; [|split; [|split; [|split; [done|apply uuid_v4_of_not_zero]]]].
  - erewrite ContainerFacts.get_dependency_str; [|apply lookup_insert_eq].
    by rewrite lookup_insert_eq.
  - unfold has_dependency, self_providers. cbn [container].
    rewrite lookup_insert_eq, lookup_insert_ne, Hprov by done.
    rewrite lookup_insert_ne, lookup_insert_eq by done.
    by rewrite lookup_insert_eq.
  - erewrite ContainerFacts.get_dependency_str; [|apply lookup_insert_eq].
    rewrite lookup_insert_ne by done. by rewrite Hsess.
Qed.

(** X11: two scopes opened one after the other each have a container and
    a session of their own, and nothing the second does at its creation
    and entry changes what the first resolves or what it says it holds.
    What the two do share is the logger: both resolve the one object
    they were created with, and the correlation id it carries is
    overwritten by the second creation, so that from then on it is the
    id of the second scope's draw and no longer the one the first scope
    logged its entry with. *)
Theorem transaction_scopes_are_separate w engine logger :
  exists ctx1 w1 ctx2 w2,
    bind (on_create_transaction_context engine logger)
      on_enter_transaction_context w = (Ok ctx1, w1) /\
    bind (on_create_transaction_context engine logger)
      on_enter_transaction_context w1 = (Ok ctx2, w2) /\
    container (dependency_provider ctx1) <> container (dependency_provider ctx2) /\
    get_dependency (heap w2) (dependency_provider ctx1) (IdStr "db_session")
    = Ok (VObj Session (next_id w)) /\
    get_dependency (heap w2) (dependency_provider ctx2) (IdStr "db_session")
    = Ok (VObj Session (next_id w1)) /\
    next_id w <> next_id w1 /\
    (forall i,
       get_dependency (heap w2) (dependency_provider ctx1) i
       = get_dependency (heap w1) (dependency_provider ctx1) i /\
       has_dependency (heap w2) (dependency_provider ctx1) i
       = has_dependency (heap w1) (dependency_provider ctx1) i) /\
    get_dependency (heap w2) (dependency_provider ctx1) (IdStr "logger") = Ok logger /\
    get_dependency (heap w2) (dependency_provider ctx2) (IdStr "logger") = Ok logger /\
    logger_correlation_id w1 = uuid_v4_of (entropy w (1 + drawn w) mod 2 ^ 128)%N /\
    logger_correlation_id w2 = uuid_v4_of (entropy w (3 + drawn w) mod 2 ^ 128)%N /\
    trace w2
    = trace w
      ++ [LogRecord "debug" (logger_correlation_id w1) [Text "Entering transaction"];
          LogRecord "debug" (logger_correlation_id w2) [Text "Entering transaction"]].
Proof.
  destruct (create_enter_run w engine logger)
    as (m1 & pl1 & c1 & Hrun1 & Hpl1 & Hc1 & Hne1 & Hsess1 & Hlog1 & Hprov1).
  set (w1 := mkWorld _ _ _ _ _ _ _ _) in Hrun1.
  destruct (create_enter_run w1 engine logger)
    as (m2 & pl2 & c2 & Hrun2 & Hpl2 & Hc2 & Hne2 & Hsess2 & Hlog2 & Hprov2).
  set (w2 := mkWorld _ _ _ _ _ _ _ _) in Hrun2.
  exists (mkContext (mkProvider c1 0)), w1, (mkContext (mkProvider c2 0)), w2.
  split; [exact Hrun1|]. split; [exact Hrun2|].
  cbn [dependency_provider container].
  assert (Hin1 : heap w1 !! c1
                 = Some (OContainer (<["publish" := Object (VMethod "publish")]> m1) pl1))
    by apply lookup_insert_eq.
  assert (Hin2 : heap w1 !! pl1
                 = Some (ODict (<["publish" := Object (VMethod "publish")]> m1))).
  { unfold w1. cbn [heap]. rewrite lookup_insert_ne by done. apply lookup_insert_eq. }
  assert (c2 <> c1) as Hcc by (intros ->; congruence).
  assert (pl2 <> c1) as Hpc by (intros ->; congruence).
  assert (c2 <> pl1) as Hcp by (intros ->; congruence).
  assert (pl2 <> pl1) as Hpp by (intros ->; congruence).
  assert (Hsame : forall x, x = c1 \/ x = pl1 -> heap w2 !! x = heap w1 !! x).
  { intros x Hx. unfold w2. cbn [heap].
    rewrite !lookup_insert_ne; [done| | | |]; intros ->; destruct Hx; congruence. }
  split; [congruence|]. split.
  { rewrite (ContainerFacts.get_dependency_same_container (heap w1) (heap w2));
      [|apply Hsame; by left].
    rewrite (ContainerFacts.get_dependency_str (heap w1) (mkProvider c1 0) _ _ _ Hin1).
    rewrite lookup_insert_ne by done. by rewrite Hsess1. }
  split.
  { erewrite ContainerFacts.get_dependency_str; [|apply lookup_insert_eq].
    rewrite lookup_insert_ne by done. by rewrite Hsess2. }
  split.
  { unfold w1. cbn [next_id]. lia. }
  split.
  { intros i. split.
    - apply ContainerFacts.get_dependency_same_container. apply Hsame. by left.
    - unfold has_dependency, resolve_provider_by_type, self_providers.
      cbn [container].
      rewrite (Hsame c1) by (by left). rewrite Hin1.
      destruct i; [|done].
      rewrite lookup_insert_ne, Hprov1 by done.
      rewrite (Hsame pl1) by (by right). done. }
  split.
  { rewrite (ContainerFacts.get_dependency_same_container (heap w1) (heap w2));
      [|apply Hsame; by left].
    rewrite (ContainerFacts.get_dependency_str (heap w1) (mkProvider c1 0) _ _ _ Hin1).
    rewrite lookup_insert_ne by done. by rewrite Hlog1. }
  split.
  { erewrite ContainerFacts.get_dependency_str; [|apply lookup_insert_eq].
    rewrite lookup_insert_ne by done. by rewrite Hlog2. }
  split; [reflexivity|]. split; [reflexivity|].
  unfold w2, w1. cbn [trace logger_correlation_id entropy drawn].
  by rewrite <- app_assoc.
Qed.

End ScopeFacts.

(** ** The middlewares *)

Module MiddlewareFacts.
Import Container Transaction TransactionFacts.

#[local] Arguments hasattr : simpl never.
#[local] Arguments transaction_members : simpl never.
#[local] Arguments uuid_v4_of : simpl never.

(** *** Leaving the scope when something fails *)

Lemma after_nothing w : after w [] (buffers w) = w.
Proof. unfold after. rewrite app_nil_r. by destruct w. Qed.

(** The exit hook from its first session call on, for either branch. *)
Lemma on_exit_steps ctx exception w session :
  get_dependency (heap w) (dependency_provider ctx) (IdStr "db_session") = Ok session ->
  on_exit_transaction_context ctx exception w
  = bind (call_method session (first_call exception))
      (fun _ =>
         bind (log (if rolls_back exception then "warning" else "debug")
                 (match exception with
                  | Some e =>
                      if exn_bool e then [Text "rollback due to "; StrExn e]
                      else [Text "committed"]
                  | None => [Text "committed"]
                  end))
           (fun _ =>
              bind (call_method session "close")
                (fun _ =>
                   bind (log "debug" [Text "transaction ended"])
                     (fun _ => set_correlation_id no_transaction)))) w.
Proof.
  intros Hs. unfold on_exit_transaction_context.
  rewrite bind_run. unfold ctx_getitem at 1. rewrite Hs. cbn [Ok].
  unfold first_call, rolls_back.
  destruct exception as [e|]; [destruct (exn_bool e)|];
    by rewrite bind_assoc.
Qed.

(** X12: the reset of the logger's correlation id is the last statement of
    the exit hook, and nothing in the hook is guarded: whenever the hook
    raises, the logger keeps the id it had.  When the scope has no
    [db_session] nothing has happened at all; when the commit or the
    rollback raises, its exception leaves the hook and the only thing
    that has happened is that call; and [close] has been called only
    when it is [close] itself that raised. *)
Theorem on_exit_raises_before_reset ctx exception w e w' :
  on_exit_transaction_context ctx exception w = (Raise e, w') ->
  logger_correlation_id w' = logger_correlation_id w /\
  exists calls,
    w' = after w calls (buffers w) /\
    (get_dependency (heap w) (dependency_provider ctx) (IdStr "db_session")
     = Raise e -> calls = []) /\
    (forall cls s e1,
       get_dependency (heap w) (dependency_provider ctx) (IdStr "db_session")
       = Ok (VObj cls s) ->
       hasattr (VObj cls s) (first_call exception) = true ->
       failing w s (first_call exception) = Some e1 ->
       e = e1 /\ calls = [MethodCall s (first_call exception)]) /\
    (forall s, MethodCall s "close" ∈ calls -> failing w s "close" = Some e).
Proof.
  destruct (get_dependency (heap w) (dependency_provider ctx) (IdStr "db_session"))
    as [e0|session] eqn:Hs.
  { unfold on_exit_transaction_context, bind at 1, ctx_getitem. rewrite Hs.
    intros [= <- <-]. split; [done|]. exists []. rewrite after_nothing.
    split; [done|]. split; [done|]. split; [done|].
    by intros s H%elem_of_nil. }
  rewrite (on_exit_steps _ _ _ _ Hs).
  set (body := match exception with Some _ => _ | None => _ end).
  set (level := if rolls_back exception then _ else _).
  assert (Hfirst_ne : "close" <> first_call exception).
  { unfold first_call. by destruct (rolls_back exception). }
  assert (Hmissing : forall x method w0,
            hasattr x method = false ->
            exists e0, call_method x method w0 = (Raise e0, w0)).
  { intros x method w0 H. unfold call_method, bound_method.
    destruct x; try (by eexists); rewrite H; by eexists. }
  destruct (hasattr session (first_call exception)) eqn:Hfirst.
  2:{ destruct (Hmissing _ _ w Hfirst) as [e0 He0].
      rewrite (bind_raise _ _ _ _ _ He0).
      intros [= <- <-]. split; [done|]. exists []. rewrite after_nothing.
      split; [done|]. split; [done|].
      split; [intros ? ? ? [= ->]; congruence|]. by intros s' H%elem_of_nil. }
  destruct session as [|?|?|?|cls s]; try (by unfold hasattr in Hfirst).
  rewrite bind_run, call_method_run by done.
  destruct (failing w s (first_call exception)) as [e1|] eqn:Hf1.
  { intros [= <- <-]. split; [done|]. eexists. split; [reflexivity|].
    split; [done|]. split.
    - intros ? ? ? [= <- <-] _ H. rewrite Hf1 in H. by simplify_eq.
    - intros s' [E|E%elem_of_nil]%elem_of_cons; [|done].
      by injection E as _ E. }
  cbn [Ok]. rewrite bind_run, log_run, after_after. cbn [Ok].
  destruct (hasattr (VObj cls s) "close") eqn:Hclose.
  2:{ destruct (Hmissing _ _ (after w ([MethodCall s (first_call exception)]
                                       ++ [LogRecord level
                                             (logger_correlation_id
                                                (after w [MethodCall s (first_call exception)]
                                                   (buffers w))) body])
                                  (buffers (after w [MethodCall s (first_call exception)]
                                              (buffers w)))) Hclose)
        as [e0 He0].
      rewrite (bind_raise _ _ _ _ _ He0).
      intros [= <- <-]. split; [done|]. eexists. split; [reflexivity|].
      split; [done|]. split; [intros ? ? ? [= <- <-] _ H; congruence|].
      intros s' H. cbn in H.
      repeat (apply elem_of_cons in H as [H|H]); try done.
      - by injection H as _ E.
      - by apply elem_of_nil in H. }
  rewrite bind_run, call_method_run by done. cbn [failing after].
  destruct (failing w s "close") as [e2|] eqn:Hf2.
  2:{ cbn [Ok]. by rewrite bind_run, log_run. }
  rewrite after_after.
  intros [= <- <-]. split; [done|]. eexists. split; [reflexivity|].
  split; [done|]. split; [intros ? ? ? [= <- <-] _ H; congruence|].
  intros s' H. cbn in H.
  repeat (apply elem_of_cons in H as [H|H]); try done.
  - by injection H as _ E.
  - by injection H as ->.
  - by apply elem_of_nil in H.
Qed.

Lemma on_exit_raises_before_reset_witness :
  let w := Examples.world1_commit_fails in
  let r := on_exit_transaction_context Examples.scope0 None w in
  logger_correlation_id r.2 = logger_correlation_id w /\
  exists calls,
    r.2 = after w calls (buffers w) /\
    (get_dependency (heap w) (dependency_provider Examples.scope0) (IdStr "db_session")
     = Raise Examples.connection_lost -> calls = []) /\
    (forall cls s e1,
       get_dependency (heap w) (dependency_provider Examples.scope0) (IdStr "db_session")
       = Ok (VObj cls s) ->
       hasattr (VObj cls s) (first_call None) = true ->
       failing w s (first_call None) = Some e1 ->
       Examples.connection_lost = e1 /\ calls = [MethodCall s (first_call None)]) /\
    (forall s, MethodCall s "close" ∈ calls ->
               failing w s "close" = Some Examples.connection_lost).
Proof.
  intros w r.
  apply (on_exit_raises_before_reset Examples.scope0 None w
           Examples.connection_lost r.2).
  vm_compute. reflexivity.
Defined.

(** *** The event collector when the handler or the scope fails it *)



End MiddlewareFacts.

(** ** The calendar of [datetime] *)

Module DatetimeFacts.
Import Datetime.

(** *** The calendar *)

Lemma is_leap_spec y :
  is_leap y = true <-> y mod 4 = 0 /\ (y mod 100 <> 0 \/ y mod 400 = 0).
Proof.
  unfold is_leap.
  rewrite andb_true_iff, orb_true_iff, negb_true_iff, !Z.eqb_eq, Z.eqb_neq.
  done.
Qed.

(** The month and the day found for each day of a year agree with the
    tables: checked day by day. *)
Lemma month_day_checked leapyear :
  forallb (fun k =>
    let n := Z.of_nat k in
    let md := month_day n leapyear in
    (1 <=? md.1) && (md.1 <=? 12) && (1 <=? md.2)
    && (md.2 <=? table DAYS_IN_MONTH md.1
                 + (if (md.1 =? 2) && leapyear then 1 else 0))
    && (table DAYS_BEFORE_MONTH md.1
        + (if (2 <? md.1) && leapyear then 1 else 0) + md.2 =? n + 1))
    (seq 0 365) = true.
Proof. destruct leapyear; vm_compute; reflexivity. Qed.

Lemma month_day_spec n leapyear :
  0 <= n < 365 ->
  let md := month_day n leapyear in
  1 <= md.1 <= 12 /\
  1 <= md.2 <= table DAYS_IN_MONTH md.1
                + (if (md.1 =? 2) && leapyear then 1 else 0) /\
  table DAYS_BEFORE_MONTH md.1
  + (if (2 <? md.1) && leapyear then 1 else 0) + md.2 = n + 1.
Proof.
  intros Hn.
  pose proof (proj1 (forallb_forall _ _) (month_day_checked leapyear)
                (Z.to_nat n)) as H.
  cbv beta zeta in H. rewrite Z2Nat.id in H by lia.
  intros md. fold md in H.
  assert (Hin : In (Z.to_nat n) (seq 0 365)) by (apply in_seq; lia).
  apply H in Hin.
  repeat (apply andb_true_iff in Hin as [Hin ?]).
  repeat match goal with
         | H : (_ <=? _) = true |- _ => apply Z.leb_le in H
         | H : (_ =? _) = true |- _ => apply Z.eqb_eq in H
         end.
  lia.
Qed.

(** [ord2ymd] is the inverse of [ymd2ord]: the date it returns exists
    and its ordinal is the number it was computed from. *)
Lemma ord2ymd_spec n :
  1 <= n ->
  exists y m d,
    ord2ymd n = (y, m, d) /\
    1 <= m <= 12 /\ 1 <= d <= days_in_month y m /\
    ymd2ord y m d = n /\
    days_before_year y < n <= days_before_year (y + 1).
Proof.
  intros Hn. unfold ord2ymd. cbv zeta.
  set (n0 := n - 1).
  pose proof (Z.div_mod n0 DI400Y ltac:(done)) as E1.
  pose proof (Z.mod_pos_bound n0 DI400Y ltac:(done)) as B1.
  set (a := n0 / DI400Y) in *. set (r1 := n0 mod DI400Y) in *.
  pose proof (Z.div_mod r1 DI100Y ltac:(done)) as E2.
  pose proof (Z.mod_pos_bound r1 DI100Y ltac:(done)) as B2.
  set (b := r1 / DI100Y) in *. set (r2 := r1 mod DI100Y) in *.
  pose proof (Z.div_mod r2 DI4Y ltac:(done)) as E3.
  pose proof (Z.mod_pos_bound r2 DI4Y ltac:(done)) as B3.
  set (c := r2 / DI4Y) in *. set (r3 := r2 mod DI4Y) in *.
  pose proof (Z.div_mod r3 365 ltac:(done)) as E4.
  pose proof (Z.mod_pos_bound r3 365 ltac:(done)) as B4.
  set (e := r3 / 365) in *. set (r4 := r3 mod 365) in *.
  clearbody a r1 b r2 c r3 e r4. unfold DI400Y, DI100Y, DI4Y in *.
  assert (Hn0 : n = n0 + 1) by (unfold n0; lia). clearbody n0.
  assert (0 <= a /\ 0 <= b <= 4 /\ 0 <= c <= 24 /\ 0 <= e <= 4) as (Ha & Hb & Hc & He)
    by lia.
  set (Y := a * 400 + 1 + b * 100 + c * 4 + e).
  destruct ((e =? 4) || (b =? 4)) eqn:Hsp.
  - (* the last day of a leap year *)
    exists (Y - 1), 12, 31. split; [done|].
    assert (Hleap : is_leap (Y - 1) = true).
    { apply is_leap_spec. unfold Y.
      apply orb_true_iff in Hsp as [Hsp|Hsp]; apply Z.eqb_eq in Hsp; subst.
      - assert (c <= 23) by lia.
        Z.to_euclidean_division_equations; lia.
      - assert (c = 0 /\ e = 0) as [-> ->] by lia.
        Z.to_euclidean_division_equations; lia. }
    unfold ymd2ord, days_in_month, days_before_month, days_before_year.
    rewrite Hleap. cbn [andb Z.eqb Z.ltb Z.compare Pos.compare Pos.compare_cont].
    change (table DAYS_IN_MONTH 12) with 31.
    change (table DAYS_BEFORE_MONTH 12) with 334.
    apply is_leap_spec in Hleap. unfold Y in *.
    apply orb_true_iff in Hsp as [Hsp|Hsp]; apply Z.eqb_eq in Hsp; subst.
    + assert (c <= 23) by lia.
      repeat split; try lia; try (simpl; lia);
        Z.to_euclidean_division_equations; lia.
    + assert (c = 0 /\ e = 0) as [-> ->] by lia.
      repeat split; try lia; try (simpl; lia);
        Z.to_euclidean_division_equations; lia.
  - apply orb_false_iff in Hsp as [He4%Z.eqb_neq Hb4%Z.eqb_neq].
    assert (Hleap : is_leap Y = (e =? 3) && (negb (c =? 24) || (b =? 3))).
    { destruct ((e =? 3) && (negb (c =? 24) || (b =? 3))) eqn:Hf.
      - apply is_leap_spec. unfold Y.
        apply andb_true_iff in Hf as [He3%Z.eqb_eq Hf]. subst e.
        apply orb_true_iff in Hf as [Hf%negb_true_iff%Z.eqb_neq|Hf%Z.eqb_eq].
        + Z.to_euclidean_division_equations; lia.
        + subst b. Z.to_euclidean_division_equations; lia.
      - destruct (is_leap Y) eqn:HL; [|done].
        apply is_leap_spec in HL. unfold Y in HL.
        apply andb_false_iff in Hf as [Hf%Z.eqb_neq|Hf].
        + exfalso. Z.to_euclidean_division_equations; lia.
        + apply orb_false_iff in Hf as [Hf%negb_false_iff%Z.eqb_eq Hf'%Z.eqb_neq].
          subst c. exfalso. Z.to_euclidean_division_equations; lia. }
    rewrite <- Hleap.
    assert (Hr4 : 0 <= r4 < 365) by lia.
    pose proof (month_day_spec r4 (is_leap Y) Hr4) as (Hm & Hd & Hsum).
    set (md := month_day r4 (is_leap Y)) in *.
    exists Y, md.1, md.2. split; [done|]. split; [done|].
    assert (Hdby : days_before_year Y
                   = 146097 * a + 36524 * b + 1461 * c + 365 * e).
    { unfold days_before_year, Y. Z.to_euclidean_division_equations; lia. }
    assert (Hnext : days_before_year (Y + 1)
                    = days_before_year Y + 365 + (if is_leap Y then 1 else 0)).
    { rewrite Hdby. rewrite Hleap. unfold days_before_year, Y.
      destruct ((e =? 3) && (negb (c =? 24) || (b =? 3))) eqn:Hf.
      - apply andb_true_iff in Hf as [He3%Z.eqb_eq Hf]. subst e.
        apply orb_true_iff in Hf as [Hf%negb_true_iff%Z.eqb_neq|Hf%Z.eqb_eq].
        + Z.to_euclidean_division_equations; lia.
        + subst b. Z.to_euclidean_division_equations; lia.
      - apply andb_false_iff in Hf as [Hf%Z.eqb_neq|Hf].
        + Z.to_euclidean_division_equations; lia.
        + apply orb_false_iff in Hf as [Hf%negb_false_iff%Z.eqb_eq Hf'%Z.eqb_neq].
          subst c. Z.to_euclidean_division_equations; lia. }
    split; [|split].
    + unfold days_in_month. split; [lia|].
      destruct ((md.1 =? 2) && is_leap Y) eqn:Hfeb.
      * apply andb_true_iff in Hfeb as [Hm2%Z.eqb_eq HL].
        rewrite Hm2 in Hd. change (table DAYS_IN_MONTH 2) with 28 in Hd. lia.
      * lia.
    + unfold ymd2ord, days_before_month. rewrite Hdby. lia.
    + rewrite Hnext, Hdby. destruct (is_leap Y); lia.
Qed.

Lemma days_before_year_mono a b :
  a <= b -> days_before_year a <= days_before_year b.
Proof.
  intros H. unfold days_before_year. Z.to_euclidean_division_equations; lia.
Qed.

Lemma in_range_spec t : in_range t = true <-> 0 <= t < MAXORDINAL * us_per_day.
Proof. unfold in_range. rewrite andb_true_iff, Z.leb_le, Z.ltb_lt. done. Qed.

(** The fields of a datetime that exists: its date exists, and its
    place on the time line is the place of that date plus the time of
    day. *)
Lemma fields_spec d :
  in_range (ticks d) = true ->
  1 <= year d <= 9999 /\ 1 <= month d <= 12 /\
  1 <= day d <= days_in_month (year d) (month d) /\
  ymd2ord (year d) (month d) (day d) = toordinal d /\
  days_before_year (year d) < toordinal d <= days_before_year (year d + 1) /\
  (toordinal d - 1) * us_per_day <= ticks d < toordinal d * us_per_day.
Proof.
  intros Hr%in_range_spec. unfold MAXORDINAL, us_per_day, us_per_second in Hr.
  assert (Hord : 1 <= toordinal d <= 3652059).
  { unfold toordinal, us_per_day, us_per_second.
    Z.to_euclidean_division_equations; lia. }
  destruct (ord2ymd_spec (toordinal d)) as (y & m & dd & E & Hm & Hd & Hymd & Hy);
    [lia|].
  unfold year, month, day. rewrite E. cbn [fst snd].
  assert (1 <= y <= 9999).
  { split.
    - destruct (decide (1 <= y)) as [|Hlt]; [done|].
      pose proof (days_before_year_mono (y + 1) 1 ltac:(lia)) as H.
      change (days_before_year 1) with 0 in H. lia.
    - destruct (decide (y <= 9999)) as [|Hgt]; [done|].
      pose proof (days_before_year_mono 10000 y ltac:(lia)) as H.
      change (days_before_year 10000) with 3652059 in H. lia. }
  repeat split; try lia.
  all: unfold toordinal, us_per_day, us_per_second;
    Z.to_euclidean_division_equations; lia.
Qed.

(** The constructor on a date that exists. *)
Lemma new_valid y m d hh mm ss us :
  1 <= y <= 9999 -> 1 <= m <= 12 -> 1 <= d <= days_in_month y m ->
  0 <= hh <= 23 -> 0 <= mm <= 59 -> 0 <= ss <= 59 -> 0 <= us <= 999999 ->
  new y m d hh mm ss us
  = Ok (mkDatetime ((ymd2ord y m d - 1) * us_per_day
                    + ((hh * 60 + mm) * 60 + ss) * us_per_second + us)).
Proof.
  intros Hy Hm Hd Hhh Hmm Hss Hus. unfold new.
  repeat match goal with
         | |- context [(?a <=? ?b) && (?c <=? ?e)] =>
             replace ((a <=? b) && (c <=? e)) with true
               by (symmetry; apply andb_true_iff; split; apply Z.leb_le; lia)
         end.
  done.
Qed.

Lemma days_in_month_bounds y m : 1 <= m <= 12 -> 28 <= days_in_month y m <= 31.
Proof.
  intros Hm. unfold days_in_month.
  destruct ((m =? 2) && is_leap y); [lia|].
  pose proof (PyStrFacts.month_cases m Hm) as Hcases.
  repeat (destruct Hcases as [-> | Hcases]; [by vm_compute|]).
  subst. by vm_compute.
Qed.

(** The years of the time line come one after the other: a datetime is
    in the year [y] or a later one exactly when it is not before the
    first instant of [y]. *)
Lemma year_ge_iff d y :
  in_range (ticks d) = true ->
  y <= year d <-> days_before_year y * us_per_day <= ticks d.
Proof.
  intros Hr. destruct (fields_spec d Hr) as (_ & _ & _ & _ & Hy & Ht).
  split.
  - intros H. pose proof (days_before_year_mono y (year d) H).
    unfold us_per_day, us_per_second in *. nia.
  - intros H. destruct (decide (y <= year d)) as [|Hlt]; [done|].
    pose proof (days_before_year_mono (year d + 1) y ltac:(lia)).
    unfold us_per_day, us_per_second in *. nia.
Qed.

End DatetimeFacts.

(** ** The current period *)

Module CurrentPeriodFacts.
Import Datetime DatetimeFacts.

(** X16: [Period.get_current_period] reads the clock once.  Until the end of 2025
    it returns the period of the year and the month the clock shows;
    from the first instant of 2026 on it raises: the year is refused by
    the constructor's bound. *)
Theorem get_current_period_until_2025 c first :
  Datetime.new 2026 1 1 0 0 0 0 = Ok first ->
  in_range (ticks (reading c)) = true ->
  (ticks (reading c) < ticks first ->
     Period.get_current_period c
     = (Ok (Period.mkPeriod (year (reading c)) (month (reading c))), tick c) /\
     year (reading c) <= 2025) /\
  (ticks first <= ticks (reading c) ->
     Period.get_current_period c
     = (Raise (AssertionError "Year must be 2025 or earlier"), tick c) /\
     2026 <= year (reading c)).
Proof.
  intros Hfirst Hr.
  rewrite new_valid in Hfirst by (try lia; by vm_compute).
  injection Hfirst as <-. cbn [ticks].
  change (ymd2ord 2026 1 1) with 739617.
  change ((739617 - 1) * us_per_day + ((0 * 60 + 0) * 60 + 0) * us_per_second + 0)
    with 63902822400000000.
  destruct (fields_spec _ Hr) as (Hy & Hm & _).
  pose proof (year_ge_iff (reading c) 2026 Hr) as Hiff.
  change (days_before_year 2026) with 739616 in Hiff.
  assert (Hrun : Period.get_current_period c
                 = (Period.new (year (reading c)) (month (reading c)), tick c))
    by reflexivity.
  rewrite Hrun. split.
  - intros Hlt.
    assert (year (reading c) <= 2025).
    { destruct (decide (2026 <= year (reading c))) as [Hge|]; [|lia].
      apply Hiff in Hge.
      change (739616 * us_per_day) with 63902822400000000 in Hge. lia. }
    split; [|done]. by rewrite PeriodFacts.Period_new_valid.
  - intros Hge.
    assert (2026 <= year (reading c)).
    { apply Hiff. by change (739616 * us_per_day) with 63902822400000000. }
    split; [|done].
    unfold Period.new, Period.__post_init__. cbn [Period.month Period.year].
    replace ((1 <=? month (reading c)) && (month (reading c) <=? 12)) with true
      by (symmetry; apply andb_true_iff; split; apply Z.leb_le; lia).
    replace (year (reading c) <=? 2025) with false
      by (symmetry; apply Z.leb_gt; lia).
    reflexivity.
Qed.

Lemma get_current_period_witness :
  let c := mkClock (fun _ => mkDatetime 63929390400000000) 0 in
  Period.get_current_period c
  = (Raise (AssertionError "Year must be 2025 or earlier"), tick c) /\
  2026 <= year (reading c).
Proof.
  intros c.
  apply (proj2 (get_current_period_until_2025 c (mkDatetime 63902822400000000)
                  eq_refl eq_refl)).
  vm_compute. discriminate.
Defined.

End CurrentPeriodFacts.

(** ** [DateRange] *)

Module DateRangeFacts.
Import Datetime DatetimeFacts DateRange.

Lemma DateRange_new_ok s e :
  ticks s < ticks e -> DateRange.new s e = Ok (mkDateRange s e).
Proof.
  intros H. unfold DateRange.new, __post_init__, lt. cbn [start end_].
  by replace (ticks s <? ticks e) with true by (symmetry; apply Z.ltb_lt; lia).
Qed.

Lemma DateRange_new_raises s e :
  ticks e <= ticks s ->
  DateRange.new s e = Raise (AssertionError "Start date must be before the end date").
Proof.
  intros H. unfold DateRange.new, __post_init__, lt. cbn [start end_].
  by replace (ticks s <? ticks e) with false by (symmetry; apply Z.ltb_ge; lia).
Qed.

Lemma DateRange_new_inv s e r :
  DateRange.new s e = Ok r -> r = mkDateRange s e /\ ticks s < ticks e.
Proof.
  unfold DateRange.new, __post_init__, lt. cbn [start end_].
  destruct (ticks s <? ticks e) eqn:E; [|done].
  apply Z.ltb_lt in E. by intros [= <-].
Qed.

(** *** Adding a period *)

Lemma keys_checked (period : gmap string Z) :
  bool_decide (map_Forall (fun key _ => key = "days" \/ key = "weeks") period) = false
  <-> exists key v, period !! key = Some v /\ key <> "days" /\ key <> "weeks".
Proof.
  rewrite bool_decide_eq_false, map_not_Forall by apply _.
  split; intros (k & v & Hk & Hn); exists k, v; (split; [done|]); tauto.
Qed.

(** The whole days of a period: [days] plus seven times [weeks]. *)
Lemma timedelta_of_days (period : gmap string Z) delta :
  timedelta_of period = Ok delta ->
  total_microseconds delta
  = (default 0 (period !! "days") + 7 * default 0 (period !! "weeks")) * us_per_day.
Proof.
  unfold timedelta_of. repeat case_match; try done. by intros [= <-].
Qed.

(** A keyword argument that is neither [days] nor [weeks] is refused,
    whatever the other ones are. *)
Lemma add_period_to_datetime_refuses _from (period : gmap string Z) :
  (exists key v, period !! key = Some v /\ key <> "days" /\ key <> "weeks") ->
  add_period_to_datetime _from period
  = Raise (ValueError "Invalid key: It must be 'days' or 'weeks' ").
Proof.
  intros Hbad%keys_checked. unfold add_period_to_datetime. by rewrite Hbad.
Qed.

(** What [add_period_to_datetime] returns is the datetime moved by the
    whole days of the period. *)
Lemma add_period_to_datetime_sum _from (period : gmap string Z) d :
  add_period_to_datetime _from period = Ok d ->
  ticks d = ticks _from
            + (default 0 (period !! "days") + 7 * default 0 (period !! "weeks"))
              * us_per_day /\
  in_range (ticks d) = true.
Proof.
  unfold add_period_to_datetime. destruct (bool_decide _); [|done].
  destruct (timedelta_of period) as [e|delta] eqn:Hd; [done|]. simpl.
  apply timedelta_of_days in Hd. unfold add. rewrite Hd.
  destruct (in_range _) eqn:Hr; [|done]. by intros [= <-].
Qed.

(** It returns whenever the keys are [days] and [weeks], the number of
    days is one a [timedelta] holds and the sum falls on the time
    line. *)
Lemma add_period_to_datetime_returns _from (period : gmap string Z) :
  let n := default 0 (period !! "days") + 7 * default 0 (period !! "weeks") in
  map_Forall (fun key _ => key = "days" \/ key = "weeks") period ->
  -999999999 <= n <= 999999999 ->
  in_range (ticks _from + n * us_per_day) = true ->
  add_period_to_datetime _from period
  = Ok (mkDatetime (ticks _from + n * us_per_day)).
Proof.
  cbv zeta. intros Hkeys Hn Hr. unfold add_period_to_datetime.
  rewrite bool_decide_eq_true_2 by done.
  unfold timedelta_of.
  set (n := default 0 (period !! "days") + 7 * default 0 (period !! "weeks")) in *.
  replace ((-999999999 <=? n) && (n <=? 999999999)) with true
    by (symmetry; apply andb_true_iff; split; apply Z.leb_le; lia).
  simpl. unfold add. cbn [total_microseconds]. by rewrite Hr.
Qed.

(** The call with the keyword [_from], as the two methods make it. *)
Lemma add_period_to_datetime_from_plain d (period : gmap string Z) :
  period !! "_from" = None ->
  add_period_to_datetime_from d period = add_period_to_datetime d period.
Proof.
  intros H. unfold add_period_to_datetime_from.
  rewrite bool_decide_eq_false_2; [done|]. rewrite H. by intros [? ?].
Qed.

Lemma add_period_to_datetime_from_twice d (period : gmap string Z) :
  is_Some (period !! "_from") ->
  exists msg, add_period_to_datetime_from d period = Raise (TypeError msg).
Proof.
  intros H. unfold add_period_to_datetime_from.
  rewrite bool_decide_eq_true_2 by done. by eexists.
Qed.

Lemma add_period_to_datetime_from_ok d (period : gmap string Z) r :
  add_period_to_datetime_from d period = Ok r ->
  add_period_to_datetime d period = Ok r.
Proof. unfold add_period_to_datetime_from. by case_bool_decide. Qed.

Lemma keys_without_from (period : gmap string Z) :
  map_Forall (fun key _ => key = "days" \/ key = "weeks") period ->
  period !! "_from" = None.
Proof.
  intros H. destruct (period !! "_from") as [v|] eqn:E; [|done].
  by destruct (H _ _ E).
Qed.

(** X17: [add_period_to_datetime] raises [ValueError] exactly when a keyword
    argument is neither [days] nor [weeks], whatever the other ones
    are; otherwise it is the sum of the datetime and the period, which
    exists when it falls on the time line. *)
Theorem add_period_to_datetime_keys _from (period : gmap string Z) :
  (add_period_to_datetime _from period
   = Raise (ValueError "Invalid key: It must be 'days' or 'weeks' ")
   <-> exists key v, period !! key = Some v /\ key <> "days" /\ key <> "weeks") /\
  (forall d,
     add_period_to_datetime _from period = Ok d ->
     ticks d = ticks _from
               + (default 0 (period !! "days") + 7 * default 0 (period !! "weeks"))
                 * us_per_day /\
     in_range (ticks d) = true) /\
  (let n := default 0 (period !! "days") + 7 * default 0 (period !! "weeks") in
   map_Forall (fun key _ => key = "days" \/ key = "weeks") period ->
   -999999999 <= n <= 999999999 ->
   in_range (ticks _from + n * us_per_day) = true ->
   add_period_to_datetime _from period
   = Ok (mkDatetime (ticks _from + n * us_per_day))).
Proof.
  split; [|split].
  - split; [|apply add_period_to_datetime_refuses].
    rewrite <- keys_checked. unfold add_period_to_datetime.
    destruct (bool_decide _); [|done].
    unfold timedelta_of, add. repeat case_match; simpl; try done;
      repeat case_match; done.
  - apply add_period_to_datetime_sum.
  - apply add_period_to_datetime_returns.
Qed.

Lemma add_period_to_datetime_witness :
  add_period_to_datetime (mkDatetime 0) {[ "days" := 1; "hours" := 2 ]}
  = Raise (ValueError "Invalid key: It must be 'days' or 'weeks' ").
Proof.
  apply (proj1 (add_period_to_datetime_keys (mkDatetime 0)
                  {[ "days" := 1; "hours" := 2 ]})).
  exists "hours", 2. repeat split; done.
Defined.

(** *** Extending a range *)

(** X18: [extended] only ever extends.  For a period of whole numbers of
    days and weeks: whenever it returns, the range it returns starts
    where the range started, ends later, and is longer by the days of
    the period; a period of no days or of a negative number of days is
    refused.  A keyword argument other than [days] and [weeks] is
    refused with [ValueError], except the keyword [_from]: the method
    passes [_from] itself, so that the call it makes is refused with
    [TypeError] before any key is looked at. *)
Theorem extended_only_extends self (period : gmap string Z) :
  let n := default 0 (period !! "days") + 7 * default 0 (period !! "weeks") in
  lt (start self) (end_ self) = true ->
  (forall r, extended self period = Ok r ->
     start r = start self /\
     ticks (end_ r) = ticks (end_ self) + n * us_per_day /\
     0 < n /\
     period_range_days r = period_range_days self + n) /\
  (map_Forall (fun key _ => key = "days" \/ key = "weeks") period ->
   -999999999 <= n <= 999999999 ->
   in_range (ticks (end_ self) + n * us_per_day) = true ->
   (0 < n ->
      extended self period
      = Ok (mkDateRange (start self)
              (mkDatetime (ticks (end_ self) + n * us_per_day)))) /\
   (n <= 0 -> exists msg, extended self period = Raise (AssertionError msg))) /\
  ((exists key v, period !! key = Some v /\ key <> "days" /\ key <> "weeks") ->
   period !! "_from" = None ->
   extended self period
   = Raise (ValueError "Invalid key: It must be 'days' or 'weeks' ")) /\
  (is_Some (period !! "_from") ->
   exists msg, extended self period = Raise (TypeError msg)).
Proof.
  intros n Hself%Z.ltb_lt.
  pose proof (add_period_to_datetime_sum (end_ self) period) as Hsum.
  pose proof (add_period_to_datetime_returns (end_ self) period) as Hok.
  cbv zeta in Hok. fold n in Hsum, Hok. unfold extended. split; [|split; [|split]].
  - intros r.
    destruct (add_period_to_datetime_from (end_ self) period) as [e|new_end] eqn:Ha;
      [done|].
    apply add_period_to_datetime_from_ok in Ha.
    destruct (Hsum new_end Ha) as [Ht _]. simpl.
    unfold py_assert, lt.
    destruct (ticks (end_ self) <? ticks new_end) eqn:Hlt; [|done]. simpl.
    apply Z.ltb_lt in Hlt.
    intros (-> & _)%DateRange_new_inv. cbn [start end_].
    assert (0 < n) by (unfold us_per_day, us_per_second in *; lia).
    repeat split; try done.
    unfold period_range_days, days, sub. cbn [start end_ total_microseconds].
    rewrite Ht. unfold us_per_day, us_per_second.
    Z.to_euclidean_division_equations; lia.
  - intros Hk Hn Hr.
    rewrite (add_period_to_datetime_from_plain _ _ (keys_without_from _ Hk)).
    rewrite (Hok Hk Hn Hr). simpl.
    unfold py_assert, lt. cbn [ticks]. split.
    + intros Hpos.
      replace (ticks (end_ self) <? ticks (end_ self) + n * us_per_day) with true
        by (symmetry; apply Z.ltb_lt; unfold us_per_day, us_per_second; lia).
      simpl. apply DateRange_new_ok. cbn [ticks].
      unfold us_per_day, us_per_second. lia.
    + intros Hneg.
      replace (ticks (end_ self) <? ticks (end_ self) + n * us_per_day) with false
        by (symmetry; apply Z.ltb_ge; unfold us_per_day, us_per_second; lia).
      simpl. eauto.
  - intros Hbad Hfrom.
    rewrite (add_period_to_datetime_from_plain _ _ Hfrom).
    by rewrite (add_period_to_datetime_refuses _ _ Hbad).
  - intros Hfrom.
    destruct (add_period_to_datetime_from_twice (end_ self) _ Hfrom) as [msg ->].
    by exists msg.
Qed.

Lemma extended_witness :
  let self := mkDateRange (mkDatetime 0) (mkDatetime 10) in
  extended self {[ "weeks" := 2 ]}
  = Ok (mkDateRange (mkDatetime 0) (mkDatetime (10 + 14 * us_per_day))) /\
  (exists msg, extended self {[ "days" := -7; "weeks" := 1 ]}
               = Raise (AssertionError msg)) /\
  (exists msg, extended self {[ "_from" := 1 ]} = Raise (TypeError msg)).
Proof.
  intros self. split; [|split].
  - destruct (proj1 (proj2 (extended_only_extends self {[ "weeks" := 2 ]} eq_refl)))
      as [H _].
    + intros k v [<- <-]%lookup_singleton_Some. by right.
    + vm_compute. split; discriminate.
    + reflexivity.
    + exact (H eq_refl).
  - destruct (proj1 (proj2 (extended_only_extends self
                              {[ "days" := -7; "weeks" := 1 ]} eq_refl)))
      as [_ H].
    + intros k v Hk. apply lookup_insert_Some in Hk as [[<- _]|[_ Hk]]; [by left|].
      apply lookup_singleton_Some in Hk as [<- _]. by right.
    + vm_compute. split; discriminate.
    + reflexivity.
    + apply H. vm_compute. discriminate.
  - apply (proj2 (proj2 (proj2 (extended_only_extends self {[ "_from" := 1 ]}
                                  eq_refl)))).
    by eexists.
Defined.

(** *** Stopping a range *)

(** X19: [stopped] reads the clock once and puts the end at that reading,
    wherever the end was: it shortens a range that is going on,
    lengthens one that was already over, and raises for one that has
    not started. *)
Theorem stopped_ends_now self c :
  (ticks (start self) < ticks (reading c) ->
     stopped self c = (Ok (mkDateRange (start self) (reading c)), tick c) /\
     (ticks (end_ self) < ticks (reading c) ->
        period_range_days self
        <= period_range_days (mkDateRange (start self) (reading c)))) /\
  (ticks (reading c) <= ticks (start self) ->
     stopped self c
     = (Raise (AssertionError "Start date must be before the end date"), tick c)) /\
  (forall e, stopped (mkDateRange (start self) e) c = stopped self c).
Proof.
  assert (Hrun : forall r, stopped r c = (DateRange.new (start r) (reading c), tick c))
    by reflexivity.
  rewrite !Hrun. split; [|split].
  - intros Hlt. rewrite (DateRange_new_ok _ _ Hlt). split; [done|].
    intros Hend. unfold period_range_days, days, sub.
    cbn [start end_ total_microseconds].
    apply Z.div_le_mono; [done|lia].
  - intros Hge. by rewrite (DateRange_new_raises _ _ Hge).
  - intros e. by rewrite Hrun.
Qed.

Lemma stopped_witness :
  let self := mkDateRange (mkDatetime 0) (mkDatetime 10) in
  let c := mkClock (fun _ => mkDatetime (3 * us_per_day)) 0 in
  stopped self c = (Ok (mkDateRange (mkDatetime 0) (mkDatetime (3 * us_per_day))), tick c) /\
  period_range_days self <= period_range_days (mkDateRange (mkDatetime 0) (mkDatetime (3 * us_per_day))).
Proof.
  intros self c.
  destruct (proj1 (stopped_ends_now self c)) as [H1 H2].
  - reflexivity.
  - split; [exact H1|]. apply H2. reflexivity.
Defined.

(** *** Days left and days to the start *)

(** X20: [relative_date_days_left] looks at the clock first: when the range
    is over it answers 0 whatever the date; otherwise the date has to
    be before the end, or building the range from the date to the end
    raises.  [days_left] takes the date from a first reading of the
    clock and decides whether the range is over on a second one: it
    never returns a negative number, and it raises when the first
    reading is not before the end and the second is not after it, which
    for a clock that does not go back is the very instant of the end. *)
Theorem days_left_never_negative self c :
  let t1 := reading c in
  let t2 := reading (tick c) in
  (forall date,
     (ticks (end_ self) < ticks t1 ->
        relative_date_days_left self date c = (Ok 0, tick c)) /\
     (ticks t1 <= ticks (end_ self) -> ticks (end_ self) <= ticks date ->
        relative_date_days_left self date c
        = (Raise (AssertionError "Start date must be before the end date"), tick c)) /\
     (ticks t1 <= ticks (end_ self) -> ticks date < ticks (end_ self) ->
        relative_date_days_left self date c
        = (Ok ((ticks (end_ self) - ticks date) / us_per_day), tick c))) /\
  (forall n c', days_left self c = (Ok n, c') -> 0 <= n /\ c' = tick (tick c)) /\
  (forall e c', days_left self c = (Raise e, c') ->
     ticks t2 <= ticks (end_ self) <= ticks t1 /\
     (ticks t1 <= ticks t2 -> ticks t1 = ticks (end_ self))).
Proof.
  intros t1 t2.
  assert (Hrel : forall date c0,
            relative_date_days_left self date c0
            = (if negb (lt (end_ self) (reading c0))
               then match DateRange.new date (end_ self) with
                    | inr r => Ok (period_range_days r)
                    | inl e => Raise e
                    end
               else Ok 0, tick c0)).
  { intros date c0. unfold relative_date_days_left, finished, bind, now, ret, lift.
    fold (reading c0). fold (tick c0). cbn [Ok].
    destruct (negb (lt (end_ self) (reading c0))); [|done].
    by destruct (DateRange.new date (end_ self)). }
  assert (Hdl : days_left self c = relative_date_days_left self t1 (tick c))
    by reflexivity.
  split; [|split].
  - intros date. rewrite Hrel. unfold lt. fold t1. repeat split.
    + intros H. by replace (ticks (end_ self) <? ticks t1) with true
        by (symmetry; apply Z.ltb_lt; lia).
    + intros H1 H2.
      replace (ticks (end_ self) <? ticks t1) with false
        by (symmetry; apply Z.ltb_ge; lia).
      by rewrite (DateRange_new_raises _ _ H2).
    + intros H1 H2.
      replace (ticks (end_ self) <? ticks t1) with false
        by (symmetry; apply Z.ltb_ge; lia).
      by rewrite (DateRange_new_ok _ _ H2).
  - intros n c'. rewrite Hdl, Hrel. fold t2. unfold lt.
    destruct (ticks (end_ self) <? ticks t2) eqn:Hf; simpl.
    { intros [= <- <-]. done. }
    destruct (DateRange.new t1 (end_ self)) as [e|r] eqn:Hnew; [done|].
    apply DateRange_new_inv in Hnew as [-> Hlt].
    intros [= <- <-]. split; [|done].
    unfold period_range_days, days, sub. cbn [start end_ total_microseconds].
    apply Z.div_pos; [lia|done].
  - intros e c'. rewrite Hdl, Hrel. fold t2. unfold lt.
    destruct (ticks (end_ self) <? ticks t2) eqn:Hf; simpl; [done|].
    apply Z.ltb_ge in Hf.
    destruct (decide (ticks t1 < ticks (end_ self))) as [Hlt|Hge].
    { by rewrite (DateRange_new_ok _ _ Hlt). }
    intros _. lia.
Qed.

Lemma days_left_witness :
  let self := mkDateRange (mkDatetime 0) (mkDatetime (5 * us_per_day)) in
  let c := mkClock (fun k => mkDatetime (Z.of_nat k + us_per_day + 1)) 0 in
  days_left self c = (Ok 3, tick (tick c)) /\
  (0 <= 3 /\ tick (tick c) = tick (tick c)).
Proof.
  intros self c.
  assert (H : days_left self c = (Ok 3, tick (tick c))) by (vm_compute; reflexivity).
  split; [exact H|].
  exact (proj1 (proj2 (days_left_never_negative self c)) 3 (tick (tick c)) H).
Defined.

(** X21: [days_to_start] is the whole days from the reading of the clock to
    the start, rounded towards the past: it is negative as soon as the
    start is behind, be it by a microsecond, and 0 during the last day
    before the start. *)
Theorem days_to_start_rounds_down self c :
  exists n,
    days_to_start self c = (Ok n, tick c) /\
    n * us_per_day <= ticks (start self) - ticks (reading c) < (n + 1) * us_per_day /\
    (n < 0 <-> ticks (start self) < ticks (reading c)) /\
    (already_started self c = (Ok true, tick c) <-> n < 0).
Proof.
  exists ((ticks (start self) - ticks (reading c)) / us_per_day).
  split.
  { unfold days_to_start, bind, now, ret, days, sub. fold (reading c). fold (tick c).
    cbn [Ok total_microseconds]. by destruct (_ =? 0) eqn:E; [apply Z.eqb_eq in E as ->|]. }
  assert (Hs : already_started self c
               = (Ok (ticks (start self) <? ticks (reading c)), tick c)) by reflexivity.
  rewrite Hs. unfold us_per_day, us_per_second.
  repeat split; try (Z.to_euclidean_division_equations; lia).
  - intros [= H%Z.ltb_lt]. Z.to_euclidean_division_equations; lia.
  - intros H. do 2 f_equal. apply Z.ltb_lt.
    Z.to_euclidean_division_equations; lia.
Qed.

(** *** Ranges that start now *)

(** X22: [from_now_to] reads the clock twice: the end is counted from the
    first reading, the start is the second.  The range it returns is
    therefore shorter than the period by the time between the two
    readings: as soon as the clock has moved (by no more than a day), a
    period of [n] days gives a range of [n - 1] whole days.  A period
    of no days, or of a negative number of days, is refused once the
    clock does not go back.  All this for a period of whole numbers of
    days and weeks; a keyword argument other than [days] and [weeks]
    is refused after the first reading, with [ValueError], or, when it
    is [_from], the keyword the method passes itself, with
    [TypeError]. *)
Theorem from_now_to_is_short_of_the_period (period : gmap string Z) c :
  let t1 := reading c in
  let t2 := reading (tick c) in
  let n := default 0 (period !! "days") + 7 * default 0 (period !! "weeks") in
  (forall r c', from_now_to period c = (Ok r, c') ->
     c' = tick (tick c) /\
     start r = t2 /\ ticks (end_ r) = ticks t1 + n * us_per_day /\
     (ticks t1 < ticks t2 <= ticks t1 + us_per_day -> period_range_days r = n - 1) /\
     (ticks t1 = ticks t2 -> period_range_days r = n)) /\
  (map_Forall (fun key _ => key = "days" \/ key = "weeks") period ->
   -999999999 <= n <= 999999999 ->
   in_range (ticks t1 + n * us_per_day) = true ->
   (ticks t2 < ticks t1 + n * us_per_day ->
      from_now_to period c
      = (Ok (mkDateRange t2 (mkDatetime (ticks t1 + n * us_per_day))),
         tick (tick c))) /\
   (n <= 0 -> ticks t1 <= ticks t2 ->
      from_now_to period c
      = (Raise (AssertionError "Start date must be before the end date"),
         tick (tick c)))) /\
  ((exists key v, period !! key = Some v /\ key <> "days" /\ key <> "weeks") ->
   period !! "_from" = None ->
   from_now_to period c
   = (Raise (ValueError "Invalid key: It must be 'days' or 'weeks' "), tick c)) /\
  (is_Some (period !! "_from") ->
   exists msg, from_now_to period c = (Raise (TypeError msg), tick c)).
Proof.
  intros t1 t2 n.
  assert (Hrun : from_now_to period c
                 = match add_period_to_datetime_from t1 period with
                   | inr e => (DateRange.new t2 e, tick (tick c))
                   | inl e => (Raise e, tick c)
                   end).
  { unfold from_now_to, create_range_starting_now, bind, now, lift.
    fold (reading c). fold (tick c). fold t1. cbn [Ok].
    destruct (add_period_to_datetime_from t1 period); [done|].
    fold (reading (tick c)). fold t2. done. }
  pose proof (add_period_to_datetime_sum t1 period) as Hsum.
  pose proof (add_period_to_datetime_returns t1 period) as Hok.
  cbv zeta in Hok. fold n in Hsum, Hok. split; [|split; [|split]].
  - intros r c'. rewrite Hrun.
    destruct (add_period_to_datetime_from t1 period) as [e|e0] eqn:Ha; [done|].
    apply add_period_to_datetime_from_ok in Ha.
    destruct (Hsum e0 Ha) as [Ht _].
    destruct (DateRange.new t2 e0) as [e|r0] eqn:Hnew; [done|].
    apply DateRange_new_inv in Hnew as [-> Hlt].
    intros [= <- <-]. cbn [start end_]. repeat split; try done.
    + intros Hmove. unfold period_range_days, days, sub.
      cbn [start end_ total_microseconds]. rewrite Ht.
      unfold us_per_day, us_per_second in *. Z.to_euclidean_division_equations; lia.
    + intros Hsame. unfold period_range_days, days, sub.
      cbn [start end_ total_microseconds]. rewrite Ht, Hsame.
      unfold us_per_day, us_per_second in *. Z.to_euclidean_division_equations; lia.
  - intros Hk Hn Hr.
    assert (E : from_now_to period c
                = (DateRange.new t2 (mkDatetime (ticks t1 + n * us_per_day)),
                   tick (tick c))).
    { by rewrite Hrun, (add_period_to_datetime_from_plain _ _ (keys_without_from _ Hk)),
        (Hok Hk Hn Hr). }
    rewrite E. split.
    + intros Hlt. by rewrite DateRange_new_ok.
    + intros Hneg Hmono. rewrite DateRange_new_raises; [done|]. cbn [ticks].
      unfold us_per_day, us_per_second. lia.
  - intros Hbad Hfrom.
    by rewrite Hrun, (add_period_to_datetime_from_plain _ _ Hfrom),
      (add_period_to_datetime_refuses _ _ Hbad).
  - intros Hfrom. rewrite Hrun.
    destruct (add_period_to_datetime_from_twice t1 _ Hfrom) as [msg ->].
    by exists msg.
Qed.

Lemma from_now_to_witness :
  let c := mkClock (fun k => mkDatetime (Z.of_nat k)) 0 in
  from_now_to {[ "days" := 30 ]} c
  = (Ok (mkDateRange (mkDatetime 1) (mkDatetime (30 * us_per_day))), tick (tick c)) /\
  period_range_days (mkDateRange (mkDatetime 1) (mkDatetime (30 * us_per_day))) = 29.
Proof.
  intros c.
  assert (H : from_now_to {[ "days" := 30 ]} c
              = (Ok (mkDateRange (mkDatetime 1) (mkDatetime (30 * us_per_day))),
                 tick (tick c))).
  { destruct (proj1 (proj2 (from_now_to_is_short_of_the_period {[ "days" := 30 ]} c)))
      as [H _].
    - intros k v [<- <-]%lookup_singleton_Some. by left.
    - vm_compute. split; discriminate.
    - reflexivity.
    - exact (H eq_refl). }
  split; [exact H|].
  apply (proj1 (from_now_to_is_short_of_the_period {[ "days" := 30 ]} c) _ _ H).
  vm_compute. split; [reflexivity|discriminate].
Defined.

(** *** The current month *)

Lemma current_period_unfold c :
  current_period c
  = (match Datetime.new (year (reading c)) (month (reading c)) 1 0 0 0 0 with
     | inl e => Raise e
     | inr s =>
         match Datetime.new (year (reading c)) (month (reading c))
                 (days_in_month (year (reading c)) (month (reading c)))
                 23 59 59 999999 with
         | inl e => Raise e
         | inr e => DateRange.new s e
         end
     end, tick c).
Proof.
  unfold current_period, bind, now, lift. fold (reading c). fold (tick c).
  cbv beta iota delta [Ok].
  destruct (Datetime.new _ _ 1 0 0 0 0); [done|].
  by destruct (Datetime.new _ _ _ 23 59 59 999999).
Qed.

(** X23: [current_period] never raises: whatever the clock shows, it returns
    the range from the first instant to the last microsecond of the
    month of the reading.  The reading lies in it, and its whole days
    are the days of the month less one. *)
Theorem current_period_is_the_month c :
  in_range (ticks (reading c)) = true ->
  exists r,
    current_period c = (Ok r, tick c) /\
    ticks (start r) <= ticks (reading c) <= ticks (end_ r) /\
    Datetime.new (year (reading c)) (month (reading c)) 1 0 0 0 0 = Ok (start r) /\
    ticks (end_ r) - ticks (start r)
    = days_in_month (year (reading c)) (month (reading c)) * us_per_day - 1 /\
    period_range_days r = days_in_month (year (reading c)) (month (reading c)) - 1.
Proof.
  intros Hr.
  rewrite current_period_unfold.
  destruct (fields_spec (reading c) Hr) as (Hy & Hm & Hd & Hymd & _ & Ht).
  rewrite <- Hymd in Ht. clear Hymd.
  pose proof (days_in_month_bounds (year (reading c)) (month (reading c)) Hm) as Hdim.
  revert Hy Hm Hd Ht Hdim.
  generalize (year (reading c)) (month (reading c)) (day (reading c))
    (ticks (reading c)).
  intros y m d t Hy Hm Hd Ht Hdim.
  rewrite (new_valid y m 1 0 0 0 0) by lia.
  rewrite (new_valid y m (days_in_month y m) 23 59 59 999999) by lia.
  cbv beta iota delta [Ok].
  rewrite DateRange_new_ok
    by (cbn [ticks]; unfold ymd2ord, us_per_day, us_per_second; lia).
  eexists. split; [reflexivity|]. cbn [start end_ ticks].
  unfold period_range_days, days, sub. cbn [start end_ ticks total_microseconds].
  unfold ymd2ord, us_per_day, us_per_second in *.
  repeat split; try lia.
  Z.to_euclidean_division_equations; lia.
Qed.

Lemma current_period_witness :
  let c := mkClock (fun _ => mkDatetime 63929390400000000) 0 in
  exists r,
    current_period c = (Ok r, tick c) /\
    ticks (start r) <= ticks (reading c) <= ticks (end_ r) /\
    Datetime.new (year (reading c)) (month (reading c)) 1 0 0 0 0 = Ok (start r) /\
    ticks (end_ r) - ticks (start r)
    = days_in_month (year (reading c)) (month (reading c)) * us_per_day - 1 /\
    period_range_days r = days_in_month (year (reading c)) (month (reading c)) - 1.
Proof.
  intros c. apply (current_period_is_the_month c). reflexivity.
Defined.

(** *** The invariant *)

(** X24: every range that is built has its start before its end, and so a
    number of whole days that is not negative: the ranges of the
    constructor, of [create_range_starting_now], [from_now_to],
    [current_period] and [stopped], and of [extended]. *)
Theorem DateRange_start_before_end :
  (forall s e r, DateRange.new s e = Ok r ->
     lt (start r) (end_ r) = true /\ 0 <= period_range_days r) /\
  (forall e (period : gmap string Z) self c r c',
     create_range_starting_now e c = (Ok r, c') \/
     from_now_to period c = (Ok r, c') \/
     current_period c = (Ok r, c') \/
     stopped self c = (Ok r, c') \/
     extended self period = Ok r ->
     lt (start r) (end_ r) = true /\ 0 <= period_range_days r).
Proof.
  assert (Hnew : forall s e r, DateRange.new s e = Ok r ->
            lt (start r) (end_ r) = true /\ 0 <= period_range_days r).
  { intros s e r [-> Hlt]%DateRange_new_inv. cbn [start end_]. split.
    - by apply Z.ltb_lt.
    - unfold period_range_days, days, sub. cbn [start end_ total_microseconds].
      apply Z.div_pos; [lia|done]. }
  split; [exact Hnew|].
  intros e period self c r c' H.
  assert (Hlift : forall x (c1 c2 : clock), (x, c1) = (Ok r, c2) -> x = Ok r)
    by (by intros x c1 c2 [= -> _]).
  destruct H as [H|[H|[H|[H|H]]]].
  - unfold create_range_starting_now, bind, now, lift in H. cbn [Ok] in H.
    apply Hlift in H. by apply Hnew in H.
  - unfold from_now_to, create_range_starting_now, bind, now, lift in H.
    cbn [Ok] in H.
    destruct (add_period_to_datetime_from _ period) as [?|d]; [done|].
    apply Hlift in H. by apply Hnew in H.
  - unfold current_period, bind, now, lift in H. cbn [Ok] in H.
    destruct (Datetime.new _ _ 1 0 0 0 0) as [?|d1]; [done|].
    destruct (Datetime.new _ _ _ 23 59 59 999999) as [?|d2]; [done|].
    apply Hlift in H. by apply Hnew in H.
  - unfold stopped, bind, now, lift in H. cbn [Ok] in H.
    apply Hlift in H. by apply Hnew in H.
  - unfold extended in H.
    destruct (add_period_to_datetime_from _ period) as [?|d]; [done|]. simpl in H.
    destruct (py_assert _ _) as [?|[]]; [done|]. simpl in H.
    by apply Hnew in H.
Qed.

Lemma DateRange_start_before_end_witness :
  lt (mkDatetime 3) (mkDatetime 8) = true /\
  0 <= period_range_days (mkDateRange (mkDatetime 3) (mkDatetime 8)).
Proof.
  apply (proj1 DateRange_start_before_end (mkDatetime 3) (mkDatetime 8)
           (mkDateRange (mkDatetime 3) (mkDatetime 8))).
  reflexivity.
Defined.

End DateRangeFacts.

(** ** [PartnerPerformance] *)

Module PerformanceFacts.
Import Datetime Performance MoneyOrderFacts.

(** *** What each method does to the state *)

Lemma register_close_run amount p c :
  register_close amount (p, c)
  = match Money.__add__ (revenue_generated p) amount with
    | inr sum =>
        (Ok tt, (mkPerformance (period p) (operations_closed p + 1)
                   (properties_captured p) sum (reading c), tick c))
    | inl e =>
        (Raise e, (mkPerformance (period p) (operations_closed p + 1)
                     (properties_captured p) (revenue_generated p)
                     (last_updated p), c))
    end.
Proof.
  unfold register_close, bind, get, set_operations_closed, lift. simpl.
  by destruct (Money.__add__ (revenue_generated p) amount).
Qed.

Lemma register_capture_run amount p c :
  register_capture amount (p, c)
  = match Money.__add__ (revenue_generated p) amount with
    | inr sum =>
        (Ok tt, (mkPerformance (period p) (operations_closed p)
                   (properties_captured p + 1) sum (reading c), tick c))
    | inl e =>
        (Raise e, (mkPerformance (period p) (operations_closed p)
                     (properties_captured p + 1) (revenue_generated p)
                     (last_updated p), c))
    end.
Proof.
  unfold register_capture, bind, get, set_properties_captured, lift. simpl.
  by destruct (Money.__add__ (revenue_generated p) amount).
Qed.

Lemma remove_close_run amount p c :
  remove_close amount (p, c)
  = if 0 <? operations_closed p then
      match Money.__sub__ (revenue_generated p) amount with
      | inr difference =>
          (Ok tt, (mkPerformance (period p) (operations_closed p - 1)
                     (properties_captured p) difference (reading c), tick c))
      | inl e =>
          (Raise e, (mkPerformance (period p) (operations_closed p - 1)
                       (properties_captured p) (revenue_generated p)
                       (last_updated p), c))
      end
    else (Raise (AssertionError "There is no closed achievement to remove"), (p, c)).
Proof.
  unfold remove_close, bind, get, set_operations_closed, lift, py_assert. simpl.
  destruct (0 <? operations_closed p); [|done]. simpl.
  by destruct (Money.__sub__ (revenue_generated p) amount).
Qed.

Lemma remove_capture_run amount p c :
  remove_capture amount (p, c)
  = if 0 <? properties_captured p then
      match Money.__sub__ (revenue_generated p) amount with
      | inr difference =>
          (Ok tt, (mkPerformance (period p) (operations_closed p)
                     (properties_captured p - 1) difference (reading c), tick c))
      | inl e =>
          (Raise e, (mkPerformance (period p) (operations_closed p)
                       (properties_captured p - 1) (revenue_generated p)
                       (last_updated p), c))
      end
    else (Raise (AssertionError "There is no capture achievement to remove"), (p, c)).
Proof.
  unfold remove_capture, bind, get, set_properties_captured, lift, py_assert. simpl.
  destruct (0 <? properties_captured p); [|done]. simpl.
  by destruct (Money.__sub__ (revenue_generated p) amount).
Qed.

Lemma add_revenue_generated_run amount p c :
  add_revenue_generated amount (p, c)
  = match Money.__add__ (revenue_generated p) amount with
    | inr sum =>
        (Ok tt, (mkPerformance (period p) (operations_closed p)
                   (properties_captured p) sum (reading c), tick c))
    | inl e => (Raise e, (p, c))
    end.
Proof.
  unfold add_revenue_generated, bind, get, lift. simpl.
  by destruct (Money.__add__ (revenue_generated p) amount).
Qed.

Lemma substract_revenue_generated_run amount p c :
  substract_revenue_generated amount (p, c)
  = if Money.__gt__ (revenue_generated p) amount then
      match Money.__sub__ (revenue_generated p) amount with
      | inr difference =>
          (Ok tt, (mkPerformance (period p) (operations_closed p)
                     (properties_captured p) difference (reading c), tick c))
      | inl e => (Raise e, (p, c))
      end
    else (Raise (AssertionError
                   "Amount to substract must be greather than revenue generated"),
          (p, c)).
Proof.
  unfold substract_revenue_generated, bind, get, lift, py_assert. simpl.
  destruct (Money.__gt__ (revenue_generated p) amount); [|done]. simpl.
  by destruct (Money.__sub__ (revenue_generated p) amount).
Qed.

(** *** Removing a close *)

(** X25: [remove_close] and [remove_capture] are not all or nothing.
    With nothing registered they raise and leave the performance as it
    was.  With something registered, the count is taken down first and
    the revenue second: when the amount cannot be subtracted from the
    revenue (the difference would be below zero), they raise with the
    count already taken down, the revenue and [last_updated] as they
    were and the clock not read. *)
Theorem removing_takes_the_count_down_first amount p c :
  (operations_closed p <= 0 ->
     remove_close amount (p, c)
     = (Raise (AssertionError "There is no closed achievement to remove"), (p, c))) /\
  (properties_captured p <= 0 ->
     remove_capture amount (p, c)
     = (Raise (AssertionError "There is no capture achievement to remove"), (p, c))) /\
  (forall e, Money.__sub__ (revenue_generated p) amount = Raise e ->
     (0 < operations_closed p ->
        remove_close amount (p, c)
        = (Raise e,
           (mkPerformance (period p) (operations_closed p - 1)
              (properties_captured p) (revenue_generated p) (last_updated p), c))) /\
     (0 < properties_captured p ->
        remove_capture amount (p, c)
        = (Raise e,
           (mkPerformance (period p) (operations_closed p)
              (properties_captured p - 1) (revenue_generated p) (last_updated p),
            c)))) /\
  ((Money.amount (revenue_generated p) - Money.amount amount <? 0)%float = true ->
     Money.__sub__ (revenue_generated p) amount
     = Raise (AssertionError "Amount must be greather than 0")) /\
  (forall difference, Money.__sub__ (revenue_generated p) amount = Ok difference ->
     (0 < operations_closed p ->
        remove_close amount (p, c)
        = (Ok tt,
           (mkPerformance (period p) (operations_closed p - 1)
              (properties_captured p) difference (reading c), tick c))) /\
     (0 < properties_captured p ->
        remove_capture amount (p, c)
        = (Ok tt,
           (mkPerformance (period p) (operations_closed p)
              (properties_captured p - 1) difference (reading c), tick c)))).
Proof.
  rewrite !remove_close_run, !remove_capture_run.
  split; [|split; [|split; [|split]]].
  - intros H. by replace (0 <? operations_closed p) with false
      by (symmetry; apply Z.ltb_ge; lia).
  - intros H. by replace (0 <? properties_captured p) with false
      by (symmetry; apply Z.ltb_ge; lia).
  - intros e He. rewrite He. split; intros H.
    + by replace (0 <? operations_closed p) with true
        by (symmetry; apply Z.ltb_lt; lia).
    + by replace (0 <? properties_captured p) with true
        by (symmetry; apply Z.ltb_lt; lia).
  - intros Hneg. unfold Money.__sub__.
    by rewrite (MoneyFacts.Money_new_negative _ _ Hneg).
  - intros d Hd. rewrite Hd. split; intros H.
    + by replace (0 <? operations_closed p) with true
        by (symmetry; apply Z.ltb_lt; lia).
    + by replace (0 <? properties_captured p) with true
        by (symmetry; apply Z.ltb_lt; lia).
Qed.

Lemma removing_witness :
  let p := mkPerformance (Period.mkPeriod 2024 3) 2 0 (Money.mkMoney 5 Money.ARS)
             (mkDatetime 0) in
  let c := mkClock (fun _ => mkDatetime 7) 0 in
  remove_close (Money.mkMoney 10 Money.ARS) (p, c)
  = (Raise (AssertionError "Amount must be greather than 0"),
     (mkPerformance (Period.mkPeriod 2024 3) 1 0 (Money.mkMoney 5 Money.ARS)
        (mkDatetime 0), c)).
Proof.
  intros p c.
  apply (proj1 (proj1 (proj2 (proj2
    (removing_takes_the_count_down_first (Money.mkMoney 10 Money.ARS) p c)))
    (AssertionError "Amount must be greather than 0") eq_refl)).
  reflexivity.
Defined.

(** *** Registering *)

(** X26: on a performance whose revenue is at or above zero, registering a
    close, a capture or a revenue of an amount at or above zero never
    raises: the count concerned goes up by one, the revenue becomes the
    sum, in the currency it had (the currency of the amount is not
    looked at), and [last_updated] is the reading of the clock. *)
Theorem registering_never_raises amount p c :
  (0 <=? Money.amount (revenue_generated p))%float = true ->
  (0 <=? Money.amount amount)%float = true ->
  let sum := Money.mkMoney (Money.amount (revenue_generated p) + Money.amount amount)
               (Money.currency (revenue_generated p)) in
  register_close amount (p, c)
  = (Ok tt, (mkPerformance (period p) (operations_closed p + 1)
               (properties_captured p) sum (reading c), tick c)) /\
  register_capture amount (p, c)
  = (Ok tt, (mkPerformance (period p) (operations_closed p)
               (properties_captured p + 1) sum (reading c), tick c)) /\
  add_revenue_generated amount (p, c)
  = (Ok tt, (mkPerformance (period p) (operations_closed p)
               (properties_captured p) sum (reading c), tick c)).
Proof.
  intros Hp Ha sum.
  rewrite register_close_run, register_capture_run, add_revenue_generated_run.
  unfold Money.__add__.
  by rewrite (MoneyFacts.Money_new_ok _ _ (add_nonneg _ _ Hp Ha)).
Qed.

Lemma registering_never_raises_witness :
  let p := mkPerformance (Period.mkPeriod 2024 3) 0 0 (Money.mkMoney 0 Money.ARS)
             (mkDatetime 0) in
  let c := mkClock (fun _ => mkDatetime 7) 0 in
  register_close (Money.mkMoney 2.5 Money.USD) (p, c)
  = (Ok tt, (mkPerformance (Period.mkPeriod 2024 3) 1 0 (Money.mkMoney 2.5 Money.ARS)
               (mkDatetime 7), tick c)).
Proof.
  intros p c.
  apply (proj1 (registering_never_raises (Money.mkMoney 2.5 Money.USD) p c
                  eq_refl eq_refl)).
Defined.

(** *** Subtracting revenue *)

(** X27: [substract_revenue_generated] asks for an amount strictly below the
    revenue: the revenue itself, or any amount equal to it, is refused,
    so the revenue is never brought to zero this way.  Unlike
    [remove_close] it changes nothing when it raises. *)
Theorem substract_revenue_generated_is_strict amount p c :
  (Money.__gt__ (revenue_generated p) amount = false ->
     substract_revenue_generated amount (p, c)
     = (Raise (AssertionError
          "Amount to substract must be greather than revenue generated"), (p, c))) /\
  ((Money.amount amount =? Money.amount (revenue_generated p))%float = true ->
     substract_revenue_generated amount (p, c)
     = (Raise (AssertionError
          "Amount to substract must be greather than revenue generated"), (p, c))) /\
  substract_revenue_generated (revenue_generated p) (p, c)
  = (Raise (AssertionError
       "Amount to substract must be greather than revenue generated"), (p, c)) /\
  (forall e s, substract_revenue_generated amount (p, c) = (Raise e, s) -> s = (p, c)).
Proof.
  rewrite !substract_revenue_generated_run. unfold Money.__gt__.
  split; [|split; [|split]].
  - by intros ->.
  - intros H. by rewrite (proj1 (eqb_not_ltb _ _ H)).
  - by rewrite ltb_irrefl.
  - intros e s. destruct (_ <? _)%float; [|by intros [= _ <-]].
    destruct (Money.__sub__ _ _); [by intros [= _ <-]|done].
Qed.

Lemma substract_revenue_generated_witness :
  let p := mkPerformance (Period.mkPeriod 2024 3) 1 0 (Money.mkMoney 5 Money.ARS)
             (mkDatetime 0) in
  let c := mkClock (fun _ => mkDatetime 7) 0 in
  substract_revenue_generated (Money.mkMoney 5 Money.USD) (p, c)
  = (Raise (AssertionError
       "Amount to substract must be greather than revenue generated"), (p, c)).
Proof.
  intros p c.
  apply (proj1 (proj2 (substract_revenue_generated_is_strict
                         (Money.mkMoney 5 Money.USD) p c))).
  reflexivity.
Defined.

(** *** What holds after any calls *)

Lemma closes_cons call calls :
  closes (call :: calls) = (if is_register_close call then 1 else 0) + closes calls.
Proof.
  unfold closes. rewrite filter_cons.
  destruct (is_register_close call) eqn:E.
  - rewrite decide_True by done. simpl length. lia.
  - rewrite decide_False by done. lia.
Qed.

Lemma captures_cons call calls :
  captures (call :: calls)
  = (if is_register_capture call then 1 else 0) + captures calls.
Proof.
  unfold captures. rewrite filter_cons.
  destruct (is_register_capture call) eqn:E.
  - rewrite decide_True by done. simpl length. lia.
  - rewrite decide_False by done. lia.
Qed.

(** One call, whatever its outcome: the counts stay at or above zero
    and go up by one at most, and only for the call that registers;
    the revenue stays at or above zero and in its currency; the period
    stays. *)
Lemma perform_keeps call p c :
  0 <= operations_closed p -> 0 <= properties_captured p ->
  (0 <=? Money.amount (revenue_generated p))%float = true ->
  let p' := (perform call (p, c)).2.1 in
  0 <= operations_closed p'
       <= operations_closed p + (if is_register_close call then 1 else 0) /\
  0 <= properties_captured p'
       <= properties_captured p + (if is_register_capture call then 1 else 0) /\
  (0 <=? Money.amount (revenue_generated p'))%float = true /\
  Money.currency (revenue_generated p') = Money.currency (revenue_generated p) /\
  period p' = period p.
Proof.
  intros Hoc Hpc Hrev.
  assert (Hmoney : forall a k m, Money.new a k = Ok m ->
            (0 <=? Money.amount m)%float = true /\ Money.currency m = k).
  { by intros a k m [-> Ha]%Money_new_checked. }
  destruct call as [a|a|a|a|a|a]; cbn [perform is_register_close is_register_capture];
    rewrite ?register_close_run, ?register_capture_run, ?remove_close_run,
      ?remove_capture_run, ?add_revenue_generated_run,
      ?substract_revenue_generated_run;
    unfold Money.__add__, Money.__sub__;
    try (destruct (0 <? operations_closed p) eqn:Hn1;
         [apply Z.ltb_lt in Hn1|]);
    try (destruct (0 <? properties_captured p) eqn:Hn2;
         [apply Z.ltb_lt in Hn2|]);
    try destruct (Money.__gt__ (revenue_generated p) a);
    try (destruct (Money.new _ _) as [e|m] eqn:Hm;
         [|apply Hmoney in Hm as [Hm1 Hm2]]);
    cbn [fst snd operations_closed properties_captured revenue_generated period];
    repeat split; try done; lia.
Qed.

(** X28: whatever calls are made on a performance, in whatever order and
    whether they return or raise, the two counts never go below zero
    and never exceed the number of registrations made, the revenue is
    never negative and keeps its currency, and the period stays. *)
Theorem performance_invariants calls : forall p c,
  0 <= operations_closed p -> 0 <= properties_captured p ->
  (0 <=? Money.amount (revenue_generated p))%float = true ->
  let p' := (perform_all calls (p, c)).1 in
  0 <= operations_closed p' <= operations_closed p + closes calls /\
  0 <= properties_captured p' <= properties_captured p + captures calls /\
  (0 <=? Money.amount (revenue_generated p'))%float = true /\
  Money.currency (revenue_generated p') = Money.currency (revenue_generated p) /\
  period p' = period p.
Proof.
  induction calls as [|call calls IH]; intros p c Hoc Hpc Hrev.
  - cbn. unfold closes, captures. cbn. repeat split; try done; lia.
  - cbv zeta.
    change (perform_all (call :: calls) (p, c))
      with (perform_all calls (perform call (p, c)).2).
    destruct (perform_keeps call p c Hoc Hpc Hrev) as (H1 & H2 & H3 & H4 & H5).
    destruct (perform call (p, c)) as [r [p1 c1]]. cbn [fst snd] in *.
    destruct (IH p1 c1 (proj1 H1) (proj1 H2) H3) as (I1 & I2 & I3 & I4 & I5).
    rewrite closes_cons, captures_cons.
    repeat split; try lia; congruence.
Qed.

(** The performance the constructor builds: no close, no capture, no
    revenue, updated at the reading of the clock. *)
Lemma Performance_new_run period c :
  Performance.new period c
  = (Ok (mkPerformance period 0 0 (Money.mkMoney 0 Money.ARS) (reading c)), tick c).
Proof. reflexivity. Qed.

Lemma performance_invariants_witness :
  let c := mkClock (fun k => mkDatetime (Z.of_nat k)) 0 in
  let p := mkPerformance (Period.mkPeriod 2024 3) 0 0 (Money.mkMoney 0 Money.ARS)
             (reading c) in
  let p' := (perform_all [RemoveClose (Money.mkMoney 1 Money.ARS);
                          RegisterClose (Money.mkMoney 5 Money.USD);
                          RemoveClose (Money.mkMoney 10 Money.ARS)] (p, tick c)).1 in
  Performance.new (Period.mkPeriod 2024 3) c = (Ok p, tick c) /\
  (0 <= operations_closed p' <= 0 + 1 /\
   0 <= properties_captured p' <= 0 + 0 /\
   (0 <=? Money.amount (revenue_generated p'))%float = true /\
   Money.currency (revenue_generated p') = Money.ARS /\
   period p' = Period.mkPeriod 2024 3).
Proof.
  intros c p p'. split; [reflexivity|].
  apply (performance_invariants
           [RemoveClose (Money.mkMoney 1 Money.ARS);
            RegisterClose (Money.mkMoney 5 Money.USD);
            RemoveClose (Money.mkMoney 10 Money.ARS)] p (tick c)).
  - vm_compute. discriminate.
  - vm_compute. discriminate.
  - reflexivity.
Defined.

End PerformanceFacts.
